(** * Talker backend: conversations, messages and the chat gateway

    A shallow embedding of the NestJS services of the talker backend
    ([ConversationService], [MessageService], [UserService.updateStatus] and
    [ChatGateway]) over an explicit model of the Prisma database, followed by
    the properties of the messaging core that the embedding settles. *)

From Stdlib Require Import ZArith List String Bool Lia DecimalString.
From Stdlib Require Import DecimalZ Sorted Permutation.
Import ListNotations.

Local Open Scope string_scope.
Local Open Scope Z_scope.

(** ** The database

    Identifiers are JavaScript numbers holding integers (autoincrement
    keys), dates are instants on the millisecond clock. *)

Definition Date := Z.

(** Modelled from the spec: the Prisma schema (prisma/schema.prisma) is not
    among the sources.  The row types below carry the fields of the
    specification's data model, under the names the services use for them in
    their queries ([userId] for the author of a message, [createdAt] for the
    time a participant joined). *)

Record User := mkUser {
  user_id : Z;
  user_username : string;
  user_avatar : option string;
  user_isOnline : bool;
  user_lastSeen : Date
}.

Record Conversation := mkConversation {
  conv_id : Z;
  conv_name : option string;
  conv_isGroup : bool;
  conv_lastMessageId : option Z;
  conv_updatedAt : Date
}.

Record Participant := mkParticipant {
  part_id : Z;
  part_userId : Z;
  part_conversationId : Z;
  part_isAdmin : bool;
  part_createdAt : Date
}.

Record Message := mkMessage {
  msg_id : Z;
  msg_userId : Z;
  msg_conversationId : Z;
  msg_content : string;
  msg_isDeleted : bool;
  msg_isRead : bool;
  msg_createdAt : Date;
  msg_updatedAt : Date
}.

(** Tables are kept in insertion order; the three counters are the
    autoincrement sequences of the keys. *)
Record Db := mkDb {
  users : list User;
  conversations : list Conversation;
  participants : list Participant;
  messages : list Message;
  nextConversationId : Z;
  nextParticipantId : Z;
  nextMessageId : Z
}.

(** ** Exceptions and the database monad *)

Inductive Exception :=
| BadRequestException (msg : string)
| ForbiddenException (msg : string)
| NotFoundException (msg : string)
| PrismaKnownRequestError (code : string)
| PrismaValidationError.

Inductive Outcome (A : Type) :=
| Returned (a : A)
| Thrown (e : Exception).
Arguments Returned {A} a.
Arguments Thrown {A} e.

(** An asynchronous method run to completion over a state [S]: it reads
    and writes the state and either returns or throws.  A throw keeps the
    writes made before it, unless it happens inside [transaction]. *)
Definition Eff (S A : Type) : Type := S -> Outcome A * S.

Definition ret {S A} (a : A) : Eff S A := fun s => (Returned a, s).
Definition throw {S A} (e : Exception) : Eff S A := fun s => (Thrown e, s).
Definition bind {S A B} (m : Eff S A) (k : A -> Eff S B) : Eff S B :=
  fun s =>
    match m s with
    | (Returned a, s') => k a s'
    | (Thrown e, s') => (Thrown e, s')
    end.
Definition query {S A} (f : S -> A) : Eff S A := fun s => (Returned (f s), s).
Definition write {S} (f : S -> S) : Eff S unit := fun s => (Returned tt, f s).

(** Service methods run over the database. *)
Definition Prisma (A : Type) : Type := Eff Db A.

Declare Scope prisma_scope.
Delimit Scope prisma_scope with prisma.
Notation "x <- m ;; k" := (bind m (fun x => k))
  (at level 100, m at next level, right associativity) : prisma_scope.
Notation "m ;;; k" := (bind m (fun _ => k))
  (at level 100, right associativity) : prisma_scope.
Local Open Scope prisma_scope.

(** A rollback undoes every write to the tables.  The key sequences are
    outside the transaction: values drawn by the statements that ran are
    not handed out again. *)
Definition rollback (before failed : Db) : Db :=
  mkDb (users before) (conversations before) (participants before)
       (messages before) (nextConversationId failed)
       (nextParticipantId failed) (nextMessageId failed).

(** [prisma.$transaction]: the writes are rolled back when the body throws. *)
Definition transaction {A} (m : Prisma A) : Prisma A :=
  fun db : Db =>
    match m db with
    | (Returned a, db') => (Returned a, db')
    | (Thrown e, db') => (Thrown e, rollback db db')
    end.

Definition P2002 := PrismaKnownRequestError "P2002".  (* unique constraint *)
Definition P2003 := PrismaKnownRequestError "P2003".  (* foreign key *)
Definition P2025 := PrismaKnownRequestError "P2025".  (* record not found *)

(** ** Table updates *)

Definition set_users (f : list User -> list User) (db : Db) : Db :=
  mkDb (f (users db)) (conversations db) (participants db) (messages db)
       (nextConversationId db) (nextParticipantId db) (nextMessageId db).
Definition set_conversations (f : list Conversation -> list Conversation) (db : Db) : Db :=
  mkDb (users db) (f (conversations db)) (participants db) (messages db)
       (nextConversationId db) (nextParticipantId db) (nextMessageId db).
Definition set_participants (f : list Participant -> list Participant) (db : Db) : Db :=
  mkDb (users db) (conversations db) (f (participants db)) (messages db)
       (nextConversationId db) (nextParticipantId db) (nextMessageId db).
Definition set_messages (f : list Message -> list Message) (db : Db) : Db :=
  mkDb (users db) (conversations db) (participants db) (f (messages db))
       (nextConversationId db) (nextParticipantId db) (nextMessageId db).

(** ** Stable sorting for [orderBy]

    Rows with equal keys keep their table order. *)
Section Sorting.
Context {A : Type} (key : A -> Z).

Fixpoint insertAsc (x : A) (l : list A) : list A :=
  match l with
  | [] => [x]
  | y :: l' => if key x <=? key y then x :: l else y :: insertAsc x l'
  end.
Definition sortAsc (l : list A) : list A := fold_right insertAsc [] l.

Fixpoint insertDesc (x : A) (l : list A) : list A :=
  match l with
  | [] => [x]
  | y :: l' => if key y <=? key x then x :: l else y :: insertDesc x l'
  end.
Definition sortDesc (l : list A) : list A := fold_right insertDesc [] l.
End Sorting.

(** ** Prisma model operations

    The constraints and defaults the operations apply are those the
    services rely on in their queries: the compound unique key
    [userId_conversationId] of participants, the relations participant ->
    user, participant -> conversation, message -> user and message ->
    conversation, and the column defaults [isAdmin = false],
    [isDeleted = false], [isRead = false], [createdAt = now()].  [findFirst]
    and [findUnique] return the first matching row in table order. *)

Definition user_findUnique (id : Z) (db : Db) : option User :=
  find (fun u => user_id u =? id) (users db).

Definition conversation_findUnique (id : Z) (db : Db) : option Conversation :=
  find (fun c => conv_id c =? id) (conversations db).

Definition isKey (userId conversationId : Z) (p : Participant) : bool :=
  (part_userId p =? userId) && (part_conversationId p =? conversationId).

Definition participant_findUnique (userId conversationId : Z) (db : Db)
  : option Participant :=
  find (isKey userId conversationId) (participants db).

Definition message_findUnique (id : Z) (db : Db) : option Message :=
  find (fun m => msg_id m =? id) (messages db).

(** An insert draws its key from the sequence before the constraints are
    checked: a refused insert leaves the tables alone and the value is
    spent. *)
Definition spendParticipantId (db : Db) : Db :=
  mkDb (users db) (conversations db) (participants db) (messages db)
       (nextConversationId db) (nextParticipantId db + 1) (nextMessageId db).

Definition spendMessageId (db : Db) : Db :=
  mkDb (users db) (conversations db) (participants db) (messages db)
       (nextConversationId db) (nextParticipantId db) (nextMessageId db + 1).

(** [participant.create({ data: { conversationId, userId, isAdmin } })] *)
Definition participant_create (now : Date) (conversationId userId : Z)
    (isAdmin : bool) : Prisma Participant :=
  fun db =>
    match user_findUnique userId db, conversation_findUnique conversationId db with
    | Some _, Some _ =>
        match participant_findUnique userId conversationId db with
        | Some _ => (Thrown P2002, spendParticipantId db)
        | None =>
            let p := mkParticipant (nextParticipantId db) userId conversationId
                                   isAdmin now in
            (Returned p,
             mkDb (users db) (conversations db) (participants db ++ [p])
                  (messages db) (nextConversationId db)
                  (nextParticipantId db + 1) (nextMessageId db))
        end
    | _, _ => (Thrown P2003, spendParticipantId db)
    end.

(** [participant.delete({ where: { userId_conversationId } })] *)
Definition participant_delete (userId conversationId : Z) : Prisma Participant :=
  fun db =>
    match participant_findUnique userId conversationId db with
    | None => (Thrown P2025, db)
    | Some p =>
        (Returned p,
         set_participants (filter (fun q => negb (isKey userId conversationId q))) db)
    end.

(** [participant.findMany({ where: { conversationId }, orderBy: { createdAt: 'asc' } })] *)
Definition participant_findMany_oldestFirst (conversationId : Z) (db : Db)
  : list Participant :=
  sortAsc part_createdAt
    (filter (fun p => part_conversationId p =? conversationId) (participants db)).

(** [participant.update({ where: { id }, data: { isAdmin: true } })] *)
Definition promote (id : Z) (p : Participant) : Participant :=
  if part_id p =? id
  then mkParticipant (part_id p) (part_userId p) (part_conversationId p) true
                     (part_createdAt p)
  else p.

Definition participant_update_isAdmin (id : Z) : Prisma unit :=
  fun db =>
    if existsb (fun p => part_id p =? id) (participants db)
    then (Returned tt, set_participants (map (promote id)) db)
    else (Thrown P2025, db).

(** Nested [participants: { create: [...] }]: the rows are inserted in
    order, each under the constraints of [participant_create]. *)
Fixpoint participants_createAll (now : Date) (conversationId : Z)
    (rows : list (Z * bool)) : Prisma unit :=
  match rows with
  | [] => ret tt
  | (userId, isAdmin) :: rest =>
      _ <- participant_create now conversationId userId isAdmin ;;
      participants_createAll now conversationId rest
  end.

(** [conversation.create({ data: { name, isGroup, participants: { create } } })];
    the nested write is one transaction. *)
Definition conversation_create (now : Date) (name : option string)
    (isGroup : bool) (rows : list (Z * bool)) : Prisma Conversation :=
  transaction
    (fun db =>
       let c := mkConversation (nextConversationId db) name isGroup None now in
       let db1 := mkDb (users db) (conversations db ++ [c]) (participants db)
                       (messages db) (nextConversationId db + 1)
                       (nextParticipantId db) (nextMessageId db) in
       match participants_createAll now (conv_id c) rows db1 with
       | (Returned _, db2) => (Returned c, db2)
       | (Thrown e, db2) => (Thrown e, db2)
       end).

(** [conversation.update({ where: { id }, data: { updatedAt, lastMessageId } })] *)
Definition touch (id : Z) (now : Date) (messageId : Z) (c : Conversation)
  : Conversation :=
  if conv_id c =? id
  then mkConversation (conv_id c) (conv_name c) (conv_isGroup c) (Some messageId) now
  else c.

Definition conversation_update (id : Z) (now : Date) (messageId : Z) : Prisma unit :=
  fun db =>
    match conversation_findUnique id db with
    | None => (Thrown P2025, db)
    | Some _ => (Returned tt, set_conversations (map (touch id now messageId)) db)
    end.

(** [conversation.delete({ where: { id } })]; rows that still refer to the
    conversation block the delete. *)
Definition conversation_delete (id : Z) : Prisma unit :=
  fun db =>
    match conversation_findUnique id db with
    | None => (Thrown P2025, db)
    | Some _ =>
        if existsb (fun p => part_conversationId p =? id) (participants db)
           || existsb (fun m => msg_conversationId m =? id) (messages db)
        then (Thrown P2003, db)
        else (Returned tt,
              set_conversations (filter (fun c => negb (conv_id c =? id))) db)
    end.

(** [message.deleteMany({ where: { conversationId } })] *)
Definition message_deleteMany (conversationId : Z) : Prisma unit :=
  write (set_messages (filter (fun m => negb (msg_conversationId m =? conversationId)))).

(** The [select] of public user fields that accompanies an [include]. *)
Record UserSelect := mkUserSelect {
  sel_id : Z;
  sel_username : string;
  sel_avatar : option string;
  sel_isOnline : bool
}.

Definition selectUser (u : User) : UserSelect :=
  mkUserSelect (user_id u) (user_username u) (user_avatar u) (user_isOnline u).

Definition includeUser (db : Db) (userId : Z) : option UserSelect :=
  option_map selectUser (user_findUnique userId db).

(** ** ConversationService *)

Record ConversationWithParticipants := mkCWP {
  cwp_conversation : Conversation;
  cwp_participants : list (Participant * option UserSelect)
}.

Definition hasParticipant (db : Db) (conversationId userId : Z) : bool :=
  existsb (fun p => (part_conversationId p =? conversationId)
                    && (part_userId p =? userId)) (participants db).

Definition participantsOf (db : Db) (conversationId : Z) : list Participant :=
  filter (fun p => part_conversationId p =? conversationId) (participants db).

Definition includeParticipants (db : Db) (c : Conversation)
  : ConversationWithParticipants :=
  mkCWP c (map (fun p => (p, includeUser db (part_userId p)))
               (participantsOf db (conv_id c))).

(** The [where] clause of the private-conversation lookup. *)
Definition isPrivateBetween (db : Db) (user1Id user2Id : Z) (c : Conversation) : bool :=
  negb (conv_isGroup c)
  && hasParticipant db (conv_id c) user1Id
  && hasParticipant db (conv_id c) user2Id.

Definition findOrCreatePrivateConversation (now : Date) (user1Id user2Id : Z)
  : Prisma ConversationWithParticipants :=
  if user1Id =? user2Id
  then throw (BadRequestException "You cannot start a conversation with yourself")
  else
    existing <- query (fun db =>
                  find (isPrivateBetween db user1Id user2Id) (conversations db)) ;;
    match existing with
    | Some c => query (fun db => includeParticipants db c)
    | None =>
        c <- conversation_create now None false
               [(user1Id, false); (user2Id, false)] ;;
        query (fun db => includeParticipants db c)
    end.

(** [participantIds] is [None] when the request body carries no list. *)
Definition createGroupConversation (now : Date) (name : string) (adminId : Z)
    (participantIds : option (list Z)) : Prisma Conversation :=
  match participantIds with
  | None | Some [] =>
      throw (BadRequestException
               "A group must have at least one participant other than the admin")
  | Some ids =>
      let uniqueParticipants := filter (fun id => negb (id =? adminId)) ids in
      conversation_create now (Some name) true
        ((adminId, true) :: map (fun id => (id, false)) uniqueParticipants)
  end.

Record ConversationListItem := mkItem {
  item_conversation : Conversation;
  item_participants : list (Participant * option UserSelect);
  item_messages : list Message
}.

Definition getUserConversations (userId : Z) : Prisma (list ConversationListItem) :=
  query (fun db =>
    map (fun c =>
           mkItem c
             (map (fun p => (p, includeUser db (part_userId p)))
                  (filter (fun p => negb (part_userId p =? userId))
                          (participantsOf db (conv_id c))))
             (firstn 1 (sortDesc msg_createdAt
                          (filter (fun m => msg_conversationId m =? conv_id c)
                                  (messages db)))))
        (sortDesc conv_updatedAt
           (filter (fun c => hasParticipant db (conv_id c) userId)
                   (conversations db)))).

Definition isParticipant (conversationId userId : Z) : Prisma bool :=
  query (fun db =>
    match participant_findUnique userId conversationId db with
    | Some _ => true
    | None => false
    end).

Definition validateMembership (conversationId userId : Z) : Prisma unit :=
  isMember <- isParticipant conversationId userId ;;
  if negb isMember
  then throw (ForbiddenException "Access denied to this conversation")
  else ret tt.

Definition getConversationDetails (conversationId userId : Z)
  : Prisma ConversationWithParticipants :=
  validateMembership conversationId userId ;;;
  conversation <- query (conversation_findUnique conversationId) ;;
  match conversation with
  | None => throw (NotFoundException "Conversation not found")
  | Some c => query (fun db => includeParticipants db c)
  end.

Definition addParticipant (now : Date) (conversationId targetUserId adminId : Z)
  : Prisma Participant :=
  conversation <- query (conversation_findUnique conversationId) ;;
  match conversation with
  | Some c =>
      if conv_isGroup c then
        requester <- query (fun db =>
                       find (fun p => part_userId p =? adminId)
                            (participantsOf db conversationId)) ;;
        match requester with
        | Some r =>
            if part_isAdmin r
            then participant_create now conversationId targetUserId false
            else throw (ForbiddenException "Only admins can add members")
        | None => throw (ForbiddenException "Only admins can add members")
        end
      else throw (BadRequestException "Cannot add participants to a private chat")
  | None => throw (BadRequestException "Cannot add participants to a private chat")
  end.

Definition removeParticipant (conversationId targetUserId requesterId : Z)
  : Prisma Participant :=
  requester <- query (participant_findUnique requesterId conversationId) ;;
  match requester with
  | None => throw (ForbiddenException "You are not a member of this conversation")
  | Some requester =>
      target <- query (participant_findUnique targetUserId conversationId) ;;
      match target with
      | None =>
          throw (NotFoundException
                   "Target user is not a participant in this conversation")
      | Some _ =>
          let isLeaving := targetUserId =? requesterId in
          if negb (part_isAdmin requester) && negb isLeaving
          then throw (ForbiddenException "Only admins can remove other members")
          else participant_delete targetUserId conversationId
      end
  end.

Record DeleteResult := mkDeleteResult {
  dr_success : bool;
  dr_message : string
}.

Definition deleteConversation (conversationId userId : Z) : Prisma DeleteResult :=
  transaction (
    participant <- query (participant_findUnique userId conversationId) ;;
    match participant with
    | None => throw (NotFoundException "Conversation not found or access denied")
    | Some participant =>
        participant_delete userId conversationId ;;;
        remainingParticipants <-
          query (participant_findMany_oldestFirst conversationId) ;;
        match remainingParticipants with
        | [] =>
            message_deleteMany conversationId ;;;
            conversation_delete conversationId ;;;
            ret (mkDeleteResult true "Conversation fully deleted")
        | oldest :: _ =>
            (if part_isAdmin participant
             then participant_update_isAdmin (part_id oldest)
             else ret tt) ;;;
            ret (mkDeleteResult true "You left the conversation")
        end
    end).

(** ** MessageService *)

(** The [select] of author fields included with a message. *)
Record Author := mkAuthor {
  author_id : Z;
  author_username : string;
  author_avatar : option string
}.

Definition selectAuthor (u : User) : Author :=
  mkAuthor (user_id u) (user_username u) (user_avatar u).

Record MessageWithUser := mkMWU {
  mwu_message : Message;
  mwu_user : Author
}.

(** [message.create({ data: { userId, conversationId, content }, include: { user } })] *)
Definition message_create (now : Date) (userId conversationId : Z)
    (content : string) : Prisma MessageWithUser :=
  fun db =>
    match user_findUnique userId db, conversation_findUnique conversationId db with
    | Some u, Some _ =>
        let m := mkMessage (nextMessageId db) userId conversationId content
                           false false now now in
        (Returned (mkMWU m (selectAuthor u)),
         mkDb (users db) (conversations db) (participants db)
              (messages db ++ [m]) (nextConversationId db)
              (nextParticipantId db) (nextMessageId db + 1))
    | _, _ => (Thrown P2003, spendMessageId db)
    end.

Definition createMessage (now : Date) (userId conversationId : Z)
    (content : string) : Prisma MessageWithUser :=
  message <- message_create now userId conversationId content ;;
  conversation_update conversationId now (msg_id (mwu_message message)) ;;;
  ret message.

Definition deletedPlaceholder : string := "This message was deleted".

Definition withContent (m : Message) (content : string) : Message :=
  mkMessage (msg_id m) (msg_userId m) (msg_conversationId m) content
            (msg_isDeleted m) (msg_isRead m) (msg_createdAt m) (msg_updatedAt m).

(** [take]/[skip] of [findMany]: a negative [skip] is rejected, a negative
    [take] counts from the end of the ordered rows. *)
Definition paginate {A} (take skip : Z) (rows : list A) : Outcome (list A) :=
  if skip <? 0 then Thrown PrismaValidationError
  else if 0 <=? take
       then Returned (firstn (Z.to_nat take) (skipn (Z.to_nat skip) rows))
       else Returned (rev (firstn (Z.to_nat (- take))
                                  (skipn (Z.to_nat skip) (rev rows)))).

(** [message.findMany({ where: { conversationId }, orderBy: { createdAt:
    'desc' }, take, skip, include })].  The query names no second sort key:
    rows created at the same instant come out here in table order, where
    the database may give them in any order. *)
Definition message_findMany_newestFirst (conversationId take skip : Z) (db : Db)
  : Outcome (list (Message * option Author)) :=
  paginate take skip
    (map (fun m => (m, option_map selectAuthor (user_findUnique (msg_userId m) db)))
         (sortDesc msg_createdAt
            (filter (fun m => msg_conversationId m =? conversationId)
                    (messages db)))).

Definition maskDeleted (row : Message * option Author) : Message * option Author :=
  let (msg, user) := row in
  if msg_isDeleted msg then (withContent msg deletedPlaceholder, user) else row.

Definition getMessagesByConversation (conversationId limit page : Z)
  : Prisma (list (Message * option Author)) :=
  let skip := (page - 1) * limit in
  fun db =>
    match message_findMany_newestFirst conversationId limit skip db with
    | Returned found => (Returned (map maskDeleted found), db)
    | Thrown e => (Thrown e, db)
    end.

(** [message.update({ where: { id }, data })] *)
Definition message_update (id : Z) (f : Message -> Message) : Prisma Message :=
  fun db =>
    match message_findUnique id db with
    | None => (Thrown P2025, db)
    | Some m =>
        (Returned (f m),
         set_messages (map (fun x => if msg_id x =? id then f x else x)) db)
    end.

Definition edited (newText : string) (now : Date) (m : Message) : Message :=
  mkMessage (msg_id m) (msg_userId m) (msg_conversationId m) newText
            (msg_isDeleted m) (msg_isRead m) (msg_createdAt m) now.

Definition softDeleted (m : Message) : Message :=
  mkMessage (msg_id m) (msg_userId m) (msg_conversationId m) (msg_content m)
            true (msg_isRead m) (msg_createdAt m) (msg_updatedAt m).

Definition editMessage (now : Date) (messageId userId : Z) (newText : string)
  : Prisma Message :=
  message <- query (message_findUnique messageId) ;;
  match message with
  | None => throw (NotFoundException "Message not found")
  | Some message =>
      if negb (msg_userId message =? userId)
      then throw (ForbiddenException "You can only edit your own messages")
      else message_update messageId (edited newText now)
  end.

Definition deleteMessage (messageId userId : Z) : Prisma Message :=
  message <- query (message_findUnique messageId) ;;
  match message with
  | None => throw (NotFoundException "Message not found")
  | Some message =>
      if negb (msg_userId message =? userId)
      then throw (ForbiddenException "You can only delete your own messages")
      else message_update messageId softDeleted
  end.

Definition markedRead (m : Message) : Message :=
  mkMessage (msg_id m) (msg_userId m) (msg_conversationId m) (msg_content m)
            (msg_isDeleted m) true (msg_createdAt m) (msg_updatedAt m).

Definition unreadFromOthers (conversationId userId : Z) (m : Message) : bool :=
  (msg_conversationId m =? conversationId)
  && negb (msg_userId m =? userId)
  && negb (msg_isRead m).

(** Returns the number of rows updated. *)
Definition markAsRead (conversationId userId : Z) : Prisma Z :=
  fun db =>
    (Returned (Z.of_nat (List.length (filter (unreadFromOthers conversationId userId)
                                        (messages db)))),
     set_messages (map (fun m => if unreadFromOthers conversationId userId m
                                 then markedRead m else m)) db).

(** ** UserService.updateStatus *)

Record UserStatus := mkUserStatus {
  status_id : Z;
  status_username : string;
  status_isOnline : bool;
  status_lastSeen : Date
}.

Definition withStatus (status : bool) (now : Date) (u : User) : User :=
  mkUser (user_id u) (user_username u) (user_avatar u) status now.

(** The gateway passes [userId.toString()] and the service converts it back
    with [Number]; on integers the round trip is the identity. *)
Definition updateStatus (now : Date) (userId : Z) (status : bool)
  : Prisma UserStatus :=
  fun db =>
    match user_findUnique userId db with
    | None => (Thrown P2025, db)
    | Some u =>
        (Returned (mkUserStatus (user_id u) (user_username u) status now),
         set_users (map (fun x => if user_id x =? userId
                                  then withStatus status now x else x)) db)
    end.

(** ** ChatGateway *)

(** A number (or [undefined]) inside a template literal: for the integers
    that serve as keys, its decimal numeral. *)
Definition showZ (z : Z) : string := NilZero.string_of_int (Z.to_int z).

Definition showId (id : option Z) : string :=
  match id with
  | Some z => showZ z
  | None => "undefined"
  end.

Definition conversationRoom (conversationId : Z) : string :=
  String.append "conversation_" (showZ conversationId).

Definition notificationRoom (userId : option Z) : string :=
  String.append "user_notifications_" (showId userId).

(** A socket.io client: its handshake, the session data the gateway keeps
    on it, the rooms it joined and whether it is still connected. *)
Record Socket := mkSocket {
  sock_id : string;
  handshake_auth_token : option string;
  handshake_query_token : option string;
  data_userId : option Z;
  sock_rooms : list string;
  sock_connected : bool
}.

Definition disconnect (client : Socket) : Socket :=
  mkSocket (sock_id client) (handshake_auth_token client)
           (handshake_query_token client) (data_userId client)
           (sock_rooms client) false.

Definition setUserId (userId : option Z) (client : Socket) : Socket :=
  mkSocket (sock_id client) (handshake_auth_token client)
           (handshake_query_token client) userId
           (sock_rooms client) (sock_connected client).

Definition join (room : string) (client : Socket) : Socket :=
  mkSocket (sock_id client) (handshake_auth_token client)
           (handshake_query_token client) (data_userId client)
           (sock_rooms client ++ [room]) (sock_connected client).

Inductive Audience :=
| Everyone                                          (* server.emit *)
| Room (name : string)                              (* server.to(name).emit *)
| RoomExceptSender (name : string) (sender : string). (* client.broadcast.to(name).emit *)

Inductive ServerEvent :=
| userStatusChanged (user : UserStatus)
| receiveMessage (message : MessageWithUser)
| newNotification (from : string) (text : string) (conversationId : Z)
| messagesMarkedAsRead (conversationId readBy : Z) (readAt : Date)
| userTyping (userName : string) (isTyping : bool)
| messageUpdated (messageId : Z) (newText : string)
| messageDeleted (messageId : Z).

Record Emission := mkEmission {
  em_to : Audience;
  em_event : ServerEvent
}.

(** The gateway's world: the database behind the services and the log of
    everything it has emitted, oldest first. *)
Record Server := mkServer {
  server_db : Db;
  server_emitted : list Emission
}.

Definition Gateway (A : Type) : Type := Eff Server A.

Definition liftDb {A} (m : Prisma A) : Gateway A :=
  fun srv =>
    let (r, db') := m (server_db srv) in
    (r, mkServer db' (server_emitted srv)).

Definition emit (to : Audience) (ev : ServerEvent) : Gateway unit :=
  write (fun srv => mkServer (server_db srv)
                             (server_emitted srv ++ [mkEmission to ev])).

(** JavaScript truthiness of a string and of a number. *)
Definition truthyString (s : option string) : option string :=
  match s with
  | Some "" => None
  | other => other
  end.

Definition truthyId (id : option Z) : option Z :=
  match id with
  | Some 0 => None
  | other => other
  end.

(** The decoded token; [id] is what the gateway reads from it. *)
Record JwtPayload := mkJwtPayload {
  payload_id : option Z
}.

(** ** AuthService: access tokens

    [getTokens] is the one place that signs tokens; the payload it signs is
    [{ sub: userId, email }]. *)
Module AuthService.

Record TokenClaims := mkTokenClaims {
  claims_sub : Z;
  claims_email : string
}.

(** [const payload = { sub: userId, email }] *)
Definition getTokens_payload (userId : Z) (email : string) : TokenClaims :=
  mkTokenClaims userId email.

(** The object [jwt.verifyAsync] resolves to holds the signed claims; it
    has no property [id], so reading [payload.id] gives [undefined]. *)
Definition decoded (claims : TokenClaims) : JwtPayload := mkJwtPayload None.

(** [verifyToken] over the library's [verifyAsync], the check of signature
    and expiry against [JWT_SECRET] that gives back the claims a token was
    signed with.  Its exception is rethrown as [UnauthorizedException]:
    [None] here. *)
Definition verifyToken (verifyAsync : string -> option TokenClaims)
    (token : string) : option JwtPayload :=
  match verifyAsync token with
  | Some claims => Some (decoded claims)
  | None => None
  end.

End AuthService.

(** What a handler acknowledges to the client: the payload or an
    [{ error }] object. *)
Inductive Ack (A : Type) :=
| AckError (error : string)
| AckOk (a : A).
Arguments AckError {A} error.
Arguments AckOk {A} a.

Record SendMessagePayload := mkSend {
  send_conversationId : Z;
  send_text : string;
  send_receiverId : option Z
}.

Record EditMessagePayload := mkEdit {
  edit_messageId : Z;
  edit_conversationId : Z;
  edit_text : string
}.

Record DeleteMessagePayload := mkDelete {
  delete_messageId : Z;
  delete_conversationId : Z
}.

Section ChatGateway.

(** The [authService.verifyToken] the gateway is constructed with; [None]
    stands for its [UnauthorizedException].  The application injects
    [AuthService.verifyToken]. *)
Variable verifyToken : string -> option JwtPayload.

Definition handleConnection (now : Date) (client : Socket) (srv : Server)
  : Socket * Server :=
  let token :=
    match truthyString (handshake_auth_token client) with
    | Some t => Some t
    | None => truthyString (handshake_query_token client)
    end in
  match token with
  | None => (disconnect client, srv)
  | Some token =>
      match verifyToken token with
      | None => (disconnect client, srv)
      | Some payload =>
          let userId := payload_id payload in
          let client := join (notificationRoom userId) (setUserId userId client) in
          match userId with
          | None => (disconnect client, srv)   (* [userId.toString()] throws *)
          | Some id =>
              match liftDb (updateStatus now id true) srv with
              | (Returned updatedUser, srv') =>
                  match emit Everyone (userStatusChanged updatedUser) srv' with
                  | (_, srv'') => (client, srv'')
                  end
              | (Thrown _, srv') => (disconnect client, srv')
              end
          end
      end
  end.

Definition handleDisconnect (now : Date) (client : Socket) : Gateway unit :=
  match truthyId (data_userId client) with
  | Some userId =>
      updatedUser <- liftDb (updateStatus now userId false) ;;
      emit Everyone (userStatusChanged updatedUser)
  | None => ret tt
  end.

Definition handleMessage (now : Date) (client : Socket)
    (payload : SendMessagePayload) : Gateway (Ack MessageWithUser) :=
  match data_userId client with
  | None => throw PrismaValidationError   (* lookup with an undefined key *)
  | Some senderId =>
      isMember <- liftDb (isParticipant (send_conversationId payload) senderId) ;;
      if negb isMember
      then ret (AckError "Unauthorized: You are not a member of this conversation")
      else
        savedMessage <- liftDb (createMessage now senderId
                                  (send_conversationId payload)
                                  (send_text payload)) ;;
        let roomName := conversationRoom (send_conversationId payload) in
        emit (Room roomName) (receiveMessage savedMessage) ;;;
        match truthyId (send_receiverId payload) with
        | Some receiverId =>
            emit (Room (notificationRoom (Some receiverId)))
                 (newNotification (author_username (mwu_user savedMessage))
                                  (send_text payload)
                                  (send_conversationId payload))
        | None => ret tt
        end ;;;
        ret (AckOk savedMessage)
  end.

Definition handleJoinRoom (client : Socket) (conversationId : Z)
  : Gateway (Socket * Ack (list (Message * option Author))) :=
  match data_userId client with
  | None => throw PrismaValidationError
  | Some userId =>
      isMember <- liftDb (isParticipant conversationId userId) ;;
      if negb isMember
      then ret (client, AckError "Unauthorized: Access denied to this room")
      else
        history <- liftDb (getMessagesByConversation conversationId 50 1) ;;
        ret (join (conversationRoom conversationId) client, AckOk history)
  end.

Definition handleMessagesRead (now : Date) (client : Socket)
    (conversationId : Z) : Gateway unit :=
  match data_userId client with
  | None => throw PrismaValidationError
  | Some userId =>
      liftDb (markAsRead conversationId userId) ;;;
      emit (RoomExceptSender (conversationRoom conversationId) (sock_id client))
           (messagesMarkedAsRead conversationId userId now)
  end.

Definition handleTyping (client : Socket) (conversationId : Z)
    (userName : string) (isTyping : bool) : Gateway unit :=
  emit (RoomExceptSender (conversationRoom conversationId) (sock_id client))
       (userTyping userName isTyping).

(** With no user id on the socket the ownership test of the message
    services compares a number with [undefined] and always fails. *)
Definition ownershipOfNobody (messageId : Z) (what : string) : Prisma Message :=
  message <- query (message_findUnique messageId) ;;
  match message with
  | None => throw (NotFoundException "Message not found")
  | Some _ => throw (ForbiddenException what)
  end.

Definition handleEditMessage (now : Date) (client : Socket)
    (payload : EditMessagePayload) : Gateway Message :=
  updatedMessage <-
    liftDb (match data_userId client with
            | Some userId =>
                editMessage now (edit_messageId payload) userId (edit_text payload)
            | None =>
                ownershipOfNobody (edit_messageId payload)
                                  "You can only edit your own messages"
            end) ;;
  emit (Room (conversationRoom (edit_conversationId payload)))
       (messageUpdated (edit_messageId payload) (edit_text payload)) ;;;
  ret updatedMessage.

Definition handleDeleteMessage (client : Socket)
    (payload : DeleteMessagePayload) : Gateway bool :=
  liftDb (match data_userId client with
          | Some userId => deleteMessage (delete_messageId payload) userId
          | None =>
              ownershipOfNobody (delete_messageId payload)
                                "You can only delete your own messages"
          end) ;;;
  emit (Room (conversationRoom (delete_conversationId payload)))
       (messageDeleted (delete_messageId payload)) ;;;
  ret true.

End ChatGateway.

(** ** Error taxonomy

    The specification names failures by kind; the services throw Nest
    exceptions.  [BadRequestException] is its ValidationError,
    [ForbiddenException] its AuthorizationError, [NotFoundException] its
    NotFoundError; whatever Prisma itself raises is a StorageError. *)
Inductive ErrorKind :=
| ValidationError
| AuthorizationError
| NotFoundError
| StorageError.

Definition kindOf (e : Exception) : ErrorKind :=
  match e with
  | BadRequestException _ => ValidationError
  | ForbiddenException _ => AuthorizationError
  | NotFoundException _ => NotFoundError
  | PrismaKnownRequestError _ => StorageError
  | PrismaValidationError => StorageError
  end.

(** ** Sample data

    Small databases used to run the services on concrete inputs. *)
Module Sample.

Definition user (id : Z) (name : string) : User := mkUser id name None false 0.

Definition people : list User :=
  [user 1 "amal"; user 2 "basil"; user 5 "dana"; user 7 "farid"; user 8 "hala"].

Definition empty : Db := mkDb people [] [] [] 10 1 1.

(** Conversation 10: a private chat of users 1 and 2 holding one live
    message of user 1 and one soft-deleted message of user 2. *)
Definition chat : Db :=
  mkDb people
       [mkConversation 10 None false (Some 2) 40]
       [mkParticipant 1 1 10 false 30; mkParticipant 2 2 10 false 30]
       [mkMessage 1 1 10 "hello" false false 35 35;
        mkMessage 2 2 10 "my password is hunter2" true false 40 40]
       11 3 3.

(** Group 20: admin 5 with members 7 and 8. *)
Definition team : Db :=
  mkDb people
       [mkConversation 20 (Some "team") true None 50]
       [mkParticipant 1 5 20 true 50; mkParticipant 2 7 20 false 50;
        mkParticipant 3 8 20 false 60]
       []
       21 4 1.

(** Group 20 after everybody but user 7 has gone, with one message left. *)
Definition lastOne : Db :=
  mkDb people
       [mkConversation 20 (Some "team") true (Some 1) 70]
       [mkParticipant 2 7 20 true 50]
       [mkMessage 1 7 20 "anyone here?" false false 70 70]
       21 4 2.

(** The access token [getTokens 1 "amal@talker.test"] issued to user 1 at
    sign-in, and the library's verification of it. *)
Definition verifyAsync (token : string) : option AuthService.TokenClaims :=
  if String.eqb token "token-of-amal"
  then Some (AuthService.getTokens_payload 1 "amal@talker.test")
  else None.

Definition verify : string -> option JwtPayload :=
  AuthService.verifyToken verifyAsync.

Definition phone : Socket := mkSocket "phone" (Some "token-of-amal") None None [] true.
Definition laptop : Socket := mkSocket "laptop" None (Some "token-of-amal") None [] true.

End Sample.

(** ** Vocabulary of the properties *)

(** Database consistency: what the database itself guarantees of every state the services can
    see: participants refer to existing users and conversations (foreign
    keys), and no row carries a key that its autoincrement sequence has not
    issued yet. *)
Record Consistent (db : Db) : Prop := mkConsistent {
  participant_user :
    forall p, In p (participants db) ->
              exists u, user_findUnique (part_userId p) db = Some u;
  participant_conversation :
    forall p, In p (participants db) ->
              exists c, conversation_findUnique (part_conversationId p) db = Some c;
  conversation_issued :
    forall c, In c (conversations db) -> conv_id c < nextConversationId db;
  participant_issued :
    forall p, In p (participants db) -> part_id p < nextParticipantId db;
  message_issued :
    forall m, In m (messages db) -> msg_id m < nextMessageId db
}.

Definition admins (db : Db) (conversationId : Z) : list Participant :=
  filter part_isAdmin (participantsOf db conversationId).

(** The two keys of the participant table. *)
Record KeysUnique (db : Db) : Prop := mkKeysUnique {
  ids_unique : NoDup (map part_id (participants db));
  membership_unique :
    forall p q, In p (participants db) -> In q (participants db) ->
                part_userId p = part_userId q ->
                part_conversationId p = part_conversationId q -> p = q
}.

Definition privateBetween (db : Db) (user1Id user2Id : Z) : list Conversation :=
  filter (isPrivateBetween db user1Id user2Id) (conversations db).

Definition conversationIdOf (r : Outcome ConversationWithParticipants) : Outcome Z :=
  match r with
  | Returned c => Returned (conv_id (cwp_conversation c))
  | Thrown e => Thrown e
  end.

(** A run of calls for the pair, each at its own time and with the two
    users in either order ([true]: swapped); the conversation ids they
    resolve to, and the database they leave. *)
Fixpoint resolveRepeatedly (calls : list (Date * bool)) (u1 u2 : Z) (db : Db)
  : list (Outcome Z) * Db :=
  match calls with
  | [] => ([], db)
  | (now, swapped) :: rest =>
      let (r, db1) :=
        if swapped : bool
        then findOrCreatePrivateConversation now u2 u1 db
        else findOrCreatePrivateConversation now u1 u2 db in
      let (rs, db2) := resolveRepeatedly rest u1 u2 db1 in
      (conversationIdOf r :: rs, db2)
  end.

(** The participant rows a nested [create] inserts, keys issued in order. *)
Fixpoint freshRows (now : Date) (conversationId firstId : Z)
    (rows : list (Z * bool)) : list Participant :=
  match rows with
  | [] => []
  | (userId, isAdmin) :: rest =>
      mkParticipant firstId userId conversationId isAdmin now
      :: freshRows now conversationId (firstId + 1) rest
  end.

Definition created (now : Date) (name : option string) (isGroup : bool)
    (rows : list (Z * bool)) (db : Db) : Db :=
  mkDb (users db)
       (conversations db
        ++ [mkConversation (nextConversationId db) name isGroup None now])
       (participants db
        ++ freshRows now (nextConversationId db) (nextParticipantId db) rows)
       (messages db) (nextConversationId db + 1)
       (nextParticipantId db + Z.of_nat (List.length rows))
       (nextMessageId db).

(** The rows [createGroupConversation] asks for. *)
Definition groupRows (adminId : Z) (ids : list Z) : list (Z * bool) :=
  (adminId, true)
  :: map (fun id => (id, false)) (filter (fun id => negb (id =? adminId)) ids).

Definition touched (now : Date) (messageId : Z) (c : Conversation) : Conversation :=
  mkConversation (conv_id c) (conv_name c) (conv_isGroup c) (Some messageId) now.


Definition notifications (payload : SendMessagePayload) (saved : MessageWithUser)
  : list Emission :=
  match truthyId (send_receiverId payload) with
  | Some receiverId =>
      [mkEmission (Room (notificationRoom (Some receiverId)))
                  (newNotification (author_username (mwu_user saved))
                                   (send_text payload)
                                   (send_conversationId payload))]
  | None => []
  end.

Definition presenceEvent (u : User) (isOnline : bool) (now : Date) : Emission :=
  mkEmission Everyone
    (userStatusChanged (mkUserStatus (user_id u) (user_username u) isOnline now)).


(** The head of a list is among its least elements. *)
Definition headIsLeast {A : Type} (key : A -> Z) (l : list A) : Prop :=
  match l with
  | [] => True
  | h :: _ => forall z, In z l -> key h <= key z
  end.

(** The invariant of the database: foreign keys, issued keys, unique keys. *)
Definition Invariant (db : Db) : Prop := Consistent db /\ KeysUnique db.

(** A method preserves the invariant when the database it leaves satisfies
    it, whether the method returned or threw. *)
Definition preserves {A} (m : Prisma A) : Prop :=
  forall db, Invariant db -> Invariant (snd (m db)).

(** The service methods that write, as the calls a client can make. *)
Inductive Call :=
| FindOrCreatePrivate (now : Date) (user1Id user2Id : Z)
| CreateGroup (now : Date) (name : string) (adminId : Z)
              (participantIds : option (list Z))
| AddParticipant (now : Date) (conversationId targetUserId adminId : Z)
| RemoveParticipant (conversationId targetUserId requesterId : Z)
| DeleteConversation (conversationId userId : Z)
| CreateMessage (now : Date) (userId conversationId : Z) (content : string)
| EditMessage (now : Date) (messageId userId : Z) (newText : string)
| DeleteMessage (messageId userId : Z)
| MarkAsRead (conversationId userId : Z)
| UpdateStatus (now : Date) (userId : Z) (status : bool).

(** The database a call leaves behind. *)
Definition perform (call : Call) (db : Db) : Db :=
  match call with
  | FindOrCreatePrivate now u1 u2 =>
      snd (findOrCreatePrivateConversation now u1 u2 db)
  | CreateGroup now name adminId ids =>
      snd (createGroupConversation now name adminId ids db)
  | AddParticipant now c target adminId =>
      snd (addParticipant now c target adminId db)
  | RemoveParticipant c target requester =>
      snd (removeParticipant c target requester db)
  | DeleteConversation c u => snd (deleteConversation c u db)
  | CreateMessage now u c content => snd (createMessage now u c content db)
  | EditMessage now m u newText => snd (editMessage now m u newText db)
  | DeleteMessage m u => snd (deleteMessage m u db)
  | MarkAsRead c u => snd (markAsRead c u db)
  | UpdateStatus now u status => snd (updateStatus now u status db)
  end.

(** The databases reachable from [start] by service calls. *)
Inductive Reachable (start : Db) : Db -> Prop :=
| reach_start : Reachable start start
| reach_call (db : Db) (call : Call) :
    Reachable start db -> Reachable start (perform call db).

(** Whether the user is a participant, as [isParticipant] answers. *)
Definition member (db : Db) (conversationId userId : Z) : bool :=
  match participant_findUnique userId conversationId db with
  | Some _ => true
  | None => false
  end.

(** The messages of a conversation, and the condition under which
    [orderBy createdAt] leaves the database no choice: no two of them were
    created at the same instant. *)
Definition messagesIn (db : Db) (conversationId : Z) : list Message :=
  filter (fun m => msg_conversationId m =? conversationId) (messages db).

Definition distinctTimes (db : Db) (conversationId : Z) : Prop :=
  NoDup (map msg_createdAt (messagesIn db conversationId)).

Definition newestFirst (rows : list Message) : Prop :=
  StronglySorted (fun a b => msg_createdAt b <= msg_createdAt a) rows.

(** The four tables of [db'] are those of [db]: no row was written. *)
Definition sameTables (db db' : Db) : Prop :=
  users db' = users db
  /\ conversations db' = conversations db
  /\ participants db' = participants db
  /\ messages db' = messages db.

(** No key sequence of [db'] is behind that of [db]. *)
Definition sequencesAdvance (db db' : Db) : Prop :=
  nextConversationId db <= nextConversationId db'
  /\ nextParticipantId db <= nextParticipantId db'
  /\ nextMessageId db <= nextMessageId db'.

(** A method that never turns a key sequence back. *)
Definition advances {A} (m : Prisma A) : Prop :=
  forall db, sequencesAdvance db (snd (m db)).

(** A method that draws no key at all. *)
Definition drawsNoKey {A} (m : Prisma A) : Prop :=
  forall db,
    nextConversationId (snd (m db)) = nextConversationId db
    /\ nextParticipantId (snd (m db)) = nextParticipantId db
    /\ nextMessageId (snd (m db)) = nextMessageId db.

(** ** Proof tools *)

Ltac run :=
  unfold emit, liftDb, transaction, bind, ret, throw, query, write in *;
  cbn beta iota in *.

(** *** Key sequences and rollbacks *)

Lemma rollback_unchanged (db failed : Db) :
  nextConversationId failed = nextConversationId db ->
  nextParticipantId failed = nextParticipantId db ->
  nextMessageId failed = nextMessageId db ->
  rollback db failed = db.
Proof.
  intros H1 H2 H3. unfold rollback. rewrite H1, H2, H3.
  destruct db; reflexivity.
Qed.

Lemma rollback_same (db : Db) : rollback db db = db.
Proof. apply rollback_unchanged; reflexivity. Qed.

Lemma drawsNoKey_ret {A} (a : A) : drawsNoKey (ret a).
Proof. intros db. repeat split. Qed.

Lemma drawsNoKey_throw {A} (e : Exception) : drawsNoKey (@throw Db A e).
Proof. intros db. repeat split. Qed.

Lemma drawsNoKey_query {A} (f : Db -> A) : drawsNoKey (query f).
Proof. intros db. repeat split. Qed.

Lemma drawsNoKey_bind {A B} (m : Prisma A) (k : A -> Prisma B) :
  drawsNoKey m -> (forall a, drawsNoKey (k a)) -> drawsNoKey (bind m k).
Proof.
  intros Hm Hk db. unfold bind. specialize (Hm db).
  destruct (m db) as [[a|e] db1]; cbn [snd] in *; [|exact Hm].
  destruct Hm as (H1 & H2 & H3). destruct (Hk a db1) as (K1 & K2 & K3).
  repeat split; congruence.
Qed.

Lemma drawsNoKey_participant_delete userId conversationId :
  drawsNoKey (participant_delete userId conversationId).
Proof.
  intros db. unfold participant_delete.
  destruct (participant_findUnique userId conversationId db);
    repeat split.
Qed.

Lemma drawsNoKey_participant_update_isAdmin id :
  drawsNoKey (participant_update_isAdmin id).
Proof.
  intros db. unfold participant_update_isAdmin.
  destruct (existsb _ _); repeat split.
Qed.

Lemma drawsNoKey_message_deleteMany conversationId :
  drawsNoKey (message_deleteMany conversationId).
Proof. intros db. repeat split. Qed.

Lemma drawsNoKey_conversation_delete id : drawsNoKey (conversation_delete id).
Proof.
  intros db. unfold conversation_delete.
  destruct (conversation_findUnique id db); [|repeat split].
  destruct (_ || _); repeat split.
Qed.

Create HintDb keyless.
#[local] Hint Resolve drawsNoKey_ret drawsNoKey_throw drawsNoKey_query
  drawsNoKey_participant_delete drawsNoKey_participant_update_isAdmin
  drawsNoKey_message_deleteMany drawsNoKey_conversation_delete : keyless.

Ltac keyless :=
  repeat first
    [ solve [auto with keyless]
    | apply drawsNoKey_bind; [|intros ?]
    | match goal with
      | |- drawsNoKey (if ?b then _ else _) => destruct b
      | |- drawsNoKey (match ?x with _ => _ end) => destruct x
      end ].

(** A transaction whose body draws no key leaves the database exactly as
    it was when it throws. *)
Lemma transaction_thrown_unchanged {A} (m : Prisma A) db e db' :
  drawsNoKey m -> transaction m db = (Thrown e, db') -> db' = db.
Proof.
  intros Hm. unfold transaction. specialize (Hm db).
  destruct (m db) as [[a|e'] db1]; [discriminate|].
  cbn [snd] in Hm. destruct Hm as (H1 & H2 & H3).
  intros H. injection H as _ <-. apply rollback_unchanged; assumption.
Qed.

Lemma advances_of_drawsNoKey {A} (m : Prisma A) : drawsNoKey m -> advances m.
Proof.
  intros Hm db. destruct (Hm db) as (H1 & H2 & H3).
  unfold sequencesAdvance. rewrite H1, H2, H3. repeat split; apply Z.le_refl.
Qed.

Lemma advances_bind {A B} (m : Prisma A) (k : A -> Prisma B) :
  advances m -> (forall a, advances (k a)) -> advances (bind m k).
Proof.
  intros Hm Hk db. unfold bind. specialize (Hm db).
  destruct (m db) as [[a|e] db1]; cbn [snd] in *; [|exact Hm].
  destruct Hm as (H1 & H2 & H3). destruct (Hk a db1) as (K1 & K2 & K3).
  unfold sequencesAdvance. repeat split; lia.
Qed.

Lemma advances_participant_create now conversationId userId isAdmin :
  advances (participant_create now conversationId userId isAdmin).
Proof.
  intros db. unfold participant_create, sequencesAdvance.
  destruct (user_findUnique userId db);
    [|cbn; repeat split; lia].
  destruct (conversation_findUnique conversationId db);
    [|cbn; repeat split; lia].
  destruct (participant_findUnique userId conversationId db);
    cbn; repeat split; lia.
Qed.

Lemma advances_participants_createAll now conversationId rows :
  advances (participants_createAll now conversationId rows).
Proof.
  induction rows as [|[u a] rows IH]; cbn [participants_createAll].
  - intros db. cbn. unfold sequencesAdvance. repeat split; lia.
  - apply advances_bind; [apply advances_participant_create|].
    intros _. exact IH.
Qed.

Lemma find_replace {A} (id : A -> Z) (f : A -> A) (i : Z) (l : list A) :
  (forall x, id (f x) = id x) ->
  find (fun x => id x =? i) (map (fun x => if id x =? i then f x else x) l)
  = option_map f (find (fun x => id x =? i) l).
Proof.
  intros Hid. induction l as [|x l IH]; [reflexivity|].
  cbn [map find]. destruct (id x =? i) eqn:E.
  - rewrite Hid, E. reflexivity.
  - rewrite E. exact IH.
Qed.

Lemma find_app_none {A} (f : A -> bool) (l l' : list A) :
  find f l = None -> find f (l ++ l') = find f l'.
Proof.
  induction l as [|x l IH]; [reflexivity|].
  cbn [find app]. destruct (f x); [discriminate|exact IH].
Qed.

Lemma find_app_some {A} (f : A -> bool) (l l' : list A) (a : A) :
  find f l = Some a -> find f (l ++ l') = Some a.
Proof.
  induction l as [|x l IH]; [discriminate|].
  cbn [find app]. destruct (f x); [trivial|exact IH].
Qed.

Lemma find_all_false {A} (f : A -> bool) (l : list A) :
  (forall x, In x l -> f x = false) -> find f l = None.
Proof.
  induction l as [|x l IH]; intros H; [reflexivity|].
  cbn [find]. rewrite (H x (or_introl eq_refl)).
  apply IH. intros y Hy. apply H. right. exact Hy.
Qed.

Lemma find_agree {A} (f g : A -> bool) (l : list A) :
  (forall x, In x l -> f x = g x) -> find f l = find g l.
Proof.
  induction l as [|x l IH]; intros H; [reflexivity|].
  cbn [find]. rewrite (H x (or_introl eq_refl)).
  rewrite IH; [reflexivity|]. intros y Hy. apply H. right. exact Hy.
Qed.

Lemma filter_agree {A} (f g : A -> bool) (l : list A) :
  (forall x, In x l -> f x = g x) -> filter f l = filter g l.
Proof.
  induction l as [|x l IH]; intros H; [reflexivity|].
  cbn [filter]. rewrite (H x (or_introl eq_refl)).
  rewrite IH; [reflexivity|]. intros y Hy. apply H. right. exact Hy.
Qed.

Lemma filter_all_false {A} (f : A -> bool) (l : list A) :
  (forall x, In x l -> f x = false) -> filter f l = [].
Proof.
  induction l as [|x l IH]; intros H; [reflexivity|].
  cbn [filter]. rewrite (H x (or_introl eq_refl)).
  apply IH. intros y Hy. apply H. right. exact Hy.
Qed.

(** ** Editing and deleting messages *)

Lemma editMessage_missing now db messageId userId newText :
  message_findUnique messageId db = None ->
  editMessage now messageId userId newText db
  = (Thrown (NotFoundException "Message not found"), db).
Proof. intros H. unfold editMessage. run. rewrite H. reflexivity. Qed.

Lemma deleteMessage_missing db messageId userId :
  message_findUnique messageId db = None ->
  deleteMessage messageId userId db
  = (Thrown (NotFoundException "Message not found"), db).
Proof. intros H. unfold deleteMessage. run. rewrite H. reflexivity. Qed.

Lemma editMessage_foreign now db messageId userId newText m :
  message_findUnique messageId db = Some m ->
  msg_userId m <> userId ->
  editMessage now messageId userId newText db
  = (Thrown (ForbiddenException "You can only edit your own messages"), db).
Proof.
  intros H Hne. unfold editMessage. run. rewrite H.
  apply Z.eqb_neq in Hne. rewrite Hne. reflexivity.
Qed.

Lemma deleteMessage_foreign db messageId userId m :
  message_findUnique messageId db = Some m ->
  msg_userId m <> userId ->
  deleteMessage messageId userId db
  = (Thrown (ForbiddenException "You can only delete your own messages"), db).
Proof.
  intros H Hne. unfold deleteMessage. run. rewrite H.
  apply Z.eqb_neq in Hne. rewrite Hne. reflexivity.
Qed.

Lemma editMessage_own now db messageId userId newText m :
  message_findUnique messageId db = Some m ->
  msg_userId m = userId ->
  editMessage now messageId userId newText db
  = (Returned (edited newText now m),
     set_messages (map (fun x => if msg_id x =? messageId
                                 then edited newText now x else x)) db).
Proof.
  intros H Hown. unfold editMessage. run. rewrite H.
  apply Z.eqb_eq in Hown. rewrite Hown. cbn [negb].
  unfold message_update. rewrite H. reflexivity.
Qed.

(** C6.  When the caller is not the author of the message, [editMessage]
    and [deleteMessage] both throw and leave the database exactly as it
    was: with a NotFoundError when no message has that id, with an
    AuthorizationError when the message exists and belongs to someone
    else. *)
Theorem edit_delete_refused_for_non_author
    (now : Date) (db : Db) (messageId userId : Z) (newText : string) :
  (forall m, message_findUnique messageId db = Some m -> msg_userId m <> userId) ->
  exists e1 e2,
    editMessage now messageId userId newText db = (Thrown e1, db)
    /\ deleteMessage messageId userId db = (Thrown e2, db)
    /\ kindOf e1 = match message_findUnique messageId db with
                    | Some _ => AuthorizationError
                    | None => NotFoundError
                    end
    /\ kindOf e2 = match message_findUnique messageId db with
                    | Some _ => AuthorizationError
                    | None => NotFoundError
                    end.
Proof.
  intros Hforeign.
  destruct (message_findUnique messageId db) as [m|] eqn:Hfind.
  - specialize (Hforeign m eq_refl).
    rewrite (editMessage_foreign now db messageId userId newText m Hfind Hforeign).
    rewrite (deleteMessage_foreign db messageId userId m Hfind Hforeign).
    do 2 eexists. repeat split.
  - rewrite (editMessage_missing now db messageId userId newText Hfind).
    rewrite (deleteMessage_missing db messageId userId Hfind).
    do 2 eexists. repeat split.
Qed.

Lemma edit_delete_refused_for_non_author_witness :
  exists e1 e2,
    editMessage 99 1 2 "hijacked" Sample.chat = (Thrown e1, Sample.chat)
    /\ deleteMessage 1 2 Sample.chat = (Thrown e2, Sample.chat)
    /\ kindOf e1 = AuthorizationError
    /\ kindOf e2 = AuthorizationError.
Proof.
  apply (edit_delete_refused_for_non_author 99 Sample.chat 1 2 "hijacked").
  intros m H. vm_compute in H. injection H as <-. vm_compute. discriminate.
Defined.

Lemma message_findUnique_after_update (f : Message -> Message) (id : Z) (db : Db) :
  (forall x, msg_id (f x) = msg_id x) ->
  message_findUnique id
    (set_messages (map (fun x => if msg_id x =? id then f x else x)) db)
  = option_map f (message_findUnique id db).
Proof.
  intros Hid. unfold message_findUnique, set_messages. cbn [messages].
  apply (find_replace msg_id f id (messages db) Hid).
Qed.

(** C10.  Editing a soft-deleted message as its author goes through: the
    service returns the record with the new text, the stored row carries the
    new text and is still flagged deleted, and the gateway broadcasts
    [messageUpdated] with the new text to the conversation's room. *)
Theorem edit_of_deleted_message_succeeds
    (now : Date) (client : Socket) (payload : EditMessagePayload)
    (srv : Server) (m : Message) :
  data_userId client = Some (msg_userId m) ->
  message_findUnique (edit_messageId payload) (server_db srv) = Some m ->
  msg_isDeleted m = true ->
  exists m' srv',
    handleEditMessage now client payload srv = (Returned m', srv')
    /\ editMessage now (edit_messageId payload) (msg_userId m) (edit_text payload)
                   (server_db srv) = (Returned m', server_db srv')
    /\ msg_content m' = edit_text payload
    /\ msg_isDeleted m' = true
    /\ message_findUnique (edit_messageId payload) (server_db srv') = Some m'
    /\ server_emitted srv'
       = (server_emitted srv
          ++ [mkEmission (Room (conversationRoom (edit_conversationId payload)))
                         (messageUpdated (edit_messageId payload)
                                         (edit_text payload))])%list.
Proof.
  intros Huser Hfind Hdel.
  pose proof (editMessage_own now (server_db srv) (edit_messageId payload)
                (msg_userId m) (edit_text payload) m Hfind eq_refl) as Hedit.
  unfold handleEditMessage. rewrite Huser. run. rewrite Hedit.
  do 2 eexists. split; [reflexivity|]. cbn [server_db server_emitted].
  split; [reflexivity|]. split; [reflexivity|]. split; [exact Hdel|].
  split; [|reflexivity].
  rewrite message_findUnique_after_update by reflexivity.
  rewrite Hfind. reflexivity.
Qed.

Lemma edit_of_deleted_message_succeeds_witness :
  exists m' srv',
    handleEditMessage 99 (setUserId (Some 2) Sample.laptop)
                      (mkEdit 2 10 "never mind") (mkServer Sample.chat [])
    = (Returned m', srv')
    /\ msg_content m' = "never mind"
    /\ msg_isDeleted m' = true
    /\ server_emitted srv'
       = [mkEmission (Room "conversation_10") (messageUpdated 2 "never mind")].
Proof.
  destruct (edit_of_deleted_message_succeeds 99 (setUserId (Some 2) Sample.laptop)
              (mkEdit 2 10 "never mind") (mkServer Sample.chat [])
              (mkMessage 2 2 10 "my password is hunter2" true false 40 40)
              eq_refl eq_refl eq_refl)
    as (m' & srv' & Hrun & _ & Hcontent & Hdeleted & _ & Hemit).
  exists m', srv'. repeat split; assumption.
Defined.

(** ** Removing a participant *)

Lemma removeParticipant_stranger db conversationId targetUserId requesterId :
  participant_findUnique requesterId conversationId db = None ->
  removeParticipant conversationId targetUserId requesterId db
  = (Thrown (ForbiddenException "You are not a member of this conversation"), db).
Proof. intros H. unfold removeParticipant. run. rewrite H. reflexivity. Qed.

Lemma removeParticipant_no_target db conversationId targetUserId requesterId r :
  participant_findUnique requesterId conversationId db = Some r ->
  participant_findUnique targetUserId conversationId db = None ->
  removeParticipant conversationId targetUserId requesterId db
  = (Thrown (NotFoundException
               "Target user is not a participant in this conversation"), db).
Proof. intros H1 H2. unfold removeParticipant. run. rewrite H1, H2. reflexivity. Qed.

Lemma removeParticipant_not_admin db conversationId targetUserId requesterId r t :
  participant_findUnique requesterId conversationId db = Some r ->
  participant_findUnique targetUserId conversationId db = Some t ->
  part_isAdmin r = false ->
  targetUserId <> requesterId ->
  removeParticipant conversationId targetUserId requesterId db
  = (Thrown (ForbiddenException "Only admins can remove other members"), db).
Proof.
  intros H1 H2 Hadm Hne. unfold removeParticipant. run. rewrite H1, H2, Hadm.
  apply Z.eqb_neq in Hne. rewrite Hne. reflexivity.
Qed.

Lemma removeParticipant_allowed db conversationId targetUserId requesterId r t :
  participant_findUnique requesterId conversationId db = Some r ->
  participant_findUnique targetUserId conversationId db = Some t ->
  part_isAdmin r = true \/ targetUserId = requesterId ->
  removeParticipant conversationId targetUserId requesterId db
  = (Returned t,
     set_participants (filter (fun q => negb (isKey targetUserId conversationId q))) db).
Proof.
  intros H1 H2 Hok. unfold removeParticipant. run. rewrite H1, H2.
  assert (negb (part_isAdmin r) && negb (targetUserId =? requesterId) = false) as ->.
  { destruct Hok as [-> | ->]; [reflexivity|].
    rewrite Z.eqb_refl. apply andb_false_r. }
  unfold participant_delete. rewrite H2. reflexivity.
Qed.

(** C9, as the code has it.  A refused [removeParticipant] leaves the
    database untouched and fails
    - with an AuthorizationError when the requester is not a participant of
      the conversation, whatever the target;
    - with a NotFoundError when the requester is a participant and the
      target is not;
    - with an AuthorizationError when both are participants and the
      requester is neither the target nor an admin. *)
Theorem removeParticipant_refusals
    (db : Db) (conversationId targetUserId requesterId : Z) :
  (participant_findUnique requesterId conversationId db = None
   \/ participant_findUnique targetUserId conversationId db = None
   \/ (targetUserId <> requesterId
       /\ forall r, participant_findUnique requesterId conversationId db = Some r ->
                    part_isAdmin r = false)) ->
  exists e,
    removeParticipant conversationId targetUserId requesterId db = (Thrown e, db)
    /\ kindOf e
       = match participant_findUnique requesterId conversationId db,
               participant_findUnique targetUserId conversationId db with
         | None, _ => AuthorizationError
         | Some _, None => NotFoundError
         | Some _, Some _ => AuthorizationError
         end.
Proof.
  intros Hcase.
  destruct (participant_findUnique requesterId conversationId db) as [r|] eqn:Hr.
  - destruct (participant_findUnique targetUserId conversationId db) as [t|] eqn:Ht.
    + destruct Hcase as [Hcase | [Hcase | [Hne Hadm]]]; try discriminate.
      rewrite (removeParticipant_not_admin db _ _ _ r t Hr Ht (Hadm r eq_refl) Hne).
      eexists. split; reflexivity.
    + rewrite (removeParticipant_no_target db _ _ _ r Hr Ht).
      eexists. split; reflexivity.
  - rewrite (removeParticipant_stranger db _ _ _ Hr).
    eexists. split; reflexivity.
Qed.

Lemma removeParticipant_refusals_witness :
  exists e,
    removeParticipant 20 8 7 Sample.team = (Thrown e, Sample.team)
    /\ kindOf e = AuthorizationError.
Proof.
  apply (removeParticipant_refusals Sample.team 20 8 7).
  right. right. split; [discriminate|].
  intros r H. vm_compute in H. injection H as <-. reflexivity.
Defined.

(** C9 as worded fails on the code: user 1 is not in group 20, and asking
    to remove member 7 is answered with an AuthorizationError where the
    claim has a NotFoundError. *)
Lemma removeParticipant_stranger_not_NotFound :
  participant_findUnique 1 20 Sample.team = None
  /\ ~ (exists e db',
          removeParticipant 20 7 1 Sample.team = (Thrown e, db')
          /\ kindOf e = NotFoundError).
Proof.
  split; [reflexivity|].
  intros (e & db' & Hrun & Hkind).
  vm_compute in Hrun. injection Hrun as <- _.
  discriminate Hkind.
Qed.

(** ** Presence *)

Lemma updateStatus_found now userId status db u :
  user_findUnique userId db = Some u ->
  updateStatus now userId status db
  = (Returned (mkUserStatus (user_id u) (user_username u) status now),
     set_users (map (fun x => if user_id x =? userId
                              then withStatus status now x else x)) db).
Proof. intros H. unfold updateStatus. rewrite H. reflexivity. Qed.

Lemma user_findUnique_after_status now userId status db :
  user_findUnique userId
    (set_users (map (fun x => if user_id x =? userId
                              then withStatus status now x else x)) db)
  = option_map (withStatus status now) (user_findUnique userId db).
Proof.
  unfold user_findUnique, set_users. cbn [users].
  apply (find_replace user_id (withStatus status now) userId (users db)).
  reflexivity.
Qed.

Lemma truthyString_nonempty (s : string) : s <> "" -> truthyString (Some s) = Some s.
Proof. destruct s; [congruence|reflexivity]. Qed.

Lemma truthyId_nonzero (z : Z) : z <> 0 -> truthyId (Some z) = Some z.
Proof. destruct z; [congruence|reflexivity|reflexivity]. Qed.




(** ** Consistency of the samples *)

Ltac each_row :=
  repeat match goal with
         | H : In _ (_ :: _) |- _ => destruct H as [<- | H]
         | H : In _ [] |- _ => destruct H
         end.

Ltac consistent_by_inspection :=
  constructor; cbn [users conversations participants messages
                    nextConversationId nextParticipantId nextMessageId];
  intros x Hx; unfold Sample.people in *; each_row;
  vm_compute; solve [eauto | reflexivity].

Lemma sample_chat_consistent : Consistent Sample.chat.
Proof. unfold Sample.chat. consistent_by_inspection. Qed.

Lemma sample_team_consistent : Consistent Sample.team.
Proof. unfold Sample.team. consistent_by_inspection. Qed.

Lemma sample_empty_consistent : Consistent Sample.empty.
Proof. unfold Sample.empty. consistent_by_inspection. Qed.

Lemma participant_findUnique_some userId conversationId db p :
  participant_findUnique userId conversationId db = Some p ->
  In p (participants db)
  /\ part_userId p = userId /\ part_conversationId p = conversationId.
Proof.
  intros H. apply find_some in H. destruct H as [Hin Hkey].
  unfold isKey in Hkey. apply andb_prop in Hkey. destruct Hkey as [H1 H2].
  apply Z.eqb_eq in H1, H2. auto.
Qed.

Lemma conversation_findUnique_some id db c :
  conversation_findUnique id db = Some c -> In c (conversations db) /\ conv_id c = id.
Proof.
  intros H. apply find_some in H. destruct H as [Hin Hid].
  apply Z.eqb_eq in Hid. auto.
Qed.

Lemma conversation_not_issued db :
  Consistent db -> conversation_findUnique (nextConversationId db) db = None.
Proof.
  intros Hc. apply find_all_false. intros c Hin.
  apply (conversation_issued db Hc) in Hin. apply Z.eqb_neq. lia.
Qed.

Lemma message_not_issued db :
  Consistent db -> message_findUnique (nextMessageId db) db = None.
Proof.
  intros Hc. apply find_all_false. intros m Hin.
  apply (message_issued db Hc) in Hin. apply Z.eqb_neq. lia.
Qed.

Lemma no_participant_of_unissued db p :
  Consistent db -> In p (participants db) ->
  part_conversationId p < nextConversationId db.
Proof.
  intros Hc Hin.
  destruct (participant_conversation db Hc p Hin) as [c Hfind].
  apply conversation_findUnique_some in Hfind. destruct Hfind as [Hin' <-].
  apply (conversation_issued db Hc). exact Hin'.
Qed.

(** ** Sending a message *)

Lemma createMessage_member now userId conversationId content db u c :
  user_findUnique userId db = Some u ->
  conversation_findUnique conversationId db = Some c ->
  let m := mkMessage (nextMessageId db) userId conversationId content
                     false false now now in
  createMessage now userId conversationId content db
  = (Returned (mkMWU m (selectAuthor u)),
     mkDb (users db)
          (map (touch conversationId now (nextMessageId db)) (conversations db))
          (participants db) (messages db ++ [m])
          (nextConversationId db) (nextParticipantId db) (nextMessageId db + 1)).
Proof.
  intros Hu Hc m. unfold createMessage, message_create. run.
  rewrite Hu, Hc. cbn [mwu_message msg_id].
  unfold conversation_update, conversation_findUnique. cbn [conversations].
  fold (conversation_findUnique conversationId db). rewrite Hc. reflexivity.
Qed.

(** C8.  On a consistent database, [sendMessage] from a socket whose user is
    a participant of the conversation stores a new message with that author
    and text, emits [receiveMessage] with it to the room named
    [conversation_] followed by the decimal numeral of the conversation's
    id (followed by the optional notification of the receiver), and leaves
    the conversation with [lastMessageId] equal to the
    new message's id and [updatedAt] set to the time of the call.  From a
    user who is not a participant it acknowledges an error and changes
    nothing: no message is stored and nothing is emitted. *)
Theorem sendMessage_persists_and_broadcasts
    (now : Date) (client : Socket) (payload : SendMessagePayload)
    (srv : Server) (senderId : Z) :
  Consistent (server_db srv) ->
  data_userId client = Some senderId ->
  match participant_findUnique senderId (send_conversationId payload)
                               (server_db srv) with
  | Some _ =>
      exists saved srv',
        handleMessage now client payload srv = (Returned (AckOk saved), srv')
        /\ msg_userId (mwu_message saved) = senderId
        /\ msg_content (mwu_message saved) = send_text payload
        /\ msg_conversationId (mwu_message saved) = send_conversationId payload
        /\ messages (server_db srv')
           = (messages (server_db srv) ++ [mwu_message saved])%list
        /\ message_findUnique (msg_id (mwu_message saved)) (server_db srv')
           = Some (mwu_message saved)
        /\ (exists c,
              conversation_findUnique (send_conversationId payload) (server_db srv')
              = Some c
              /\ conv_lastMessageId c = Some (msg_id (mwu_message saved))
              /\ conv_updatedAt c = now)
        /\ server_emitted srv'
           = (server_emitted srv
              ++ mkEmission
                   (Room (String.append "conversation_"
                            (NilZero.string_of_int
                               (Z.to_int (send_conversationId payload)))))
                   (receiveMessage saved)
                 :: notifications payload saved)%list
  | None =>
      exists error, handleMessage now client payload srv
                    = (Returned (AckError error), srv)
  end.
Proof.
  intros Hc Hclient. destruct srv as [db log]. cbn [server_db] in *.
  destruct (participant_findUnique senderId (send_conversationId payload) db)
    as [p|] eqn:Hp.
  - destruct (participant_findUnique_some _ _ _ _ Hp) as (Hin & Hpu & Hpc).
    destruct (participant_user db Hc p Hin) as [u Hu].
    destruct (participant_conversation db Hc p Hin) as [c Hconv].
    rewrite Hpu in Hu. rewrite Hpc in Hconv.
    pose proof (createMessage_member now senderId (send_conversationId payload)
                  (send_text payload) db u c Hu Hconv) as Hcreate.
    cbv zeta in Hcreate.
    unfold handleMessage, isParticipant. rewrite Hclient. run.
    cbn [server_db server_emitted]. rewrite Hp. cbn [negb server_db server_emitted].
    rewrite Hcreate.
    cbn [server_db server_emitted].
    set (m := mkMessage (nextMessageId db) senderId (send_conversationId payload)
                        (send_text payload) false false now now).
    set (saved := mkMWU m (selectAuthor u)).
    assert (Hnote :
      forall s : Server,
        (match truthyId (send_receiverId payload) with
         | Some receiverId =>
             fun s0 : Server =>
               (Returned tt,
                mkServer (server_db s0)
                  (server_emitted s0
                   ++ [mkEmission (Room (notificationRoom (Some receiverId)))
                         (newNotification (author_username (mwu_user saved))
                            (send_text payload) (send_conversationId payload))]))
         | None => fun s0 : Server => (Returned tt, s0)
         end) s
        = (Returned tt,
           mkServer (server_db s) (server_emitted s ++ notifications payload saved))).
    { intros [d l]. unfold notifications.
      destruct (truthyId (send_receiverId payload)); cbn [server_db server_emitted].
      - reflexivity.
      - rewrite app_nil_r. reflexivity. }
    rewrite Hnote. cbn [server_db server_emitted].
    exists saved. eexists. split; [reflexivity|].
    cbn [server_db server_emitted messages mwu_message saved m
         msg_userId msg_content msg_conversationId msg_id].
    repeat split.
    + unfold message_findUnique. cbn [messages].
      rewrite find_app_none by (apply (message_not_issued db Hc)).
      cbn [find msg_id]. rewrite Z.eqb_refl. reflexivity.
    + exists (touched now (nextMessageId db) c). repeat split.
      unfold conversation_findUnique. cbn [conversations].
      change (touch (send_conversationId payload) now (nextMessageId db))
        with (fun x => if conv_id x =? send_conversationId payload
                       then touched now (nextMessageId db) x else x).
      rewrite (find_replace conv_id (touched now (nextMessageId db)))
        by reflexivity.
      fold (conversation_findUnique (send_conversationId payload) db).
      rewrite Hconv. reflexivity.
    + rewrite <- app_assoc. reflexivity.
  - unfold handleMessage, isParticipant. rewrite Hclient. run.
    cbn [server_db]. rewrite Hp. cbn [negb]. eexists. reflexivity.
Qed.

(** The scenario of the specification: user 1 sends "hi" to conversation
    10; and member 7 writes to group 20, whose room is another one. *)
Lemma sendMessage_persists_and_broadcasts_witness :
  (exists saved srv',
     handleMessage 99 (setUserId (Some 1) Sample.phone) (mkSend 10 "hi" None)
                   (mkServer Sample.chat [])
     = (Returned (AckOk saved), srv')
     /\ msg_userId (mwu_message saved) = 1
     /\ msg_content (mwu_message saved) = "hi"
     /\ server_emitted srv'
        = [mkEmission (Room "conversation_10") (receiveMessage saved)]
     /\ option_map conv_lastMessageId (conversation_findUnique 10 (server_db srv'))
        = Some (Some (msg_id (mwu_message saved))))
  /\ (exists saved srv',
        handleMessage 99 (setUserId (Some 7) Sample.phone) (mkSend 20 "hello" None)
                      (mkServer Sample.team [])
        = (Returned (AckOk saved), srv')
        /\ msg_userId (mwu_message saved) = 7
        /\ server_emitted srv'
           = [mkEmission (Room "conversation_20") (receiveMessage saved)]).
Proof.
  split.
  - pose proof (sendMessage_persists_and_broadcasts 99
                  (setUserId (Some 1) Sample.phone) (mkSend 10 "hi" None)
                  (mkServer Sample.chat []) 1 sample_chat_consistent eq_refl) as H.
    assert (Hp : participant_findUnique 1 10 Sample.chat
                 = Some (mkParticipant 1 1 10 false 30)) by reflexivity.
    cbn [server_db send_conversationId] in H. rewrite Hp in H.
    destruct H as (saved & srv' & Hrun & Hu & Htext & _ & _ & _ & Hconv & Hemit).
    exists saved, srv'. repeat split; try assumption.
    destruct Hconv as (c & Hfound & Hlast & _).
    rewrite Hfound. cbn [option_map]. rewrite Hlast. reflexivity.
  - pose proof (sendMessage_persists_and_broadcasts 99
                  (setUserId (Some 7) Sample.phone) (mkSend 20 "hello" None)
                  (mkServer Sample.team []) 7 sample_team_consistent eq_refl) as H.
    assert (Hp : participant_findUnique 7 20 Sample.team
                 = Some (mkParticipant 2 7 20 false 50)) by reflexivity.
    cbn [server_db send_conversationId] in H. rewrite Hp in H.
    destruct H as (saved & srv' & Hrun & Hu & _ & _ & _ & _ & _ & Hemit).
    exists saved, srv'. repeat split; assumption.
Defined.

(** ** Creating conversations *)

Lemma freshRows_length now conversationId firstId rows :
  List.length (freshRows now conversationId firstId rows) = List.length rows.
Proof.
  revert firstId. induction rows as [|[u a] rows IH]; intros firstId;
    [reflexivity|].
  cbn [freshRows List.length]. rewrite IH. reflexivity.
Qed.

Lemma freshRows_in now conversationId firstId rows p :
  In p (freshRows now conversationId firstId rows) ->
  In (part_userId p, part_isAdmin p) rows
  /\ part_conversationId p = conversationId
  /\ firstId <= part_id p < firstId + Z.of_nat (List.length rows).
Proof.
  revert firstId. induction rows as [|[u a] rows IH]; intros firstId Hin;
    [destruct Hin|].
  cbn [freshRows] in Hin. cbn [List.length]. destruct Hin as [<- | Hin].
  - cbn. repeat split; try lia. left. reflexivity.
  - destruct (IH _ Hin) as (H1 & H2 & H3). repeat split; try lia.
    right. exact H1.
Qed.

Lemma participants_createAll_returned now conversationId rows db db' :
  participants_createAll now conversationId rows db = (Returned tt, db') ->
  db' = mkDb (users db) (conversations db)
             (participants db
              ++ freshRows now conversationId (nextParticipantId db) rows)
             (messages db) (nextConversationId db)
             (nextParticipantId db + Z.of_nat (List.length rows))
             (nextMessageId db).
Proof.
  revert db. induction rows as [|[u a] rows IH]; intros db Hrun.
  - cbn in Hrun. injection Hrun as <-. destruct db. cbn.
    rewrite app_nil_r, Z.add_0_r. reflexivity.
  - cbn [participants_createAll] in Hrun. run.
    unfold participant_create in Hrun.
    destruct (user_findUnique u db); [|discriminate].
    destruct (conversation_findUnique conversationId db); [|discriminate].
    destruct (participant_findUnique u conversationId db); [discriminate|].
    apply IH in Hrun. rewrite Hrun.
    cbn [users conversations participants messages nextConversationId
         nextParticipantId nextMessageId freshRows List.length].
    rewrite <- app_assoc. cbn [app]. f_equal. lia.
Qed.

Lemma participants_createAll_thrown now conversationId rows db e db' :
  participants_createAll now conversationId rows db = (Thrown e, db') ->
  kindOf e = StorageError.
Proof.
  revert db. induction rows as [|[u a] rows IH]; intros db Hrun.
  - discriminate.
  - cbn [participants_createAll] in Hrun. run.
    unfold participant_create in Hrun.
    destruct (user_findUnique u db);
      [|injection Hrun as <- _; reflexivity].
    destruct (conversation_findUnique conversationId db);
      [|injection Hrun as <- _; reflexivity].
    destruct (participant_findUnique u conversationId db);
      [injection Hrun as <- _; reflexivity|].
    apply IH in Hrun. exact Hrun.
Qed.

Lemma conversation_create_returned now name isGroup rows db c db' :
  conversation_create now name isGroup rows db = (Returned c, db') ->
  c = mkConversation (nextConversationId db) name isGroup None now
  /\ db' = created now name isGroup rows db.
Proof.
  unfold conversation_create, transaction. cbn [conv_id].
  destruct (participants_createAll _ _ _ _) as [[[]|e] db2] eqn:Hall;
    [|discriminate].
  intros H. injection H as <- <-. split; [reflexivity|].
  apply participants_createAll_returned in Hall. rewrite Hall. reflexivity.
Qed.

Lemma conversation_create_thrown now name isGroup rows db e db' :
  conversation_create now name isGroup rows db = (Thrown e, db') ->
  sameTables db db' /\ kindOf e = StorageError.
Proof.
  unfold conversation_create, transaction. cbn [conv_id].
  destruct (participants_createAll _ _ _ _) as [[[]|e'] db2] eqn:Hall;
    [discriminate|].
  intros H. injection H as <- <-. split; [repeat split|].
  apply participants_createAll_thrown in Hall. exact Hall.
Qed.

Lemma participantsOf_created now name isGroup rows db :
  Consistent db ->
  participantsOf (created now name isGroup rows db) (nextConversationId db)
  = freshRows now (nextConversationId db) (nextParticipantId db) rows.
Proof.
  intros Hc. unfold participantsOf, created. cbn [participants].
  rewrite filter_app.
  rewrite (filter_all_false _ (participants db)).
  - cbn [app]. apply forallb_filter_id. apply forallb_forall.
    intros p Hin. apply freshRows_in in Hin. destruct Hin as (_ & -> & _).
    apply Z.eqb_refl.
  - intros p Hin. apply Z.eqb_neq.
    pose proof (no_participant_of_unissued db p Hc Hin). lia.
Qed.

Lemma conversation_findUnique_created now name isGroup rows db :
  Consistent db ->
  conversation_findUnique (nextConversationId db) (created now name isGroup rows db)
  = Some (mkConversation (nextConversationId db) name isGroup None now).
Proof.
  intros Hc. unfold conversation_findUnique, created. cbn [conversations].
  rewrite find_app_none by (apply (conversation_not_issued db Hc)).
  cbn [find conv_id]. rewrite Z.eqb_refl. reflexivity.
Qed.

Lemma createGroupConversation_nonempty now name adminId id ids db :
  createGroupConversation now name adminId (Some (id :: ids)) db
  = conversation_create now (Some name) true (groupRows adminId (id :: ids)) db.
Proof. reflexivity. Qed.

Lemma groupRows_members now conversationId firstId adminId ids p :
  In p (freshRows now conversationId (firstId + 1)
          (map (fun id => (id, false))
               (filter (fun id => negb (id =? adminId)) ids))) ->
  part_userId p <> adminId /\ part_isAdmin p = false.
Proof.
  intros Hin. apply freshRows_in in Hin. destruct Hin as (Hin & _ & _).
  apply in_map_iff in Hin. destruct Hin as (id & Heq & Hid).
  injection Heq as Hu Ha. apply filter_In in Hid. destruct Hid as [_ Hne].
  apply negb_true_iff, Z.eqb_neq in Hne. split; [congruence|auto].
Qed.

(** What [createGroupConversation] guarantees on a consistent database.
    It throws a ValidationError, changing nothing, when [participantIds] is
    missing or empty, and never throws one when the list names somebody
    other than the creator.  Whenever it returns, the new conversation is
    stored as a group, exactly one of its participants is the creator, that
    participant is its only admin, and it has at least two participants
    provided the list names somebody other than the creator. *)
Lemma createGroupConversation_outcomes
    (now : Date) (name : string) (adminId : Z) (participantIds : option (list Z))
    (db : Db) :
  Consistent db ->
  let others :=
    match participantIds with
    | Some ids => filter (fun id => negb (id =? adminId)) ids
    | None => []
    end in
  (participantIds = None \/ participantIds = Some [] ->
   exists e, createGroupConversation now name adminId participantIds db
             = (Thrown e, db)
             /\ kindOf e = ValidationError)
  /\ (others <> [] ->
      forall e db',
        createGroupConversation now name adminId participantIds db
        = (Thrown e, db') ->
        kindOf e <> ValidationError)
  /\ (forall c db',
        createGroupConversation now name adminId participantIds db
        = (Returned c, db') ->
        conversation_findUnique (conv_id c) db' = Some c
        /\ conv_isGroup c = true
        /\ (exists creator,
              filter (fun p => part_userId p =? adminId)
                     (participantsOf db' (conv_id c)) = [creator]
              /\ filter part_isAdmin (participantsOf db' (conv_id c)) = [creator])
        /\ (others <> [] ->
            (2 <= List.length (participantsOf db' (conv_id c)))%nat)).
Proof.
  intros Hc others. split; [|split].
  - intros [-> | ->]; eexists; split; reflexivity.
  - intros Hothers e db' Hrun.
    destruct participantIds as [[|id ids]|];
      try (exfalso; apply Hothers; reflexivity).
    rewrite createGroupConversation_nonempty in Hrun.
    apply conversation_create_thrown in Hrun. destruct Hrun as [_ ->].
    discriminate.
  - intros c db' Hrun.
    destruct participantIds as [[|id ids]|]; try discriminate.
    rewrite createGroupConversation_nonempty in Hrun.
    apply conversation_create_returned in Hrun. destruct Hrun as [-> ->].
    cbn [conv_id conv_isGroup].
    rewrite conversation_findUnique_created, participantsOf_created by exact Hc.
    split; [reflexivity|]. split; [reflexivity|].
    unfold groupRows. cbn [freshRows]. fold others. split.
    + eexists. split.
      * cbn [filter part_userId]. rewrite Z.eqb_refl. f_equal.
        apply filter_all_false. intros p Hin.
        apply groupRows_members in Hin. apply Z.eqb_neq. tauto.
      * cbn [filter part_isAdmin]. f_equal.
        apply filter_all_false. intros p Hin.
        apply groupRows_members in Hin. tauto.
    + intros Hothers. cbn [List.length].
      rewrite freshRows_length, length_map.
      destruct others; [congruence|cbn [List.length]; lia].
Qed.

(** Admin 5 creates a group with 7, 8 and, by mistake, themselves. *)
Lemma createGroupConversation_outcomes_example :
  exists c db',
    createGroupConversation 100 "team" 5 (Some [7; 5; 8]) Sample.empty
    = (Returned c, db')
    /\ conv_isGroup c = true
    /\ (exists creator,
          filter (fun p => part_userId p =? 5) (participantsOf db' (conv_id c))
          = [creator]
          /\ filter part_isAdmin (participantsOf db' (conv_id c)) = [creator])
    /\ (2 <= List.length (participantsOf db' (conv_id c)))%nat.
Proof.
  destruct (createGroupConversation_outcomes 100 "team" 5 (Some [7; 5; 8])
              Sample.empty sample_empty_consistent)
    as (_ & _ & Hreturned).
  do 2 eexists. split; [reflexivity|].
  destruct (Hreturned _ _ eq_refl) as (_ & Hgroup & Hadmin & Hsize).
  split; [exact Hgroup|]. split; [exact Hadmin|].
  apply Hsize. vm_compute. discriminate.
Defined.

(** C7 at the failing input.  User 5 creates a group and lists only
    themselves.  The list is not empty, so the check for "at least one
    participant other than the admin" lets it through; after the creator is
    filtered out nobody else is left, and the group is created with the
    creator as its single participant instead of the two a new group has
    at least. *)
Theorem createGroupConversation_creator_only :
  let (r, db') := createGroupConversation 100 "solo" 5 (Some [5]) Sample.empty in
  r = Returned (mkConversation 10 (Some "solo") true None 100)
  /\ participantsOf db' 10 = [mkParticipant 1 5 10 true 100]
  /\ ~ (2 <= List.length (participantsOf db' 10))%nat.
Proof.
  vm_compute. split; [reflexivity|]. split; [reflexivity|]. lia.
Qed.

(** ** Private conversations *)

Lemma isPrivateBetween_sym db u1 u2 c :
  isPrivateBetween db u1 u2 c = isPrivateBetween db u2 u1 c.
Proof.
  unfold isPrivateBetween.
  destruct (negb (conv_isGroup c)), (hasParticipant db (conv_id c) u1),
    (hasParticipant db (conv_id c) u2); reflexivity.
Qed.

Lemma find_private_sym db u1 u2 :
  find (isPrivateBetween db u1 u2) (conversations db)
  = find (isPrivateBetween db u2 u1) (conversations db).
Proof. apply find_agree. intros c _. apply isPrivateBetween_sym. Qed.

Lemma privateBetween_sym db u1 u2 : privateBetween db u1 u2 = privateBetween db u2 u1.
Proof. apply filter_agree. intros c _. apply isPrivateBetween_sym. Qed.

Lemma findOrCreate_self now u db :
  findOrCreatePrivateConversation now u u db
  = (Thrown (BadRequestException "You cannot start a conversation with yourself"),
     db).
Proof. unfold findOrCreatePrivateConversation. rewrite Z.eqb_refl. reflexivity. Qed.

Lemma findOrCreate_existing now u1 u2 db c :
  u1 <> u2 ->
  find (isPrivateBetween db u1 u2) (conversations db) = Some c ->
  findOrCreatePrivateConversation now u1 u2 db
  = (Returned (includeParticipants db c), db).
Proof.
  intros Hne Hfind. unfold findOrCreatePrivateConversation.
  apply Z.eqb_neq in Hne. rewrite Hne. run. rewrite Hfind. reflexivity.
Qed.

Lemma participant_create_fresh now conversationId userId isAdmin db u c :
  user_findUnique userId db = Some u ->
  conversation_findUnique conversationId db = Some c ->
  participant_findUnique userId conversationId db = None ->
  participant_create now conversationId userId isAdmin db
  = (Returned (mkParticipant (nextParticipantId db) userId conversationId
                             isAdmin now),
     mkDb (users db) (conversations db)
          (participants db
           ++ [mkParticipant (nextParticipantId db) userId conversationId
                             isAdmin now])
          (messages db) (nextConversationId db) (nextParticipantId db + 1)
          (nextMessageId db)).
Proof.
  intros Hu Hc Hp. unfold participant_create. rewrite Hu, Hc, Hp. reflexivity.
Qed.

Lemma conversation_create_pair now u1 u2 db a b :
  Consistent db ->
  user_findUnique u1 db = Some a ->
  user_findUnique u2 db = Some b ->
  u1 <> u2 ->
  conversation_create now None false [(u1, false); (u2, false)] db
  = (Returned (mkConversation (nextConversationId db) None false None now),
     created now None false [(u1, false); (u2, false)] db).
Proof.
  intros Hc Ha Hb Hne.
  set (c := mkConversation (nextConversationId db) None false None now).
  assert (Hold : forall p, In p (participants db) ->
                           isKey u1 (nextConversationId db) p = false
                           /\ isKey u2 (nextConversationId db) p = false).
  { intros p Hin. pose proof (no_participant_of_unissued db p Hc Hin).
    unfold isKey.
    assert ((part_conversationId p =? nextConversationId db) = false) as ->
        by (apply Z.eqb_neq; lia).
    rewrite !andb_false_r. auto. }
  unfold conversation_create, transaction. cbn [conv_id participants_createAll].
  run.
  erewrite participant_create_fresh; cycle 1.
  { exact Ha. }
  { unfold conversation_findUnique. cbn [conversations].
    rewrite find_app_none by (apply (conversation_not_issued db Hc)).
    cbn [find conv_id]. rewrite Z.eqb_refl. reflexivity. }
  { apply find_all_false. cbn [participants]. intros p Hin. apply (Hold p Hin). }
  cbn [users conversations participants messages nextConversationId
       nextParticipantId nextMessageId].
  erewrite participant_create_fresh; cycle 1.
  { exact Hb. }
  { unfold conversation_findUnique. cbn [conversations].
    rewrite find_app_none by (apply (conversation_not_issued db Hc)).
    cbn [find conv_id]. rewrite Z.eqb_refl. reflexivity. }
  { unfold participant_findUnique. cbn [participants].
    rewrite find_app_none
      by (apply find_all_false; intros p Hin; apply (Hold p Hin)).
    cbn [find]. unfold isKey. cbn [part_userId part_conversationId].
    apply Z.eqb_neq in Hne. rewrite Hne. reflexivity. }
  cbn [users conversations participants messages nextConversationId
       nextParticipantId nextMessageId].
  unfold created. cbn [freshRows List.length].
  rewrite <- app_assoc. cbn [app]. do 2 f_equal. lia.
Qed.

Lemma existsb_all_false {A} (f : A -> bool) (l : list A) :
  (forall x, In x l -> f x = false) -> existsb f l = false.
Proof.
  induction l as [|x l IH]; intros H; [reflexivity|].
  cbn [existsb]. rewrite (H x (or_introl eq_refl)).
  apply IH. intros y Hy. apply H. right. exact Hy.
Qed.

Lemma hasParticipant_created_old now name isGroup rows db c u :
  Consistent db ->
  In c (conversations db) ->
  hasParticipant (created now name isGroup rows db) (conv_id c) u
  = hasParticipant db (conv_id c) u.
Proof.
  intros Hc Hin. unfold hasParticipant, created. cbn [participants].
  rewrite existsb_app, (existsb_all_false _ (freshRows _ _ _ _)).
  - apply orb_false_r.
  - intros p Hp. apply freshRows_in in Hp. destruct Hp as (_ & -> & _).
    pose proof (conversation_issued db Hc c Hin).
    assert ((nextConversationId db =? conv_id c) = false) as ->
        by (apply Z.eqb_neq; lia).
    reflexivity.
Qed.

Lemma private_created now u1 u2 db :
  Consistent db ->
  find (isPrivateBetween db u1 u2) (conversations db) = None ->
  let c := mkConversation (nextConversationId db) None false None now in
  let db' := created now None false [(u1, false); (u2, false)] db in
  find (isPrivateBetween db' u1 u2) (conversations db') = Some c
  /\ privateBetween db' u1 u2 = [c].
Proof.
  intros Hc Hnone c db'.
  assert (Hold : forall c0, In c0 (conversations db) ->
                            isPrivateBetween db' u1 u2 c0 = false).
  { intros c0 Hin. unfold isPrivateBetween, db'.
    rewrite !hasParticipant_created_old by assumption.
    apply (find_none _ _ Hnone c0 Hin). }
  assert (Hnew : isPrivateBetween db' u1 u2 c = true).
  { unfold isPrivateBetween, hasParticipant, db', created.
    cbn [participants conv_id conv_isGroup c freshRows negb andb].
    rewrite !existsb_app.
    cbn [existsb part_conversationId part_userId].
    rewrite !Z.eqb_refl. cbn [andb orb]. rewrite !orb_true_r. reflexivity. }
  unfold privateBetween.
  change (conversations db') with (conversations db ++ [c])%list.
  split.
  - rewrite find_app_none by (apply find_all_false; exact Hold).
    cbn [find]. rewrite Hnew. reflexivity.
  - rewrite filter_app, (filter_all_false _ (conversations db)) by exact Hold.
    cbn [filter app]. rewrite Hnew. reflexivity.
Qed.

Lemma findOrCreate_created now u1 u2 db a b :
  Consistent db ->
  user_findUnique u1 db = Some a ->
  user_findUnique u2 db = Some b ->
  u1 <> u2 ->
  find (isPrivateBetween db u1 u2) (conversations db) = None ->
  let c := mkConversation (nextConversationId db) None false None now in
  let db' := created now None false [(u1, false); (u2, false)] db in
  findOrCreatePrivateConversation now u1 u2 db
  = (Returned (includeParticipants db' c), db').
Proof.
  intros Hc Ha Hb Hne Hnone c db'. unfold findOrCreatePrivateConversation.
  pose proof Hne as Hneb. apply Z.eqb_neq in Hneb. rewrite Hneb. run.
  rewrite Hnone. rewrite (conversation_create_pair now u1 u2 db a b Hc Ha Hb Hne).
  reflexivity.
Qed.

Lemma resolveRepeatedly_settled u1 u2 db c calls :
  u1 <> u2 ->
  find (isPrivateBetween db u1 u2) (conversations db) = Some c ->
  resolveRepeatedly calls u1 u2 db
  = (repeat (Returned (conv_id c)) (List.length calls), db).
Proof.
  intros Hne Hfind. induction calls as [|[now swapped] calls IH]; [reflexivity|].
  cbn [resolveRepeatedly List.length repeat].
  destruct swapped.
  - rewrite (findOrCreate_existing now u2 u1 db c)
      by (auto; rewrite <- find_private_sym; exact Hfind).
    rewrite IH. reflexivity.
  - rewrite (findOrCreate_existing now u1 u2 db c) by auto.
    rewrite IH. reflexivity.
Qed.

Lemma find_some_filter_length {A} (f : A -> bool) (l : list A) (a : A) :
  find f l = Some a -> (1 <= List.length (filter f l))%nat.
Proof.
  intros H. apply find_some in H. destruct H as [Hin Hf].
  assert (In a (filter f l)) as Hin' by (apply filter_In; auto).
  destruct (filter f l); [destruct Hin'|cbn; lia].
Qed.

(** C4.  On a consistent database holding both users:
    [findOrCreatePrivateConversation] of a user with themselves throws a
    ValidationError and changes nothing; for two distinct users there is one
    conversation id to which every call of any run of calls resolves, in
    either order of the two users, the run stores at most one new
    conversation, and after it the pair shares exactly one private
    conversation if it shared none before (and the same ones as before
    otherwise). *)
Theorem private_conversation_resolves_once
    (now : Date) (db : Db) (u1 u2 : Z) (a b : User) :
  Consistent db ->
  user_findUnique u1 db = Some a ->
  user_findUnique u2 db = Some b ->
  (exists e, findOrCreatePrivateConversation now u1 u1 db = (Thrown e, db)
             /\ kindOf e = ValidationError)
  /\ (u1 <> u2 ->
      exists conversationId,
        forall calls : list (Date * bool),
          let ids := fst (resolveRepeatedly calls u1 u2 db) in
          let db' := snd (resolveRepeatedly calls u1 u2 db) in
          ids = repeat (Returned conversationId) (List.length calls)
          /\ (List.length (conversations db')
              <= List.length (conversations db) + 1)%nat
          /\ (calls <> [] ->
              List.length (privateBetween db' u1 u2)
              = Nat.max 1 (List.length (privateBetween db u1 u2)))).
Proof.
  intros Hc Ha Hb. split.
  - rewrite findOrCreate_self. eexists. split; reflexivity.
  - intros Hne.
    destruct (find (isPrivateBetween db u1 u2) (conversations db)) as [c|] eqn:Hfind.
    + exists (conv_id c). intros calls.
      rewrite (resolveRepeatedly_settled u1 u2 db c calls Hne Hfind).
      cbn [fst snd]. split; [reflexivity|]. split; [lia|]. intros _.
      pose proof (find_some_filter_length _ _ _ Hfind).
      unfold privateBetween. lia.
    + exists (nextConversationId db). intros [|[t swapped] calls].
      * cbn. split; [reflexivity|]. split; [lia|]. congruence.
      * assert (Hempty : privateBetween db u1 u2 = []).
        { apply filter_all_false. apply (find_none _ _ Hfind). }
        set (c := mkConversation (nextConversationId db) None false None t).
        assert (Hstep :
          exists db1,
            (if swapped
             then findOrCreatePrivateConversation t u2 u1 db
             else findOrCreatePrivateConversation t u1 u2 db)
            = (Returned (includeParticipants db1 c), db1)
            /\ find (isPrivateBetween db1 u1 u2) (conversations db1) = Some c
            /\ privateBetween db1 u1 u2 = [c]
            /\ List.length (conversations db1)
               = (List.length (conversations db) + 1)%nat).
        { destruct swapped.
          - rewrite find_private_sym in Hfind.
            exists (created t None false [(u2, false); (u1, false)] db).
            destruct (private_created t u2 u1 db Hc Hfind) as [Hf Hp].
            split; [apply (findOrCreate_created t u2 u1 db b a); auto|].
            rewrite find_private_sym, privateBetween_sym.
            repeat split; try assumption.
            unfold created. cbn [conversations]. rewrite length_app. reflexivity.
          - exists (created t None false [(u1, false); (u2, false)] db).
            destruct (private_created t u1 u2 db Hc Hfind) as [Hf Hp].
            split; [apply (findOrCreate_created t u1 u2 db a b); auto|].
            repeat split; try assumption.
            unfold created. cbn [conversations]. rewrite length_app. reflexivity. }
        destruct Hstep as (db1 & Hrun & Hf & Hp & Hlen).
        cbn [resolveRepeatedly]. rewrite Hrun.
        rewrite (resolveRepeatedly_settled u1 u2 db1 c calls Hne Hf).
        cbn [fst snd conversationIdOf includeParticipants cwp_conversation
             List.length repeat conv_id c].
        split; [reflexivity|]. split; [lia|]. intros _.
        rewrite Hp, Hempty. reflexivity.
Qed.

(** Users 1 and 5 have no conversation yet; three calls, the second with
    the users swapped, all resolve to conversation 10. *)
Lemma private_conversation_resolves_once_witness :
  fst (resolveRepeatedly [(100, false); (101, true); (102, false)] 1 5 Sample.empty)
  = [Returned 10; Returned 10; Returned 10]
  /\ List.length (privateBetween
                    (snd (resolveRepeatedly
                            [(100, false); (101, true); (102, false)]
                            1 5 Sample.empty)) 1 5) = 1%nat.
Proof.
  destruct (private_conversation_resolves_once 100 Sample.empty 1 5
              (Sample.user 1 "amal") (Sample.user 5 "dana")
              sample_empty_consistent eq_refl eq_refl) as [_ Hpair].
  destruct (Hpair ltac:(discriminate)) as [conversationId Hruns].
  destruct (Hruns [(100, false); (101, true); (102, false)])
    as (Hids & _ & Hcount).
  split.
  - rewrite Hids.
    pose proof (Hruns [(100, false)]) as (Hfirst & _).
    vm_compute in Hfirst. injection Hfirst as <-. reflexivity.
  - rewrite (Hcount ltac:(discriminate)). reflexivity.
Defined.

(** ** Reading messages *)

(** [getMessagesByConversation] never changes the database, and every
    soft-deleted message it returns carries the placeholder. *)
Lemma getMessagesByConversation_masks conversationId limit page db rows db' :
  getMessagesByConversation conversationId limit page db = (Returned rows, db') ->
  db' = db
  /\ forall m author, In (m, author) rows -> msg_isDeleted m = true ->
                      msg_content m = deletedPlaceholder.
Proof.
  unfold getMessagesByConversation.
  destruct (message_findMany_newestFirst _ _ _ _) as [found|e]; [|discriminate].
  intros H. injection H as <- <-. split; [reflexivity|].
  intros m author Hin Hdel. apply in_map_iff in Hin.
  destruct Hin as ([m0 a0] & Hmask & _). unfold maskDeleted in Hmask.
  destruct (msg_isDeleted m0) eqn:Hm0.
  - injection Hmask as <- _. reflexivity.
  - injection Hmask as <- _. congruence.
Qed.

(** The history handed out on [joinConversation] is masked as well. *)
Lemma handleJoinRoom_masks client conversationId srv client' rows srv' :
  handleJoinRoom client conversationId srv
  = (Returned (client', AckOk rows), srv') ->
  forall m author, In (m, author) rows -> msg_isDeleted m = true ->
                   msg_content m = deletedPlaceholder.
Proof.
  unfold handleJoinRoom. destruct (data_userId client); [|discriminate].
  run. destruct (isParticipant _ _ _) as [[[|]|e] db1]; cbn [negb];
    try discriminate.
  destruct (getMessagesByConversation _ _ _ _) as [[found|e] db2] eqn:Hget;
    [|discriminate].
  intros H. injection H as _ <- _.
  apply (getMessagesByConversation_masks _ _ _ _ _ _ Hget).
Qed.

(** C3 at the failing input.  In conversation 10 the newest message, from
    user 2, is soft-deleted.  The message page shows it with the
    placeholder, but the conversation list of user 1 returns it as its
    last message with the stored text. *)
Theorem getUserConversations_returns_deleted_content :
  (exists rows,
     fst (getMessagesByConversation 10 50 1 Sample.chat) = Returned rows
     /\ map (fun row => msg_content (fst row)) rows
        = [deletedPlaceholder; "hello"])
  /\ (exists item m,
        fst (getUserConversations 1 Sample.chat) = Returned [item]
        /\ item_messages item = [m]
        /\ msg_isDeleted m = true
        /\ msg_content m = "my password is hunter2"
        /\ msg_content m <> deletedPlaceholder).
Proof.
  split.
  - eexists. split; reflexivity.
  - do 2 eexists. split; [reflexivity|]. split; [reflexivity|].
    split; [reflexivity|]. split; [reflexivity|]. discriminate.
Qed.

(** ** Leaving a conversation *)

Lemma find_filter_out {A} (id : A -> Z) (i : Z) (l : list A) :
  find (fun x => id x =? i) (filter (fun x => negb (id x =? i)) l) = None.
Proof.
  apply find_all_false. intros x Hin. apply filter_In in Hin.
  destruct Hin as [_ H]. apply negb_true_iff in H. exact H.
Qed.

Lemma filter_filter_out {A} (f : A -> bool) (l : list A) :
  filter f (filter (fun x => negb (f x)) l) = [].
Proof.
  apply filter_all_false. intros x Hin. apply filter_In in Hin.
  destruct Hin as [_ H]. apply negb_true_iff in H. exact H.
Qed.

Lemma insertAsc_not_nil {A} (key : A -> Z) x l : insertAsc key x l <> [].
Proof. destruct l; cbn; [discriminate|]. destruct (_ <=? _); discriminate. Qed.

Lemma sortAsc_nil {A} (key : A -> Z) l : sortAsc key l = [] -> l = [].
Proof.
  destruct l as [|x l]; [reflexivity|]. cbn [sortAsc fold_right]. intros H.
  destruct (insertAsc_not_nil key x _ H).
Qed.

Lemma promote_conversation id p :
  part_conversationId (promote id p) = part_conversationId p.
Proof. unfold promote. destruct (part_id p =? id); reflexivity. Qed.

Lemma participantsOf_promoted id conversationId db :
  participantsOf (set_participants (map (promote id)) db) conversationId
  = map (promote id) (participantsOf db conversationId).
Proof.
  unfold participantsOf, set_participants. cbn [participants].
  induction (participants db) as [|p l IH]; [reflexivity|].
  cbn [map filter]. rewrite promote_conversation.
  destruct (part_conversationId p =? conversationId); cbn [map]; rewrite IH;
    reflexivity.
Qed.

(** What [deleteConversation] does, case by case. *)
Lemma deleteConversation_cases conversationId userId db r db' :
  deleteConversation conversationId userId db = (Returned r, db') ->
  exists leaving,
    participant_findUnique userId conversationId db = Some leaving
    /\ let left := set_participants
                     (filter (fun q => negb (isKey userId conversationId q))) db in
       match participant_findMany_oldestFirst conversationId left with
       | [] =>
           db' = set_conversations
                   (filter (fun c => negb (conv_id c =? conversationId)))
                   (set_messages
                      (filter (fun m => negb (msg_conversationId m =? conversationId)))
                      left)
       | oldest :: _ =>
           db' = if part_isAdmin leaving
                 then set_participants (map (promote (part_id oldest))) left
                 else left
       end.
Proof.
  unfold deleteConversation. run. intros H.
  destruct (participant_findUnique userId conversationId db) as [leaving|] eqn:Hp;
    [|discriminate].
  unfold participant_delete in H. rewrite Hp in H. cbn beta iota zeta in H.
  exists leaving. split; [reflexivity|]. cbv zeta.
  destruct (participant_findMany_oldestFirst _ _) as [|oldest rest] eqn:Hrest.
  - unfold message_deleteMany, conversation_delete in H. run.
    destruct (conversation_findUnique _ _); [|discriminate].
    destruct (_ || _); [discriminate|].
    injection H as _ <-. reflexivity.
  - destruct (part_isAdmin leaving).
    + unfold participant_update_isAdmin in H.
      destruct (existsb _ _); [|discriminate].
      injection H as _ <-. reflexivity.
    + injection H as _ <-. reflexivity.
Qed.

(** On the [deleteConversation] path a conversation never outlives its
    last participant: when the call returns and nobody is left, the
    conversation and all its messages are gone. *)
Lemma deleteConversation_cascades conversationId userId db r db' :
  deleteConversation conversationId userId db = (Returned r, db') ->
  participantsOf db' conversationId = [] ->
  conversation_findUnique conversationId db' = None
  /\ filter (fun m => msg_conversationId m =? conversationId) (messages db') = [].
Proof.
  intros Hrun Hnobody.
  destruct (deleteConversation_cases _ _ _ _ _ Hrun) as (leaving & _ & Hcase).
  cbv zeta in Hcase.
  destruct (participant_findMany_oldestFirst _ _) as [|oldest rest] eqn:Hrest.
  - subst db'. split.
    + apply (find_filter_out conv_id).
    + apply (filter_filter_out (fun m => msg_conversationId m =? conversationId)).
  - exfalso.
    assert (Hleft : participantsOf
                      (set_participants
                         (filter (fun q => negb (isKey userId conversationId q))) db)
                      conversationId <> []).
    { intros Hnil. unfold participant_findMany_oldestFirst in Hrest.
      unfold participantsOf in Hnil. rewrite Hnil in Hrest. discriminate. }
    destruct (part_isAdmin leaving); subst db'.
    + rewrite participantsOf_promoted in Hnobody.
      apply map_eq_nil in Hnobody. contradiction.
    + contradiction.
Qed.

(** C1 at the failing input.  User 7 is the last member of group 20 and
    leaves through [removeParticipant]: the call succeeds, and the
    conversation stays stored with no participant and with its message.
    Leaving through [deleteConversation] from the same state removes both. *)
Theorem removeParticipant_leaves_empty_conversation :
  (let (r, db') := removeParticipant 20 7 7 Sample.lastOne in
   r = Returned (mkParticipant 2 7 20 true 50)
   /\ participantsOf db' 20 = []
   /\ conversation_findUnique 20 db'
      = Some (mkConversation 20 (Some "team") true (Some 1) 70)
   /\ messages db' = [mkMessage 1 7 20 "anyone here?" false false 70 70])
  /\ (let (r, db'') := deleteConversation 20 7 Sample.lastOne in
      r = Returned (mkDeleteResult true "Conversation fully deleted")
      /\ conversation_findUnique 20 db'' = None
      /\ messages db'' = []).
Proof. vm_compute. repeat split. Qed.

(** ** Admin rotation *)

Section OldestFirst.
Context {A : Type} (key : A -> Z).

Lemma insertAsc_in x y l : In x (insertAsc key y l) <-> x = y \/ In x l.
Proof.
  induction l as [|h t IH]; cbn [insertAsc].
  - cbn. intuition congruence.
  - destruct (key y <=? key h); cbn [In]; [intuition congruence|].
    rewrite IH. cbn [In]. intuition congruence.
Qed.

Lemma sortAsc_in x l : In x (sortAsc key l) <-> In x l.
Proof.
  induction l as [|h t IH]; [reflexivity|].
  cbn [sortAsc fold_right]. fold (sortAsc key t).
  rewrite insertAsc_in, IH. cbn [In]. intuition congruence.
Qed.

Lemma insertAsc_headIsLeast y l :
  headIsLeast key l -> headIsLeast key (insertAsc key y l).
Proof.
  destruct l as [|h t]; cbn [insertAsc headIsLeast].
  - intros _ z [<- | []]. lia.
  - intros Hleast. destruct (key y <=? key h) eqn:Hcmp.
    + apply Z.leb_le in Hcmp. intros z [<- | Hz]; [lia|].
      specialize (Hleast z Hz). lia.
    + apply Z.leb_gt in Hcmp. intros z [<- | Hz]; [lia|].
      apply insertAsc_in in Hz. destruct Hz as [-> | Hz]; [lia|].
      apply Hleast. right. exact Hz.
Qed.

Lemma sortAsc_headIsLeast l : headIsLeast key (sortAsc key l).
Proof.
  induction l as [|h t IH]; [exact I|].
  cbn [sortAsc fold_right]. apply insertAsc_headIsLeast. exact IH.
Qed.

Lemma sortAsc_head l oldest rest :
  sortAsc key l = oldest :: rest ->
  In oldest l /\ forall z, In z l -> key oldest <= key z.
Proof.
  intros H. pose proof (sortAsc_headIsLeast l) as Hleast. rewrite H in Hleast.
  split.
  - apply sortAsc_in. rewrite H. left. reflexivity.
  - intros z Hz. apply Hleast. rewrite <- H. apply sortAsc_in. exact Hz.
Qed.
End OldestFirst.

Lemma filter_swap {A} (f g : A -> bool) (l : list A) :
  filter f (filter g l) = filter g (filter f l).
Proof.
  induction l as [|x l IH]; [reflexivity|]. cbn [filter].
  destruct (f x) eqn:Hf, (g x) eqn:Hg; cbn [filter];
    rewrite ?Hf, ?Hg, IH; reflexivity.
Qed.

Lemma NoDup_ids_filter (f : Participant -> bool) (l : list Participant) :
  NoDup (map part_id l) -> NoDup (map part_id (filter f l)).
Proof.
  induction l as [|x l IH]; intros Hnd; [exact Hnd|].
  cbn [map] in Hnd. inversion Hnd as [|? ? Hnotin Hrest]; subst.
  cbn [filter]. destruct (f x); [|auto].
  cbn [map]. constructor; [|auto].
  intros Hin. apply Hnotin. apply in_map_iff in Hin.
  destruct Hin as (y & Hy & Hyin). apply filter_In in Hyin.
  apply in_map_iff. exists y. tauto.
Qed.

Lemma promote_others id (l : list Participant) :
  ~ In id (map part_id l) -> map (promote id) l = l.
Proof.
  induction l as [|x l IH]; intros Hnotin; [reflexivity|].
  cbn [map] in *. unfold promote at 1.
  assert ((part_id x =? id) = false) as ->
      by (apply Z.eqb_neq; intros Heq; apply Hnotin; left; exact Heq).
  rewrite IH; [reflexivity|]. intros Hin. apply Hnotin. right. exact Hin.
Qed.

(** Promoting one row of a list that holds no admin yields exactly one. *)
Lemma promote_single (l : list Participant) (oldest : Participant) :
  NoDup (map part_id l) ->
  In oldest l ->
  filter part_isAdmin l = [] ->
  filter part_isAdmin (map (promote (part_id oldest)) l)
  = [promote (part_id oldest) oldest].
Proof.
  induction l as [|x l IH]; intros Hnd Hin Hnone; [destruct Hin|].
  cbn [map] in Hnd. inversion Hnd as [|? ? Hnotin Hrest]; subst.
  cbn [filter] in Hnone. destruct (part_isAdmin x) eqn:Hx; [discriminate|].
  cbn [map filter]. destruct Hin as [-> | Hin].
  - rewrite (promote_others _ l Hnotin), Hnone.
    unfold promote. rewrite Z.eqb_refl. reflexivity.
  - assert ((part_id x =? part_id oldest) = false) as Hneq.
    { apply Z.eqb_neq. intros Heq. apply Hnotin. rewrite Heq.
      apply in_map. exact Hin. }
    unfold promote at 1. rewrite Hneq, Hx. apply IH; assumption.
Qed.

Lemma promote_createdAt id p : part_createdAt (promote id p) = part_createdAt p.
Proof. unfold promote. destruct (part_id p =? id); reflexivity. Qed.

(** On the [deleteConversation] path the admin invariant is kept.  If the
    conversation had exactly one admin and somebody is left after the call,
    then it has exactly one admin again: the same one when a non-admin
    left, and otherwise a participant no other remaining participant joined
    before. *)
Lemma deleteConversation_keeps_one_admin conversationId userId db r db' admin :
  KeysUnique db ->
  admins db conversationId = [admin] ->
  deleteConversation conversationId userId db = (Returned r, db') ->
  participantsOf db' conversationId <> [] ->
  exists admin',
    admins db' conversationId = [admin']
    /\ (part_userId admin <> userId -> admin' = admin)
    /\ (part_userId admin = userId ->
        forall q, In q (participantsOf db' conversationId) ->
                  part_createdAt admin' <= part_createdAt q).
Proof.
  intros [Hids Hkeys] Hadmin Hrun Hsomebody.
  destruct (deleteConversation_cases _ _ _ _ _ Hrun) as (leaving & Hfind & Hcase).
  cbv zeta in Hcase.
  destruct (participant_findUnique_some _ _ _ _ Hfind) as (Hin & Hlu & Hlc).
  set (kept := fun q => negb (isKey userId conversationId q)) in *.
  set (inside := fun p => part_conversationId p =? conversationId).
  assert (Hadmin_in : forall x, In x (participants db) -> inside x = true ->
                                part_isAdmin x = true -> x = admin).
  { intros x Hx Hc Ha.
    assert (In x (admins db conversationId)) as Hxa.
    { unfold admins, participantsOf. apply filter_In. split; [|exact Ha].
      apply filter_In. split; assumption. }
    rewrite Hadmin in Hxa. destruct Hxa as [<- | []]. reflexivity. }
  assert (Hadmin_spec : In admin (participants db) /\ inside admin = true
                        /\ part_isAdmin admin = true).
  { assert (In admin (admins db conversationId)) as Ha
        by (rewrite Hadmin; left; reflexivity).
    unfold admins, participantsOf in Ha. apply filter_In in Ha.
    destruct Ha as [Ha Hflag]. apply filter_In in Ha. tauto. }
  destruct Hadmin_spec as (Hain & Hac & Haflag).
  assert (Hl_inside : inside leaving = true) by (apply Z.eqb_eq; exact Hlc).
  assert (Hl_gone : kept leaving = false).
  { unfold kept, isKey. rewrite Hlu, Hlc, !Z.eqb_refl. reflexivity. }
  assert (Hleft : participantsOf (set_participants (filter kept) db) conversationId
                  = filter inside (filter kept (participants db)))
    by reflexivity.
  unfold participant_findMany_oldestFirst in Hcase.
  fold (participantsOf (set_participants (filter kept) db) conversationId) in Hcase.
  rewrite Hleft in Hcase.
  destruct (sortAsc part_createdAt (filter inside (filter kept (participants db))))
    as [|oldest rest] eqn:Hsorted.
  { exfalso. apply Hsomebody. subst db'. apply sortAsc_nil in Hsorted.
    exact Hsorted. }
  apply sortAsc_head in Hsorted. destruct Hsorted as [Hold_in Hold_least].
  destruct (part_isAdmin leaving) eqn:Hlflag; subst db'.
  - (* the admin left *)
    assert (leaving = admin) as Hla by (apply Hadmin_in; assumption).
    exists (promote (part_id oldest) oldest).
    unfold admins. rewrite participantsOf_promoted, Hleft.
    split; [|split].
    + apply promote_single.
      * apply NoDup_ids_filter, NoDup_ids_filter. exact Hids.
      * exact Hold_in.
      * apply filter_all_false. intros x Hx.
        apply filter_In in Hx. destruct Hx as [Hx Hxc].
        apply filter_In in Hx. destruct Hx as [Hx Hxk].
        destruct (part_isAdmin x) eqn:Hxa; [|reflexivity].
        rewrite (Hadmin_in x Hx Hxc Hxa), <- Hla, Hl_gone in Hxk. discriminate.
    + intros Hother. exfalso. apply Hother. rewrite <- Hla. exact Hlu.
    + intros _ q Hq. apply in_map_iff in Hq. destruct Hq as (q0 & <- & Hq0).
      rewrite !promote_createdAt. apply Hold_least. exact Hq0.
  - (* a non-admin left *)
    assert (kept admin = true) as Hkept.
    { destruct (kept admin) eqn:Hk; [reflexivity|]. exfalso.
      unfold kept, isKey in Hk. apply negb_false_iff in Hk.
      apply andb_prop in Hk. destruct Hk as [Hu Hc].
      apply Z.eqb_eq in Hu, Hc.
      assert (admin = leaving) as Heq
          by (apply Hkeys; auto; congruence).
      rewrite Heq in Haflag. congruence. }
    exists admin. unfold admins. rewrite Hleft.
    split; [|split].
    + rewrite (filter_swap inside kept), (filter_swap part_isAdmin kept).
      fold inside.
      change (filter part_isAdmin (filter inside (participants db)))
        with (admins db conversationId).
      rewrite Hadmin. cbn [filter]. rewrite Hkept. reflexivity.
    + reflexivity.
    + intros Hsame. exfalso.
      assert (admin = leaving) as Heq.
      { apply Hkeys; auto; [congruence|].
        apply Z.eqb_eq in Hac. congruence. }
      rewrite Heq in Haflag. congruence.
Qed.

(** C2 at the failing input.  In group 20 the admin, user 5, leaves through
    [removeParticipant]: the call succeeds and members 7 and 8 remain with
    no admin among them.  Leaving through [deleteConversation] from the same
    state promotes member 7, who joined first. *)
Theorem removeParticipant_admin_leaves_no_admin :
  (let (r, db') := removeParticipant 20 5 5 Sample.team in
   r = Returned (mkParticipant 1 5 20 true 50)
   /\ map part_userId (participantsOf db' 20) = [7; 8]
   /\ admins db' 20 = [])
  /\ (let (r, db'') := deleteConversation 20 5 Sample.team in
      r = Returned (mkDeleteResult true "You left the conversation")
      /\ map part_userId (participantsOf db'' 20) = [7; 8]
      /\ admins db'' 20 = [mkParticipant 2 7 20 true 50]).
Proof. vm_compute. repeat split. Qed.

(** ** The invariant is kept by every call *)

Lemma preserves_ret {A} (a : A) : preserves (ret a).
Proof. intros db H. exact H. Qed.

Lemma preserves_throw {A} (e : Exception) : preserves (@throw Db A e).
Proof. intros db H. exact H. Qed.

Lemma preserves_query {A} (f : Db -> A) : preserves (query f).
Proof. intros db H. exact H. Qed.

Lemma preserves_bind {A B} (m : Prisma A) (k : A -> Prisma B) :
  preserves m -> (forall a, preserves (k a)) -> preserves (bind m k).
Proof.
  intros Hm Hk db H. unfold bind. specialize (Hm db H).
  destruct (m db) as [[a|e] db1]; cbn [snd] in *; [apply Hk|]; exact Hm.
Qed.

(** The invariant speaks of the sequences only through the keys they have
    issued: it survives their moving on. *)
Lemma invariant_advanced db db' :
  Invariant db -> sameTables db db' -> sequencesAdvance db db' -> Invariant db'.
Proof.
  intros [[] []] (Hu & Hc & Hp & Hm) (H1 & H2 & H3).
  split; constructor; unfold user_findUnique, conversation_findUnique in *;
    rewrite ?Hu, ?Hc, ?Hp, ?Hm; try assumption.
  - intros c Hin. specialize (conversation_issued0 c Hin). lia.
  - intros p Hin. specialize (participant_issued0 p Hin). lia.
  - intros m Hin. specialize (message_issued0 m Hin). lia.
Qed.

Lemma invariant_spendParticipantId db :
  Invariant db -> Invariant (spendParticipantId db).
Proof.
  intros H. apply (invariant_advanced db); [exact H|repeat split|].
  unfold sequencesAdvance, spendParticipantId. cbn. repeat split; lia.
Qed.

Lemma invariant_spendMessageId db :
  Invariant db -> Invariant (spendMessageId db).
Proof.
  intros H. apply (invariant_advanced db); [exact H|repeat split|].
  unfold sequencesAdvance, spendMessageId. cbn. repeat split; lia.
Qed.

Lemma preserves_transaction {A} (m : Prisma A) :
  preserves m -> advances m -> preserves (transaction m).
Proof.
  intros Hm Ha db H. unfold transaction. specialize (Hm db H).
  specialize (Ha db).
  destruct (m db) as [[a|e] db1]; cbn [snd] in *; [assumption|].
  apply (invariant_advanced db); [exact H|repeat split|exact Ha].
Qed.

Lemma invariant_intro db :
  (forall p, In p (participants db) ->
             exists u, user_findUnique (part_userId p) db = Some u) ->
  (forall p, In p (participants db) ->
             exists c, conversation_findUnique (part_conversationId p) db = Some c) ->
  (forall c, In c (conversations db) -> conv_id c < nextConversationId db) ->
  (forall p, In p (participants db) -> part_id p < nextParticipantId db) ->
  (forall m, In m (messages db) -> msg_id m < nextMessageId db) ->
  NoDup (map part_id (participants db)) ->
  (forall p q, In p (participants db) -> In q (participants db) ->
               part_userId p = part_userId q ->
               part_conversationId p = part_conversationId q -> p = q) ->
  Invariant db.
Proof. intros. split; constructor; assumption. Qed.

Lemma find_filter_other {A} (id : A -> Z) (i j : Z) (l : list A) :
  i <> j ->
  find (fun x => id x =? i) (filter (fun x => negb (id x =? j)) l)
  = find (fun x => id x =? i) l.
Proof.
  intros Hne. induction l as [|x l IH]; [reflexivity|]. cbn [filter find].
  destruct (id x =? j) eqn:Hj; cbn [negb find].
  - apply Z.eqb_eq in Hj.
    assert ((id x =? i) = false) as -> by (apply Z.eqb_neq; lia). exact IH.
  - destruct (id x =? i); [reflexivity|exact IH].
Qed.

Lemma find_map_same_id {A} (id : A -> Z) (g : A -> A) (i : Z) (l : list A) a :
  (forall x, id (g x) = id x) ->
  find (fun x => id x =? i) l = Some a ->
  exists a', find (fun x => id x =? i) (map g l) = Some a'.
Proof.
  intros Hid. induction l as [|x l IH]; [discriminate|].
  cbn [map find]. rewrite Hid. destruct (id x =? i); eauto.
Qed.

Lemma participant_create_preserves now conversationId userId isAdmin :
  preserves (participant_create now conversationId userId isAdmin).
Proof.
  intros db H. pose proof (invariant_spendParticipantId db H) as Hspent.
  destruct H as [Hc Hk]. unfold participant_create.
  destruct (user_findUnique userId db) as [u|] eqn:Hu;
    [|destruct (conversation_findUnique conversationId db); exact Hspent].
  destruct (conversation_findUnique conversationId db) as [c|] eqn:Hcv;
    [|exact Hspent].
  destruct (participant_findUnique userId conversationId db) eqn:Hp;
    [exact Hspent|].
  cbn [snd]. destruct Hc, Hk.
  apply invariant_intro;
    cbn [users conversations participants messages nextConversationId
         nextParticipantId nextMessageId].
  - intros p Hin. apply in_app_or in Hin. destruct Hin as [Hin | [<- | []]].
    + exact (participant_user0 p Hin).
    + exists u. exact Hu.
  - intros p Hin. apply in_app_or in Hin. destruct Hin as [Hin | [<- | []]].
    + exact (participant_conversation0 p Hin).
    + exists c. exact Hcv.
  - assumption.
  - intros p Hin. apply in_app_or in Hin. destruct Hin as [Hin | [<- | []]].
    + specialize (participant_issued0 p Hin). lia.
    + cbn. lia.
  - assumption.
  - rewrite map_app. apply NoDup_app; [assumption| |].
    + cbn. constructor; [intros []|constructor].
    + intros a Ha [<- | []]. apply in_map_iff in Ha.
      destruct Ha as (p & Hid & Hin). specialize (participant_issued0 p Hin).
      cbn [part_id] in Hid. lia.
  - assert (Hfresh : forall p, In p (participants db) ->
                               part_userId p = userId ->
                               part_conversationId p = conversationId -> False).
    { intros p Hin Hu' Hc'. pose proof (find_none _ _ Hp p Hin) as Hkey.
      unfold isKey in Hkey. rewrite Hu', Hc', !Z.eqb_refl in Hkey.
      discriminate. }
    intros p q Hp' Hq' Hsu Hsc.
    apply in_app_or in Hp'. apply in_app_or in Hq'.
    destruct Hp' as [Hp' | [<- | []]], Hq' as [Hq' | [<- | []]].
    + apply membership_unique0; assumption.
    + exfalso. apply (Hfresh p Hp'); [exact Hsu | exact Hsc].
    + exfalso. apply (Hfresh q Hq'); [symmetry; exact Hsu | symmetry; exact Hsc].
    + reflexivity.
Qed.

Lemma participants_createAll_preserves now conversationId rows :
  preserves (participants_createAll now conversationId rows).
Proof.
  induction rows as [|[u a] rows IH]; cbn [participants_createAll].
  - apply preserves_ret.
  - apply preserves_bind; [apply participant_create_preserves|].
    intros _. exact IH.
Qed.

Lemma conversation_create_preserves now name isGroup rows :
  preserves (conversation_create now name isGroup rows).
Proof.
  unfold conversation_create. apply preserves_transaction.
  2:{ intros db.
      match goal with
      | |- context [participants_createAll ?n ?c ?r ?d] =>
          pose proof (advances_participants_createAll n c r d) as Ha;
          destruct (participants_createAll n c r d) as [[[]|e] db2]
      end; cbn [snd] in *; unfold sequencesAdvance in *;
        cbn [nextConversationId nextParticipantId nextMessageId] in Ha;
        repeat split; lia. }
  intros db [Hc Hk].
  set (c := mkConversation (nextConversationId db) name isGroup None now).
  set (db1 := mkDb (users db) (conversations db ++ [c]) (participants db)
                   (messages db) (nextConversationId db + 1)
                   (nextParticipantId db) (nextMessageId db)).
  assert (H1 : Invariant db1).
  { destruct Hc, Hk. apply invariant_intro; unfold db1;
      cbn [users conversations participants messages nextConversationId
           nextParticipantId nextMessageId]; try assumption.
    - intros p Hin. destruct (participant_conversation0 p Hin) as [c0 Hc0].
      exists c0. unfold conversation_findUnique. cbn [conversations].
      apply find_app_some. exact Hc0.
    - intros c0 Hin. apply in_app_or in Hin. destruct Hin as [Hin | [<- | []]].
      + specialize (conversation_issued0 c0 Hin). lia.
      + cbn. lia. }
  pose proof (participants_createAll_preserves now (conv_id c) rows db1 H1) as H2.
  destruct (participants_createAll now (conv_id c) rows db1) as [[[]|e] db2];
    exact H2.
Qed.

Lemma participant_delete_preserves userId conversationId :
  preserves (participant_delete userId conversationId).
Proof.
  intros db [Hc Hk]. unfold participant_delete.
  destruct (participant_findUnique userId conversationId db) as [gone|];
    [|split; assumption].
  cbn [snd]. destruct Hc, Hk.
  apply invariant_intro; unfold set_participants;
    cbn [users conversations participants messages nextConversationId
         nextParticipantId nextMessageId]; try assumption.
  - intros p Hin. apply filter_In in Hin. apply participant_user0. tauto.
  - intros p Hin. apply filter_In in Hin. apply participant_conversation0. tauto.
  - intros p Hin. apply filter_In in Hin. apply participant_issued0. tauto.
  - apply NoDup_ids_filter. assumption.
  - intros p q Hp Hq. apply filter_In in Hp, Hq.
    apply membership_unique0; tauto.
Qed.

Lemma promote_id id p : part_id (promote id p) = part_id p.
Proof. unfold promote. destruct (part_id p =? id); reflexivity. Qed.

Lemma promote_userId id p : part_userId (promote id p) = part_userId p.
Proof. unfold promote. destruct (part_id p =? id); reflexivity. Qed.

Lemma participant_update_isAdmin_preserves id :
  preserves (participant_update_isAdmin id).
Proof.
  intros db [Hc Hk]. unfold participant_update_isAdmin.
  destruct (existsb _ _); [|split; assumption].
  cbn [snd]. destruct Hc, Hk.
  apply invariant_intro; unfold set_participants;
    cbn [users conversations participants messages nextConversationId
         nextParticipantId nextMessageId]; try assumption.
  - intros p Hin. apply in_map_iff in Hin. destruct Hin as (p0 & <- & Hin).
    rewrite promote_userId. exact (participant_user0 p0 Hin).
  - intros p Hin. apply in_map_iff in Hin. destruct Hin as (p0 & <- & Hin).
    rewrite promote_conversation. exact (participant_conversation0 p0 Hin).
  - intros p Hin. apply in_map_iff in Hin. destruct Hin as (p0 & <- & Hin).
    rewrite promote_id. exact (participant_issued0 p0 Hin).
  - rewrite map_map.
    rewrite (map_ext _ part_id) by (intros p; apply promote_id). assumption.
  - intros p q Hp Hq Hu Hcv.
    apply in_map_iff in Hp. destruct Hp as (p0 & <- & Hp).
    apply in_map_iff in Hq. destruct Hq as (q0 & <- & Hq).
    rewrite !promote_userId in Hu. rewrite !promote_conversation in Hcv.
    rewrite (membership_unique0 p0 q0 Hp Hq Hu Hcv). reflexivity.
Qed.

Lemma message_deleteMany_preserves conversationId :
  preserves (message_deleteMany conversationId).
Proof.
  intros db [Hc Hk]. unfold message_deleteMany, write. cbn [snd].
  destruct Hc, Hk.
  apply invariant_intro; unfold set_messages;
    cbn [users conversations participants messages nextConversationId
         nextParticipantId nextMessageId]; try assumption.
  intros m Hin. apply filter_In in Hin. apply message_issued0. tauto.
Qed.

Lemma conversation_delete_preserves id : preserves (conversation_delete id).
Proof.
  intros db [Hc Hk]. unfold conversation_delete.
  destruct (conversation_findUnique id db) as [found|]; [|split; assumption].
  destruct (existsb (fun p => part_conversationId p =? id) (participants db))
    eqn:Hrefs; [split; assumption|].
  destruct (existsb _ (messages db)); [split; assumption|].
  cbn [orb snd]. destruct Hc, Hk.
  apply invariant_intro; unfold set_conversations;
    cbn [users conversations participants messages nextConversationId
         nextParticipantId nextMessageId]; try assumption.
  - intros p Hin. destruct (participant_conversation0 p Hin) as [c0 Hc0].
    exists c0. unfold conversation_findUnique. cbn [conversations].
    rewrite (find_filter_other conv_id); [exact Hc0|].
    intros Heq.
    assert (existsb (fun p => part_conversationId p =? id) (participants db)
            = true) as Habs.
    { apply existsb_exists. exists p. split; [exact Hin|].
      apply Z.eqb_eq. exact Heq. }
    congruence.
  - intros c0 Hin. apply filter_In in Hin. apply conversation_issued0. tauto.
Qed.

Lemma message_create_preserves now userId conversationId content :
  preserves (message_create now userId conversationId content).
Proof.
  intros db H. pose proof (invariant_spendMessageId db H) as Hspent.
  destruct H as [Hc Hk]. unfold message_create.
  destruct (user_findUnique userId db) as [author|];
    [|destruct (conversation_findUnique conversationId db); exact Hspent].
  destruct (conversation_findUnique conversationId db) as [found|];
    [|exact Hspent].
  cbn [snd]. destruct Hc, Hk.
  apply invariant_intro;
    cbn [users conversations participants messages nextConversationId
         nextParticipantId nextMessageId]; try assumption.
  intros m Hin. apply in_app_or in Hin. destruct Hin as [Hin | [<- | []]].
  - specialize (message_issued0 m Hin). lia.
  - cbn. lia.
Qed.

Lemma conversation_update_preserves id now messageId :
  preserves (conversation_update id now messageId).
Proof.
  intros db [Hc Hk]. unfold conversation_update.
  destruct (conversation_findUnique id db) as [found|]; [|split; assumption].
  cbn [snd]. destruct Hc, Hk.
  apply invariant_intro; unfold set_conversations;
    cbn [users conversations participants messages nextConversationId
         nextParticipantId nextMessageId]; try assumption.
  - intros p Hin. destruct (participant_conversation0 p Hin) as [c0 Hc0].
    unfold conversation_findUnique. cbn [conversations].
    apply (find_map_same_id conv_id _ _ _ c0); [|exact Hc0].
    intros x. unfold touch. destruct (conv_id x =? id); reflexivity.
  - intros c0 Hin. apply in_map_iff in Hin. destruct Hin as (c1 & <- & Hin).
    specialize (conversation_issued0 c1 Hin). unfold touch.
    destruct (conv_id c1 =? id); cbn [conv_id]; lia.
Qed.

Lemma message_update_preserves id (f : Message -> Message) :
  (forall m, msg_id (f m) = msg_id m) -> preserves (message_update id f).
Proof.
  intros Hid db [Hc Hk]. unfold message_update.
  destruct (message_findUnique id db) as [found|]; [|split; assumption].
  cbn [snd]. destruct Hc, Hk.
  apply invariant_intro; unfold set_messages;
    cbn [users conversations participants messages nextConversationId
         nextParticipantId nextMessageId]; try assumption.
  intros m Hin. apply in_map_iff in Hin. destruct Hin as (m0 & <- & Hin).
  specialize (message_issued0 m0 Hin).
  destruct (msg_id m0 =? id); rewrite ?Hid; lia.
Qed.

Lemma markAsRead_preserves conversationId userId :
  preserves (markAsRead conversationId userId).
Proof.
  intros db [Hc Hk]. unfold markAsRead. cbn [snd]. destruct Hc, Hk.
  apply invariant_intro; unfold set_messages;
    cbn [users conversations participants messages nextConversationId
         nextParticipantId nextMessageId]; try assumption.
  intros m Hin. apply in_map_iff in Hin. destruct Hin as (m0 & <- & Hin).
  specialize (message_issued0 m0 Hin).
  destruct (unreadFromOthers conversationId userId m0); cbn [markedRead msg_id]; lia.
Qed.

Lemma updateStatus_preserves now userId status :
  preserves (updateStatus now userId status).
Proof.
  intros db [Hc Hk]. unfold updateStatus.
  destruct (user_findUnique userId db) as [found|]; [|split; assumption].
  cbn [snd]. destruct Hc, Hk.
  apply invariant_intro; unfold set_users;
    cbn [users conversations participants messages nextConversationId
         nextParticipantId nextMessageId]; try assumption.
  intros p Hin. destruct (participant_user0 p Hin) as [u0 Hu0].
  unfold user_findUnique. cbn [users].
  apply (find_map_same_id user_id _ _ _ u0); [|exact Hu0].
  intros x. destruct (user_id x =? userId); reflexivity.
Qed.

Create HintDb preserving.
#[local] Hint Resolve preserves_ret preserves_throw preserves_query
  participant_create_preserves
  conversation_create_preserves participant_delete_preserves
  participant_update_isAdmin_preserves message_deleteMany_preserves
  conversation_delete_preserves message_create_preserves
  conversation_update_preserves markAsRead_preserves updateStatus_preserves
  : preserving.

Ltac preserving :=
  repeat first
    [ solve [auto with preserving]
    | apply preserves_bind; [|intros ?]
    | apply preserves_transaction;
        [|solve [apply advances_of_drawsNoKey; keyless]]
    | match goal with
      | |- preserves (if ?b then _ else _) => destruct b
      | |- preserves (match ?x with _ => _ end) => destruct x
      end ].

Lemma findOrCreatePrivateConversation_preserves now u1 u2 :
  preserves (findOrCreatePrivateConversation now u1 u2).
Proof. unfold findOrCreatePrivateConversation. preserving. Qed.

Lemma createGroupConversation_preserves now name adminId ids :
  preserves (createGroupConversation now name adminId ids).
Proof. unfold createGroupConversation. preserving. Qed.

Lemma addParticipant_preserves now conversationId target adminId :
  preserves (addParticipant now conversationId target adminId).
Proof. unfold addParticipant. preserving. Qed.

Lemma removeParticipant_preserves conversationId target requester :
  preserves (removeParticipant conversationId target requester).
Proof. unfold removeParticipant. preserving. Qed.

Lemma deleteConversation_preserves conversationId userId :
  preserves (deleteConversation conversationId userId).
Proof. unfold deleteConversation. preserving. Qed.

Lemma createMessage_preserves now userId conversationId content :
  preserves (createMessage now userId conversationId content).
Proof. unfold createMessage. preserving. Qed.

Lemma editMessage_preserves now messageId userId newText :
  preserves (editMessage now messageId userId newText).
Proof.
  unfold editMessage. preserving. apply message_update_preserves. reflexivity.
Qed.

Lemma deleteMessage_preserves messageId userId :
  preserves (deleteMessage messageId userId).
Proof.
  unfold deleteMessage. preserving. apply message_update_preserves. reflexivity.
Qed.

(** Every service call keeps the invariant, whether it returns or throws. *)
Lemma perform_preserves call db : Invariant db -> Invariant (perform call db).
Proof.
  intros H. destruct call; cbn [perform].
  - apply findOrCreatePrivateConversation_preserves; exact H.
  - apply createGroupConversation_preserves; exact H.
  - apply addParticipant_preserves; exact H.
  - apply removeParticipant_preserves; exact H.
  - apply deleteConversation_preserves; exact H.
  - apply createMessage_preserves; exact H.
  - apply editMessage_preserves; exact H.
  - apply deleteMessage_preserves; exact H.
  - apply markAsRead_preserves; exact H.
  - apply updateStatus_preserves; exact H.
Qed.

(** A database with users only satisfies the invariant, so every database
    the services can reach from one does. *)
Lemma fresh_database_invariant us nextC nextP nextM :
  Invariant (mkDb us [] [] [] nextC nextP nextM).
Proof.
  apply invariant_intro;
    cbn [users conversations participants messages map].
  - intros p [].
  - intros p [].
  - intros c [].
  - intros p [].
  - intros m [].
  - constructor.
  - intros p q [].
Qed.

(** Every database the services can reach from one that satisfies the
    invariant satisfies it too: foreign keys hold, no key is ahead of its
    sequence, and participant ids and memberships are unique. *)
Lemma reachable_invariant start db :
  Invariant start -> Reachable start db -> Invariant db.
Proof.
  intros Hstart Hreach. induction Hreach as [|db call _ IH]; [exact Hstart|].
  apply perform_preserves. exact IH.
Qed.

(** ** Memberships after a removal, a leave and an addition *)

Lemma find_filter_implied {A} (f g : A -> bool) (l : list A) :
  (forall x, f x = true -> g x = true) ->
  find f (filter g l) = find f l.
Proof.
  intros Himp. induction l as [|x l IH]; [reflexivity|]. cbn [filter find].
  destruct (f x) eqn:Hf.
  - rewrite (Himp x Hf). cbn [find]. rewrite Hf. reflexivity.
  - destruct (g x); cbn [find]; rewrite ?Hf; exact IH.
Qed.

Lemma isKey_other u c u' c' p :
  (u', c') <> (u, c) -> isKey u' c' p = true -> negb (isKey u c p) = true.
Proof.
  intros Hne Hkey. unfold isKey in *. apply andb_prop in Hkey.
  destruct Hkey as [Hu Hc]. apply Z.eqb_eq in Hu, Hc.
  apply negb_true_iff, andb_false_iff.
  destruct (Z.eq_dec u' u) as [->|Hu'].
  - right. apply Z.eqb_neq. intros Heq. apply Hne. congruence.
  - left. apply Z.eqb_neq. congruence.
Qed.

Lemma participant_findUnique_after_delete u c u' c' db :
  (u', c') <> (u, c) ->
  participant_findUnique u' c'
    (set_participants (filter (fun q => negb (isKey u c q))) db)
  = participant_findUnique u' c' db.
Proof.
  intros Hne. unfold participant_findUnique, set_participants. cbn [participants].
  apply find_filter_implied. intros p. apply isKey_other. exact Hne.
Qed.

Lemma participant_findUnique_deleted u c db :
  participant_findUnique u c
    (set_participants (filter (fun q => negb (isKey u c q))) db) = None.
Proof.
  unfold participant_findUnique, set_participants. cbn [participants].
  apply find_all_false. intros p Hin. apply filter_In in Hin.
  destruct Hin as [_ H]. apply negb_true_iff in H. exact H.
Qed.

Lemma removeParticipant_returned conversationId targetUserId requesterId db p db' :
  removeParticipant conversationId targetUserId requesterId db = (Returned p, db') ->
  exists r,
    participant_findUnique requesterId conversationId db = Some r
    /\ participant_findUnique targetUserId conversationId db = Some p
    /\ (part_isAdmin r = true \/ targetUserId = requesterId)
    /\ db' = set_participants
               (filter (fun q => negb (isKey targetUserId conversationId q))) db.
Proof.
  unfold removeParticipant. run.
  destruct (participant_findUnique requesterId conversationId db) as [r|] eqn:Hr;
    [|discriminate].
  destruct (participant_findUnique targetUserId conversationId db) as [t|] eqn:Ht;
    [|discriminate].
  destruct (part_isAdmin r) eqn:Hadm; cbn [negb andb].
  - unfold participant_delete. rewrite Ht. intros H. injection H as <- <-.
    exists r. auto.
  - destruct (targetUserId =? requesterId) eqn:Hself; cbn [negb]; [|discriminate].
    unfold participant_delete. rewrite Ht. intros H. injection H as <- <-.
    apply Z.eqb_eq in Hself. exists r. auto.
Qed.

(** [removeParticipant] returns only to an admin of the conversation or to
    a participant removing themselves, and then it removes the target's
    membership and nothing else: every other membership, and every user,
    conversation and message, is as before. *)
Theorem removeParticipant_removes_only_target
    (conversationId targetUserId requesterId : Z) (db db' : Db) (p : Participant) :
  removeParticipant conversationId targetUserId requesterId db = (Returned p, db') ->
  (exists r, participant_findUnique requesterId conversationId db = Some r
             /\ (part_isAdmin r = true \/ targetUserId = requesterId))
  /\ part_userId p = targetUserId
  /\ part_conversationId p = conversationId
  /\ member db' conversationId targetUserId = false
  /\ (forall c u, (u, c) <> (targetUserId, conversationId) ->
                  participant_findUnique u c db' = participant_findUnique u c db)
  /\ users db' = users db
  /\ conversations db' = conversations db
  /\ messages db' = messages db.
Proof.
  intros Hrun. apply removeParticipant_returned in Hrun.
  destruct Hrun as (r & Hr & Ht & Hok & ->).
  destruct (participant_findUnique_some _ _ _ _ Ht) as (_ & Hu & Hc).
  split; [exists r; auto|]. split; [exact Hu|]. split; [exact Hc|].
  split; [unfold member; rewrite participant_findUnique_deleted; reflexivity|].
  split; [|repeat split].
  intros c u Hne. apply participant_findUnique_after_delete. exact Hne.
Qed.

(** The admin of group 20 removes member 8; member 7 stays. *)
Lemma removeParticipant_removes_only_target_witness :
  member (snd (removeParticipant 20 8 5 Sample.team)) 20 8 = false
  /\ participant_findUnique 7 20 (snd (removeParticipant 20 8 5 Sample.team))
     = participant_findUnique 7 20 Sample.team.
Proof.
  destruct (removeParticipant_removes_only_target 20 8 5 Sample.team
              (snd (removeParticipant 20 8 5 Sample.team))
              (mkParticipant 3 8 20 false 60) eq_refl)
    as (_ & _ & _ & Hgone & Hothers & _).
  split; [exact Hgone|]. apply Hothers. intros H. discriminate H.
Defined.

Lemma participant_findUnique_promoted id u c db :
  participant_findUnique u c (set_participants (map (promote id)) db)
  = option_map (promote id) (participant_findUnique u c db).
Proof.
  unfold participant_findUnique, set_participants. cbn [participants].
  induction (participants db) as [|p l IH]; [reflexivity|].
  cbn [map find].
  assert (isKey u c (promote id p) = isKey u c p) as ->.
  { unfold isKey. rewrite promote_userId, promote_conversation. reflexivity. }
  destruct (isKey u c p); [reflexivity|exact IH].
Qed.

Lemma member_promoted id c u db :
  member (set_participants (map (promote id)) db) c u = member db c u.
Proof.
  unfold member. rewrite participant_findUnique_promoted.
  destruct (participant_findUnique u c db); reflexivity.
Qed.

(** [deleteConversation] is all or nothing: whenever it throws, the database
    is exactly as it was before the call, and for a user who is not a
    participant of the conversation it throws a NotFoundException. *)
Theorem deleteConversation_all_or_nothing (conversationId userId : Z) (db : Db) :
  (forall e db', deleteConversation conversationId userId db = (Thrown e, db') ->
                 db' = db)
  /\ (member db conversationId userId = false ->
      deleteConversation conversationId userId db
      = (Thrown (NotFoundException "Conversation not found or access denied"), db)).
Proof.
  split.
  - intros e db'. unfold deleteConversation.
    apply transaction_thrown_unchanged. keyless.
  - unfold member, deleteConversation. run.
    destruct (participant_findUnique userId conversationId db); [discriminate|].
    rewrite rollback_same. reflexivity.
Qed.

Lemma deleteConversation_all_or_nothing_witness :
  deleteConversation 20 1 Sample.team
  = (Thrown (NotFoundException "Conversation not found or access denied"),
     Sample.team).
Proof.
  apply (deleteConversation_all_or_nothing 20 1 Sample.team). reflexivity.
Defined.

Lemma existsb_filter_nil {A} (f : A -> bool) (l : list A) :
  filter f l = [] -> existsb f l = false.
Proof.
  intros H. apply existsb_all_false. intros x Hin.
  destruct (f x) eqn:Hf; [|reflexivity].
  assert (In x (filter f l)) as Hx by (apply filter_In; auto).
  rewrite H in Hx. destruct Hx.
Qed.

(** On a consistent database [deleteConversation] succeeds exactly for the
    participants of the conversation: a participant always gets a success
    result, anybody else a NotFoundException. *)
Theorem deleteConversation_succeeds_for_participants
    (conversationId userId : Z) (db : Db) :
  Consistent db ->
  if member db conversationId userId
  then exists r db',
         deleteConversation conversationId userId db = (Returned r, db')
         /\ dr_success r = true
  else exists e,
         deleteConversation conversationId userId db = (Thrown e, db)
         /\ kindOf e = NotFoundError.
Proof.
  intros Hc. unfold member.
  destruct (participant_findUnique userId conversationId db) as [leaving|] eqn:Hp.
  - destruct (participant_findUnique_some _ _ _ _ Hp) as (Hin & _ & Hlc).
    destruct (participant_conversation db Hc leaving Hin) as [c Hconv].
    rewrite Hlc in Hconv.
    unfold deleteConversation. run. rewrite Hp.
    unfold participant_delete. rewrite Hp. cbn beta iota zeta.
    set (left := set_participants
                   (filter (fun q => negb (isKey userId conversationId q))) db).
    destruct (participant_findMany_oldestFirst conversationId left)
      as [|oldest rest] eqn:Hrest.
    + unfold message_deleteMany, conversation_delete. run.
      unfold conversation_findUnique at 1. cbn [conversations set_messages left
                                                 set_participants].
      fold (conversation_findUnique conversationId db). rewrite Hconv.
      unfold participant_findMany_oldestFirst in Hrest.
      apply sortAsc_nil in Hrest. unfold left in *.
      cbn [participants messages set_messages set_participants] in *.
      rewrite (existsb_filter_nil _ _ Hrest).
      rewrite (existsb_filter_nil
                 (fun m => msg_conversationId m =? conversationId)
                 (filter (fun m => negb (msg_conversationId m =? conversationId))
                         (messages db)))
        by (apply (filter_filter_out
                     (fun m => msg_conversationId m =? conversationId))).
      cbn [orb]. do 2 eexists. split; reflexivity.
    + destruct (part_isAdmin leaving).
      * unfold participant_update_isAdmin.
        assert (existsb (fun p => part_id p =? part_id oldest) (participants left)
                = true) as ->.
        { apply existsb_exists. exists oldest. split; [|apply Z.eqb_refl].
          unfold participant_findMany_oldestFirst in Hrest.
          apply sortAsc_head in Hrest. destruct Hrest as [Hin' _].
          apply filter_In in Hin'. tauto. }
        do 2 eexists. split; reflexivity.
      * do 2 eexists. split; reflexivity.
  - exists (NotFoundException "Conversation not found or access denied").
    unfold deleteConversation. run. rewrite Hp, rollback_same.
    split; reflexivity.
Qed.

Lemma deleteConversation_succeeds_for_participants_witness :
  exists r db', deleteConversation 20 7 Sample.team = (Returned r, db')
                /\ dr_success r = true.
Proof.
  exact (deleteConversation_succeeds_for_participants 20 7 Sample.team
           sample_team_consistent).
Defined.

(** A successful [deleteConversation] ends the caller's membership and
    touches nothing outside the conversation: every other membership, every
    user, every other conversation and the messages of every other
    conversation are as before. *)
Theorem deleteConversation_leaves_others_alone
    (conversationId userId : Z) (db db' : Db) (r : DeleteResult) :
  deleteConversation conversationId userId db = (Returned r, db') ->
  member db' conversationId userId = false
  /\ (forall c u, (u, c) <> (userId, conversationId) ->
                  member db' c u = member db c u)
  /\ users db' = users db
  /\ (forall c, c <> conversationId ->
                conversation_findUnique c db' = conversation_findUnique c db)
  /\ (forall m, msg_conversationId m <> conversationId ->
                (In m (messages db') <-> In m (messages db))).
Proof.
  intros Hrun.
  destruct (deleteConversation_cases _ _ _ _ _ Hrun) as (leaving & _ & Hcase).
  cbv zeta in Hcase.
  set (left := set_participants
                 (filter (fun q => negb (isKey userId conversationId q))) db) in *.
  assert (Hgone : member left conversationId userId = false).
  { unfold member, left. rewrite participant_findUnique_deleted. reflexivity. }
  assert (Hothers : forall c u, (u, c) <> (userId, conversationId) ->
                                member left c u = member db c u).
  { intros c u Hne. unfold member, left.
    rewrite participant_findUnique_after_delete by exact Hne. reflexivity. }
  destruct (participant_findMany_oldestFirst conversationId left)
    as [|oldest rest].
  - subst db'. split; [exact Hgone|]. split; [exact Hothers|].
    split; [reflexivity|]. split.
    + intros c Hne. unfold conversation_findUnique. cbn [conversations
        set_conversations set_messages left set_participants].
      apply (find_filter_other conv_id). exact Hne.
    + intros m Hne. cbn [messages set_conversations set_messages left
                          set_participants].
      rewrite filter_In. apply Z.eqb_neq in Hne. rewrite Hne. cbn [negb]. tauto.
  - destruct (part_isAdmin leaving); subst db'.
    + split; [rewrite member_promoted; exact Hgone|].
      split; [intros c u Hne; rewrite member_promoted; apply Hothers; exact Hne|].
      repeat split; auto.
    + split; [exact Hgone|]. split; [exact Hothers|]. repeat split; auto.
Qed.

(** Admin 5 leaves group 20: member 7 is still in it. *)
Lemma deleteConversation_leaves_others_alone_witness :
  member (snd (deleteConversation 20 5 Sample.team)) 20 5 = false
  /\ member (snd (deleteConversation 20 5 Sample.team)) 20 7 = true.
Proof.
  destruct (deleteConversation_leaves_others_alone 20 5 Sample.team
              (snd (deleteConversation 20 5 Sample.team))
              (mkDeleteResult true "You left the conversation") eq_refl)
    as (Hgone & Hothers & _).
  split; [exact Hgone|].
  rewrite Hothers by (intros H; discriminate H). reflexivity.
Defined.

Lemma participant_create_returned now conversationId userId isAdmin db p db' :
  participant_create now conversationId userId isAdmin db = (Returned p, db') ->
  participant_findUnique userId conversationId db = None
  /\ p = mkParticipant (nextParticipantId db) userId conversationId isAdmin now
  /\ db' = mkDb (users db) (conversations db) (participants db ++ [p])
                (messages db) (nextConversationId db) (nextParticipantId db + 1)
                (nextMessageId db).
Proof.
  unfold participant_create.
  destruct (user_findUnique userId db); [|discriminate].
  destruct (conversation_findUnique conversationId db); [|discriminate].
  destruct (participant_findUnique userId conversationId db); [discriminate|].
  intros H. injection H as <- <-. auto.
Qed.

Lemma participant_create_thrown now conversationId userId isAdmin db e db' :
  participant_create now conversationId userId isAdmin db = (Thrown e, db') ->
  sameTables db db' /\ kindOf e = StorageError.
Proof.
  unfold participant_create.
  destruct (user_findUnique userId db);
    [|destruct (conversation_findUnique conversationId db);
      intros H; injection H as <- <-; repeat split].
  destruct (conversation_findUnique conversationId db);
    [|intros H; injection H as <- <-; repeat split].
  destruct (participant_findUnique userId conversationId db); [|discriminate].
  intros H. injection H as <- <-. repeat split.
Qed.

(** [addParticipant] refuses without writing a row.  Its two guards run
    before the insert and leave the database exactly as it was: a
    ValidationError when the conversation does not exist or is a private
    chat, and otherwise an AuthorizationError when the requester is not a
    participant of the group or is not flagged admin.  Anything else it
    throws is the StorageError of the insert; then too the four tables are
    as before. *)
Theorem addParticipant_refusals
    (now : Date) (conversationId targetUserId adminId : Z) (db : Db) :
  (forall e db',
     addParticipant now conversationId targetUserId adminId db = (Thrown e, db') ->
     sameTables db db'
     /\ (kindOf e = ValidationError \/ kindOf e = AuthorizationError
         \/ kindOf e = StorageError)
     /\ (kindOf e <> StorageError -> db' = db))
  /\ ((forall c, conversation_findUnique conversationId db = Some c ->
                 conv_isGroup c = false) ->
      exists e,
        addParticipant now conversationId targetUserId adminId db = (Thrown e, db)
        /\ kindOf e = ValidationError)
  /\ (forall c,
        conversation_findUnique conversationId db = Some c ->
        conv_isGroup c = true ->
        (forall r, In r (participantsOf db conversationId) ->
                   part_userId r = adminId -> part_isAdmin r = false) ->
        exists e,
          addParticipant now conversationId targetUserId adminId db = (Thrown e, db)
          /\ kindOf e = AuthorizationError).
Proof.
  assert (Hguard : forall e db',
             (Thrown e, db) = (@Thrown Participant e, db') ->
             kindOf e = ValidationError \/ kindOf e = AuthorizationError ->
             sameTables db db'
             /\ (kindOf e = ValidationError \/ kindOf e = AuthorizationError
                 \/ kindOf e = StorageError)
             /\ (kindOf e <> StorageError -> db' = db)).
  { intros e db' H Hkind. injection H as <-.
    split; [repeat split|]. split; [tauto|reflexivity]. }
  split; [|split].
  - intros e db'. unfold addParticipant. run.
    destruct (conversation_findUnique conversationId db) as [c|];
      [|intros H; injection H as <- <-; apply Hguard; [reflexivity|auto]].
    destruct (conv_isGroup c);
      [|intros H; injection H as <- <-; apply Hguard; [reflexivity|auto]].
    destruct (find _ _) as [r|];
      [|intros H; injection H as <- <-; apply Hguard; [reflexivity|auto]].
    destruct (part_isAdmin r);
      [|intros H; injection H as <- <-; apply Hguard; [reflexivity|auto]].
    intros H. apply participant_create_thrown in H. destruct H as [Hsame Hkind].
    split; [exact Hsame|]. split; [auto|]. intros Hne. contradiction.
  - intros Hprivate. unfold addParticipant. run.
    destruct (conversation_findUnique conversationId db) as [c|].
    + rewrite (Hprivate c eq_refl). eexists. split; reflexivity.
    + eexists. split; reflexivity.
  - intros c Hc Hgroup Hnot. unfold addParticipant. run.
    rewrite Hc, Hgroup.
    destruct (find (fun p => part_userId p =? adminId)
                   (participantsOf db conversationId)) as [r|] eqn:Hr.
    + apply find_some in Hr. destruct Hr as [Hin Hu]. apply Z.eqb_eq in Hu.
      rewrite (Hnot r Hin Hu). eexists. split; reflexivity.
    + eexists. split; reflexivity.
Qed.

(** Member 7 of group 20 is not an admin and may not add user 1; admin 5
    adding member 7 once more is refused by the insert, with every row of
    the group in place. *)
Lemma addParticipant_refusals_witness :
  (exists e, addParticipant 99 20 1 7 Sample.team = (Thrown e, Sample.team)
             /\ kindOf e = AuthorizationError)
  /\ sameTables Sample.team (snd (addParticipant 99 20 7 5 Sample.team))
  /\ (exists e, fst (addParticipant 99 20 7 5 Sample.team) = Thrown e
                /\ kindOf e = StorageError).
Proof.
  destruct (addParticipant_refusals 99 20 1 7 Sample.team) as (_ & _ & Hforbidden).
  destruct (addParticipant_refusals 99 20 7 5 Sample.team) as (Hthrown & _ & _).
  split; [|split].
  - apply (Hforbidden (mkConversation 20 (Some "team") true None 50));
      [reflexivity|reflexivity|].
    intros r Hin Hu. cbn in Hin.
    destruct Hin as [<- | [<- | [<- | []]]]; try reflexivity; discriminate Hu.
  - apply (Hthrown P2002 (snd (addParticipant 99 20 7 5 Sample.team)) eq_refl).
  - exists P2002. split; reflexivity.
Defined.

(** When [addParticipant] returns, the conversation is a group, the
    requester is one of its admins, the target was not a participant before
    and is one now, through one new row that is not flagged admin; the
    admins of every conversation and all other tables are unchanged. *)
Theorem addParticipant_adds_one_member
    (now : Date) (conversationId targetUserId adminId : Z) (db db' : Db)
    (p : Participant) :
  addParticipant now conversationId targetUserId adminId db = (Returned p, db') ->
  (exists c, conversation_findUnique conversationId db = Some c
             /\ conv_isGroup c = true)
  /\ (exists r, In r (participantsOf db conversationId)
                /\ part_userId r = adminId /\ part_isAdmin r = true)
  /\ member db conversationId targetUserId = false
  /\ member db' conversationId targetUserId = true
  /\ p = mkParticipant (nextParticipantId db) targetUserId conversationId false now
  /\ participants db' = (participants db ++ [p])%list
  /\ (forall c, admins db' c = admins db c)
  /\ users db' = users db
  /\ conversations db' = conversations db
  /\ messages db' = messages db.
Proof.
  unfold addParticipant. run.
  destruct (conversation_findUnique conversationId db) as [c|] eqn:Hc;
    [|discriminate].
  destruct (conv_isGroup c) eqn:Hgroup; [|discriminate].
  destruct (find (fun p => part_userId p =? adminId)
                 (participantsOf db conversationId)) as [r|] eqn:Hr;
    [|discriminate].
  destruct (part_isAdmin r) eqn:Hadm; [|discriminate].
  intros Hrun. apply participant_create_returned in Hrun.
  destruct Hrun as (Hnew & Hp & ->).
  apply find_some in Hr. destruct Hr as [Hin Hu]. apply Z.eqb_eq in Hu.
  split; [exists c; auto|]. split; [exists r; auto|].
  split; [unfold member; rewrite Hnew; reflexivity|].
  split.
  { unfold member, participant_findUnique. cbn [participants].
    rewrite find_app_none by exact Hnew. subst p.
    cbn [find]. unfold isKey. cbn [part_userId part_conversationId].
    rewrite !Z.eqb_refl. reflexivity. }
  split; [exact Hp|]. split; [reflexivity|]. split; [|repeat split].
  intros c0. unfold admins, participantsOf. cbn [participants].
  rewrite !filter_app. subst p. cbn [filter part_conversationId].
  destruct (conversationId =? c0); cbn [filter part_isAdmin];
    rewrite app_nil_r; reflexivity.
Qed.

(** Admin 5 adds user 1 to group 20. *)
Lemma addParticipant_adds_one_member_witness :
  member Sample.team 20 1 = false
  /\ member (snd (addParticipant 99 20 1 5 Sample.team)) 20 1 = true
  /\ admins (snd (addParticipant 99 20 1 5 Sample.team)) 20 = admins Sample.team 20.
Proof.
  destruct (addParticipant_adds_one_member 99 20 1 5 Sample.team
              (snd (addParticipant 99 20 1 5 Sample.team))
              (mkParticipant 4 1 20 false 99) eq_refl)
    as (_ & _ & Hbefore & Hafter & _ & _ & Hadmins & _).
  split; [exact Hbefore|]. split; [exact Hafter|]. apply Hadmins.
Defined.

(** ** More on messages *)

Lemma markAsRead_settles conversationId userId m :
  unreadFromOthers conversationId userId
    (if unreadFromOthers conversationId userId m then markedRead m else m)
  = false.
Proof.
  destruct (unreadFromOthers conversationId userId m) eqn:Hm; [|exact Hm].
  unfold unreadFromOthers. cbn [markedRead msg_isRead negb]. apply andb_false_r.
Qed.

Lemma markAsRead_none_unread conversationId userId db m :
  In m (messages (snd (markAsRead conversationId userId db))) ->
  msg_conversationId m = conversationId ->
  msg_userId m <> userId -> msg_isRead m = true.
Proof.
  cbn [markAsRead snd messages set_messages]. intros Hin Hc Hu.
  apply in_map_iff in Hin. destruct Hin as (m0 & <- & _).
  pose proof (markAsRead_settles conversationId userId m0) as Hs.
  unfold unreadFromOthers in Hs at 1.
  apply Z.eqb_eq in Hc. apply Z.eqb_neq in Hu. rewrite Hc, Hu in Hs.
  cbn [negb andb] in Hs. apply negb_false_iff in Hs. exact Hs.
Qed.

(** [markAsRead] always returns.  Afterwards no message of the conversation
    written by somebody else is unread; the rows keep their order, ids,
    authors and texts, and a row of another conversation or of the reader
    is not touched at all; the count returned is the number of messages that
    were unread, and a second call finds nothing left to mark: it returns 0
    and leaves the database as the first call left it. *)
Theorem markAsRead_marks_once (conversationId userId : Z) (db : Db) :
  exists db',
    markAsRead conversationId userId db
    = (Returned (Z.of_nat (List.length
                             (filter (unreadFromOthers conversationId userId)
                                     (messages db)))), db')
    /\ (forall m, In m (messages db') ->
                  msg_conversationId m = conversationId ->
                  msg_userId m <> userId -> msg_isRead m = true)
    /\ map (fun m => (msg_id m, msg_userId m, msg_conversationId m, msg_content m,
                      msg_isDeleted m))
           (messages db')
       = map (fun m => (msg_id m, msg_userId m, msg_conversationId m, msg_content m,
                        msg_isDeleted m))
             (messages db)
    /\ (forall m, In m (messages db) ->
                  msg_conversationId m <> conversationId \/ msg_userId m = userId ->
                  In m (messages db'))
    /\ markAsRead conversationId userId db' = (Returned 0, db').
Proof.
  eexists. split; [reflexivity|].
  set (g := fun m => if unreadFromOthers conversationId userId m
                     then markedRead m else m).
  cbn [messages set_messages]. split; [|split; [|split]].
  - intros m. apply (markAsRead_none_unread conversationId userId db).
  - rewrite map_map. apply map_ext. intros m. unfold g. cbv beta.
    destruct (unreadFromOthers conversationId userId m); reflexivity.
  - fold g. intros m Hin Hother. apply in_map_iff. exists m. split; [|exact Hin].
    unfold g.
    assert (unreadFromOthers conversationId userId m = false) as ->;
      [|reflexivity].
    unfold unreadFromOthers. destruct Hother as [Hc | Hu].
    + apply Z.eqb_neq in Hc. rewrite Hc. reflexivity.
    + apply Z.eqb_eq in Hu. rewrite Hu. cbn [negb].
      rewrite andb_false_r. reflexivity.
  - subst g. unfold markAsRead. cbn [messages set_messages].
    rewrite (filter_all_false (unreadFromOthers conversationId userId)).
    + f_equal. unfold set_messages. cbn [users conversations participants
        messages nextConversationId nextParticipantId nextMessageId].
      f_equal. rewrite map_map. apply map_ext. intros m.
      rewrite markAsRead_settles. reflexivity.
    + intros m Hin. apply in_map_iff in Hin. destruct Hin as (m0 & <- & _).
      apply markAsRead_settles.
Qed.

Lemma deleteMessage_own db messageId userId m :
  message_findUnique messageId db = Some m ->
  msg_userId m = userId ->
  deleteMessage messageId userId db
  = (Returned (softDeleted m),
     set_messages (map (fun x => if msg_id x =? messageId
                                 then softDeleted x else x)) db).
Proof.
  intros H Hown. unfold deleteMessage. run. rewrite H.
  apply Z.eqb_eq in Hown. rewrite Hown. cbn [negb].
  unfold message_update. rewrite H. reflexivity.
Qed.


Lemma in_firstn {A} (n : nat) (l : list A) x : In x (firstn n l) -> In x l.
Proof.
  revert n. induction l as [|h t IH]; intros n Hin.
  - rewrite firstn_nil in Hin. exact Hin.
  - destruct n; [destruct Hin|]. cbn [firstn] in Hin.
    destruct Hin as [<- | Hin]; [left; reflexivity|right; eauto].
Qed.

Lemma in_skipn {A} (n : nat) (l : list A) x : In x (skipn n l) -> In x l.
Proof.
  revert n. induction l as [|h t IH]; intros n Hin.
  - rewrite skipn_nil in Hin. exact Hin.
  - destruct n; [exact Hin|]. cbn [skipn] in Hin. right. eauto.
Qed.

Section NewestFirst.
Context {A : Type} (key : A -> Z).

Lemma insertDesc_in x y l : In x (insertDesc key y l) <-> x = y \/ In x l.
Proof.
  induction l as [|h t IH]; cbn [insertDesc].
  - cbn. intuition congruence.
  - destruct (key h <=? key y); cbn [In]; [intuition congruence|].
    rewrite IH. cbn [In]. intuition congruence.
Qed.

Lemma sortDesc_in x l : In x (sortDesc key l) <-> In x l.
Proof.
  induction l as [|h t IH]; [reflexivity|].
  cbn [sortDesc fold_right]. fold (sortDesc key t).
  rewrite insertDesc_in, IH. cbn [In]. intuition congruence.
Qed.

Lemma insertDesc_sorted y l :
  StronglySorted (fun a b => key b <= key a) l ->
  StronglySorted (fun a b => key b <= key a) (insertDesc key y l).
Proof.
  induction l as [|h t IH]; intros Hs; cbn [insertDesc].
  - constructor; constructor.
  - apply StronglySorted_inv in Hs. destruct Hs as [Ht Hh].
    destruct (key h <=? key y) eqn:Hcmp.
    + apply Z.leb_le in Hcmp. constructor.
      * constructor; assumption.
      * constructor; [exact Hcmp|].
        rewrite Forall_forall in *. intros z Hz. specialize (Hh z Hz). lia.
    + apply Z.leb_gt in Hcmp. constructor; [apply IH; exact Ht|].
      rewrite Forall_forall in *. intros z Hz. apply insertDesc_in in Hz.
      destruct Hz as [-> | Hz]; [lia|]. apply Hh. exact Hz.
Qed.

Lemma sortDesc_sorted l :
  StronglySorted (fun a b => key b <= key a) (sortDesc key l).
Proof.
  induction l as [|h t IH]; [constructor|].
  cbn [sortDesc fold_right]. apply insertDesc_sorted. exact IH.
Qed.

Lemma sortDesc_length l : List.length (sortDesc key l) = List.length l.
Proof.
  induction l as [|h t IH]; [reflexivity|].
  cbn [sortDesc fold_right List.length]. fold (sortDesc key t). rewrite <- IH.
  generalize (sortDesc key t). intros s.
  induction s as [|y s IHs]; [reflexivity|]. cbn [insertDesc].
  destruct (key y <=? key h); cbn [List.length]; [reflexivity|].
  rewrite IHs. reflexivity.
Qed.
End NewestFirst.

Lemma insertDesc_permutation {A} (key : A -> Z) (y : A) (l : list A) :
  Permutation (insertDesc key y l) (y :: l).
Proof.
  induction l as [|h t IH]; cbn [insertDesc]; [apply Permutation_refl|].
  destruct (key h <=? key y); [apply Permutation_refl|].
  apply perm_trans with (h :: y :: t); [apply perm_skip; exact IH|apply perm_swap].
Qed.

Lemma sortDesc_permutation {A} (key : A -> Z) (l : list A) :
  Permutation (sortDesc key l) l.
Proof.
  induction l as [|h t IH]; [apply perm_nil|].
  cbn [sortDesc fold_right]. fold (sortDesc key t).
  apply perm_trans with (h :: sortDesc key t);
    [apply insertDesc_permutation|apply perm_skip; exact IH].
Qed.

(** Without equal keys a descending order is unique. *)
Lemma descending_unique {A} (key : A -> Z) (l1 l2 : list A) :
  NoDup (map key l1) ->
  Permutation l1 l2 ->
  StronglySorted (fun a b => key b <= key a) l1 ->
  StronglySorted (fun a b => key b <= key a) l2 ->
  l1 = l2.
Proof.
  revert l2. induction l1 as [|a t1 IH]; intros l2 Hnd Hperm Hs1 Hs2.
  - apply Permutation_nil in Hperm. congruence.
  - destruct l2 as [|b t2];
      [apply Permutation_sym, Permutation_nil in Hperm; discriminate|].
    apply StronglySorted_inv in Hs1, Hs2.
    destruct Hs1 as [Hs1 Ha], Hs2 as [Hs2 Hb].
    rewrite Forall_forall in Ha, Hb.
    cbn [map] in Hnd. apply NoDup_cons_iff in Hnd. destruct Hnd as [Hfresh Hnd].
    assert (a = b) as <-.
    { assert (In a (b :: t2)) as Hin
          by (apply (Permutation_in a Hperm); left; reflexivity).
      assert (In b (a :: t1)) as Hin'
          by (apply (Permutation_in b (Permutation_sym Hperm)); left; reflexivity).
      destruct Hin as [Heq | Hin]; [congruence|].
      destruct Hin' as [Heq | Hin']; [congruence|].
      exfalso. apply Hfresh.
      assert (key a = key b) as ->
          by (specialize (Ha b Hin'); specialize (Hb a Hin); lia).
      apply in_map. exact Hin'. }
    f_equal. apply IH; try assumption.
    apply Permutation_cons_inv in Hperm. exact Hperm.
Qed.

Lemma sortDesc_determined {A} (key : A -> Z) (l rows : list A) :
  NoDup (map key l) ->
  Permutation rows l ->
  StronglySorted (fun a b => key b <= key a) rows ->
  rows = sortDesc key l.
Proof.
  intros Hnd Hperm Hs.
  apply (descending_unique key); try assumption.
  - apply (Permutation_NoDup (l := map key l)); [|exact Hnd].
    apply Permutation_map, Permutation_sym. exact Hperm.
  - apply perm_trans with l; [exact Hperm|].
    apply Permutation_sym, sortDesc_permutation.
  - apply sortDesc_sorted.
Qed.

Lemma StronglySorted_firstn {A} (R : A -> A -> Prop) n (l : list A) :
  StronglySorted R l -> StronglySorted R (firstn n l).
Proof.
  revert n. induction l as [|h t IH]; intros n Hs.
  - rewrite firstn_nil. constructor.
  - destruct n; [constructor|]. cbn [firstn].
    apply StronglySorted_inv in Hs. destruct Hs as [Ht Hh].
    constructor; [apply IH; exact Ht|].
    rewrite Forall_forall in *. intros z Hz. apply Hh.
    apply in_firstn in Hz. exact Hz.
Qed.

Lemma StronglySorted_skipn {A} (R : A -> A -> Prop) n (l : list A) :
  StronglySorted R l -> StronglySorted R (skipn n l).
Proof.
  revert n. induction l as [|h t IH]; intros n Hs.
  - rewrite skipn_nil. constructor.
  - destruct n; [exact Hs|]. cbn [skipn].
    apply StronglySorted_inv in Hs. apply IH. tauto.
Qed.

Lemma StronglySorted_map {A B} (R : A -> A -> Prop) (S : B -> B -> Prop)
    (f : A -> B) (l : list A) :
  (forall a b, R a b -> S (f a) (f b)) ->
  StronglySorted R l -> StronglySorted S (map f l).
Proof.
  intros Hf. induction l as [|h t IH]; intros Hs; [constructor|].
  apply StronglySorted_inv in Hs. destruct Hs as [Ht Hh]. cbn [map].
  constructor; [apply IH; exact Ht|].
  rewrite Forall_forall in *. intros z Hz. apply in_map_iff in Hz.
  destruct Hz as (a & <- & Ha). apply Hf. apply Hh. exact Ha.
Qed.

Lemma paginate_in {A} (take skip : Z) (rows out : list A) x :
  paginate take skip rows = Returned out -> In x out -> In x rows.
Proof.
  unfold paginate. destruct (skip <? 0); [discriminate|].
  destruct (0 <=? take); intros H; injection H as <-; intros Hin.
  - apply in_firstn, in_skipn in Hin. exact Hin.
  - apply in_rev, in_firstn, in_skipn, in_rev in Hin. exact Hin.
Qed.

(** Every row a message page shows is a stored message of that
    conversation, masked when it is soft-deleted. *)
Lemma getMessagesByConversation_rows conversationId limit page db rows db' m a :
  getMessagesByConversation conversationId limit page db = (Returned rows, db') ->
  In (m, a) rows ->
  exists m0, In m0 (messages db)
             /\ msg_conversationId m0 = conversationId
             /\ (m, a) = maskDeleted
                           (m0, option_map selectAuthor
                                  (user_findUnique (msg_userId m0) db)).
Proof.
  unfold getMessagesByConversation, message_findMany_newestFirst.
  destruct (paginate _ _ _) as [found|e] eqn:Hpage; [|discriminate].
  intros H Hin. injection H as <- _. apply in_map_iff in Hin.
  destruct Hin as (row & Hmask & Hin).
  apply (paginate_in _ _ _ _ _ Hpage) in Hin. apply in_map_iff in Hin.
  destruct Hin as (m0 & <- & Hin).
  apply sortDesc_in, filter_In in Hin. destruct Hin as [Hin Hc].
  apply Z.eqb_eq in Hc. exists m0. auto.
Qed.

Lemma maskDeleted_keeps (row : Message * option Author) :
  msg_id (fst (maskDeleted row)) = msg_id (fst row)
  /\ msg_conversationId (fst (maskDeleted row)) = msg_conversationId (fst row)
  /\ msg_createdAt (fst (maskDeleted row)) = msg_createdAt (fst row)
  /\ msg_isDeleted (fst (maskDeleted row)) = msg_isDeleted (fst row).
Proof.
  destruct row as [m a]. unfold maskDeleted.
  destruct (msg_isDeleted m); cbn; auto.
Qed.

(** A message page with a non-negative [limit] and a [page] of at least 1
    never throws and never writes.  It holds at most [limit] rows, all of
    the conversation asked for, newest first, and every soft-deleted row
    carries the placeholder. *)
Theorem getMessagesByConversation_page
    (conversationId limit page : Z) (db : Db) :
  0 <= limit -> 1 <= page ->
  exists rows,
    getMessagesByConversation conversationId limit page db = (Returned rows, db)
    /\ Z.of_nat (List.length rows) <= limit
    /\ (forall m a, In (m, a) rows ->
                    msg_conversationId m = conversationId
                    /\ (msg_isDeleted m = true ->
                        msg_content m = deletedPlaceholder))
    /\ StronglySorted
         (fun newer older => msg_createdAt (fst older) <= msg_createdAt (fst newer))
         rows.
Proof.
  intros Hlimit Hpage.
  destruct (getMessagesByConversation conversationId limit page db)
    as [out db'] eqn:Hrun.
  pose proof Hrun as Hshape.
  unfold getMessagesByConversation, message_findMany_newestFirst, paginate
    in Hshape.
  assert (((page - 1) * limit <? 0) = false) as Hskip
      by (apply Z.ltb_ge; nia).
  assert ((0 <=? limit) = true) as Htake by (apply Z.leb_le; exact Hlimit).
  rewrite Hskip, Htake in Hshape. injection Hshape as <- <-.
  eexists. split; [reflexivity|]. split; [|split].
  - rewrite length_map.
    pose proof (firstn_le_length (Z.to_nat limit)
                  (skipn (Z.to_nat ((page - 1) * limit))
                     (map (fun m => (m, option_map selectAuthor
                                          (user_findUnique (msg_userId m) db)))
                          (sortDesc msg_createdAt
                             (filter (fun m => msg_conversationId m =? conversationId)
                                     (messages db)))))).
    lia.
  - intros m a Hin.
    destruct (getMessagesByConversation_rows _ _ _ _ _ _ _ _ Hrun Hin)
      as (m0 & _ & Hconv & Hmask).
    destruct (getMessagesByConversation_masks _ _ _ _ _ _ Hrun) as [_ Hmasked].
    split; [|apply (Hmasked m a Hin)].
    pose proof (maskDeleted_keeps
                  (m0, option_map selectAuthor (user_findUnique (msg_userId m0) db)))
      as (_ & Hc & _).
    rewrite <- Hmask in Hc. cbn [fst] in Hc. congruence.
  - apply (StronglySorted_map
             (fun newer older => msg_createdAt (fst older) <= msg_createdAt (fst newer))).
    { intros r1 r2 H.
      destruct (maskDeleted_keeps r1) as (_ & _ & -> & _).
      destruct (maskDeleted_keeps r2) as (_ & _ & -> & _). exact H. }
    apply StronglySorted_firstn, StronglySorted_skipn.
    apply (StronglySorted_map (fun a b => msg_createdAt b <= msg_createdAt a)).
    { intros r1 r2 H. exact H. }
    apply sortDesc_sorted.
Qed.

(** The first page of conversation 10, two rows at most. *)
Lemma getMessagesByConversation_page_witness :
  exists rows,
    getMessagesByConversation 10 2 1 Sample.chat = (Returned rows, Sample.chat)
    /\ Z.of_nat (List.length rows) <= 2.
Proof.
  destruct (getMessagesByConversation_page 10 2 1 Sample.chat
              ltac:(lia) ltac:(lia)) as (rows & Hrun & Hlen & _).
  exists rows. split; assumption.
Defined.

Lemma firstn_firstn_skipn {A} (n m : nat) (l : list A) :
  (firstn n l ++ firstn m (skipn n l))%list = firstn (n + m) l.
Proof.
  revert l. induction n as [|n IH]; intros l; [reflexivity|].
  destruct l as [|h t]; [cbn; rewrite firstn_nil; reflexivity|].
  cbn [firstn skipn app Nat.add]. rewrite IH. reflexivity.
Qed.

(** Pages compose.  When no two messages of the conversation were created
    at the same instant, [orderBy createdAt desc] admits one listing of
    them only, the one the pages are cut from; then pages [2p-1] and [2p]
    of size [limit], one after the other, are page [p] of size
    [2 * limit]. *)
Theorem getMessagesByConversation_pages_compose
    (conversationId limit page : Z) (db : Db) :
  distinctTimes db conversationId ->
  0 <= limit -> 1 <= page ->
  (forall rows,
     Permutation rows (messagesIn db conversationId) ->
     newestFirst rows ->
     rows = sortDesc msg_createdAt (messagesIn db conversationId))
  /\ exists odd even both,
       getMessagesByConversation conversationId limit (2 * page - 1) db
       = (Returned odd, db)
       /\ getMessagesByConversation conversationId limit (2 * page) db
          = (Returned even, db)
       /\ getMessagesByConversation conversationId (2 * limit) page db
          = (Returned both, db)
       /\ both = (odd ++ even)%list.
Proof.
  intros Hdistinct Hlimit Hpage. split.
  { intros rows Hperm Hsorted.
    apply sortDesc_determined; assumption. }
  unfold getMessagesByConversation, message_findMany_newestFirst, paginate.
  assert (((2 * page - 1 - 1) * limit <? 0) = false) as ->
      by (apply Z.ltb_ge; nia).
  assert (((2 * page - 1) * limit <? 0) = false) as ->
      by (apply Z.ltb_ge; nia).
  assert (((page - 1) * (2 * limit) <? 0) = false) as ->
      by (apply Z.ltb_ge; nia).
  assert ((0 <=? limit) = true) as -> by (apply Z.leb_le; lia).
  assert ((0 <=? 2 * limit) = true) as -> by (apply Z.leb_le; lia).
  do 3 eexists. split; [reflexivity|]. split; [reflexivity|].
  split; [reflexivity|].
  rewrite <- map_app. f_equal.
  replace (Z.to_nat ((2 * page - 1) * limit))
    with (Z.to_nat limit + Z.to_nat ((page - 1) * (2 * limit)))%nat by nia.
  replace ((2 * page - 1 - 1) * limit) with ((page - 1) * (2 * limit)) by lia.
  replace (Z.to_nat (2 * limit)) with (Z.to_nat limit + Z.to_nat limit)%nat by lia.
  rewrite <- skipn_skipn. symmetry. apply firstn_firstn_skipn.
Qed.

(** The two messages of conversation 10 were created at 35 and at 40. *)
Lemma getMessagesByConversation_pages_compose_witness :
  map msg_createdAt (messagesIn Sample.chat 10) = [35; 40]
  /\ exists odd even both,
       getMessagesByConversation 10 1 1 Sample.chat = (Returned odd, Sample.chat)
       /\ getMessagesByConversation 10 1 2 Sample.chat = (Returned even, Sample.chat)
       /\ getMessagesByConversation 10 2 1 Sample.chat = (Returned both, Sample.chat)
       /\ both = (odd ++ even)%list.
Proof.
  split; [reflexivity|].
  assert (Hdistinct : distinctTimes Sample.chat 10).
  { unfold distinctTimes. cbn. constructor.
    - cbn. intros [H | []]. discriminate H.
    - constructor; [intros []|constructor]. }
  exact (proj2 (getMessagesByConversation_pages_compose 10 1 1 Sample.chat
                  Hdistinct ltac:(lia) ltac:(lia))).
Defined.

(** A page number below 1 with a positive [limit] is not caught by the
    service: the negative offset reaches the database, which refuses it, so
    the call throws a storage error (and writes nothing). *)
Theorem getMessagesByConversation_page_below_one
    (conversationId limit page : Z) (db : Db) :
  0 < limit -> page < 1 ->
  exists e,
    getMessagesByConversation conversationId limit page db = (Thrown e, db)
    /\ kindOf e = StorageError.
Proof.
  intros Hlimit Hpage.
  unfold getMessagesByConversation, message_findMany_newestFirst, paginate.
  assert (((page - 1) * limit <? 0) = true) as -> by (apply Z.ltb_lt; nia).
  eexists. split; reflexivity.
Qed.

Lemma getMessagesByConversation_page_below_one_witness :
  exists e,
    getMessagesByConversation 10 50 0 Sample.chat = (Thrown e, Sample.chat)
    /\ kindOf e = StorageError.
Proof.
  exact (getMessagesByConversation_page_below_one 10 50 0 Sample.chat
           ltac:(lia) ltac:(lia)).
Defined.

Lemma softDeleted_twice m : softDeleted (softDeleted m) = softDeleted m.
Proof. reflexivity. Qed.

(** The author's [deleteMessage] is a soft delete.  It returns, no row is
    removed and the stored text stays in the table under the deleted flag;
    from then on every message page, of any size, shows that message with
    the placeholder; and deleting again changes nothing more. *)
Theorem deleteMessage_hides_the_text
    (messageId userId : Z) (db : Db) (m : Message) :
  message_findUnique messageId db = Some m ->
  msg_userId m = userId ->
  exists db',
    deleteMessage messageId userId db = (Returned (softDeleted m), db')
    /\ message_findUnique messageId db' = Some (softDeleted m)
    /\ map msg_content (messages db') = map msg_content (messages db)
    /\ (forall conversationId limit page rows db'' m' a,
          getMessagesByConversation conversationId limit page db'
          = (Returned rows, db'') ->
          In (m', a) rows -> msg_id m' = messageId ->
          msg_content m' = deletedPlaceholder)
    /\ deleteMessage messageId userId db' = (Returned (softDeleted m), db').
Proof.
  intros Hfind Hown.
  rewrite (deleteMessage_own db messageId userId m Hfind Hown).
  eexists. split; [reflexivity|].
  assert (Hfind' :
    message_findUnique messageId
      (set_messages (map (fun x => if msg_id x =? messageId
                                   then softDeleted x else x)) db)
    = Some (softDeleted m)).
  { rewrite message_findUnique_after_update by reflexivity.
    rewrite Hfind. reflexivity. }
  split; [exact Hfind'|]. split; [|split].
  - cbn [messages set_messages]. rewrite map_map. apply map_ext.
    intros x. destruct (msg_id x =? messageId); reflexivity.
  - intros conversationId limit page rows db'' m' a Hrun Hin Hid.
    destruct (getMessagesByConversation_rows _ _ _ _ _ _ _ _ Hrun Hin)
      as (m0 & Hm0 & _ & Hmask).
    destruct (getMessagesByConversation_masks _ _ _ _ _ _ Hrun) as [_ Hmasked].
    apply (Hmasked m' a Hin).
    pose proof (maskDeleted_keeps
                  (m0, option_map selectAuthor
                         (user_findUnique (msg_userId m0)
                            (set_messages
                               (map (fun x => if msg_id x =? messageId
                                              then softDeleted x else x)) db))))
      as (Hsame & _ & _ & Hflag).
    rewrite <- Hmask in Hsame, Hflag. cbn [fst] in Hsame, Hflag.
    rewrite Hflag. cbn [messages set_messages] in Hm0.
    apply in_map_iff in Hm0. destruct Hm0 as (x & <- & _).
    destruct (msg_id x =? messageId) eqn:Hx; [reflexivity|].
    apply Z.eqb_neq in Hx. congruence.
  - rewrite (deleteMessage_own _ messageId userId (softDeleted m) Hfind' Hown).
    f_equal. unfold set_messages.
    cbn [users conversations participants messages nextConversationId
         nextParticipantId nextMessageId].
    f_equal. rewrite map_map. apply map_ext. intros x.
    destruct (msg_id x =? messageId) eqn:Hx.
    + cbn [softDeleted msg_id]. rewrite Hx. reflexivity.
    + rewrite Hx. reflexivity.
Qed.

(** User 1 deletes their message 1 of conversation 10. *)
Lemma deleteMessage_hides_the_text_witness :
  exists db',
    deleteMessage 1 1 Sample.chat
    = (Returned (softDeleted (mkMessage 1 1 10 "hello" false false 35 35)), db')
    /\ map msg_content (messages db') = ["hello"; "my password is hunter2"].
Proof.
  destruct (deleteMessage_hides_the_text 1 1 Sample.chat
              (mkMessage 1 1 10 "hello" false false 35 35) eq_refl eq_refl)
    as (db' & Hrun & _ & Hkept & _).
  exists db'. split; [exact Hrun|exact Hkept].
Defined.

(** [createMessage] asks for no membership.  Whenever it returns, the
    author and the conversation exist, the new message is the last row of
    the table, by that author and with the given content, neither deleted
    nor read, and the conversation points to it as its last message,
    refreshed at the time of the call; users and participants are as
    before.  Whether the author is a participant plays no part. *)
Theorem createMessage_on_return
    (now : Date) (userId conversationId : Z) (content : string) (db db' : Db)
    (saved : MessageWithUser) :
  createMessage now userId conversationId content db = (Returned saved, db') ->
  (exists u, user_findUnique userId db = Some u
             /\ mwu_user saved = selectAuthor u)
  /\ (exists c, conversation_findUnique conversationId db = Some c
                /\ conversation_findUnique conversationId db'
                   = Some (touched now (msg_id (mwu_message saved)) c))
  /\ mwu_message saved
     = mkMessage (nextMessageId db) userId conversationId content
                 false false now now
  /\ messages db' = (messages db ++ [mwu_message saved])%list
  /\ users db' = users db
  /\ participants db' = participants db.
Proof.
  destruct (user_findUnique userId db) as [u|] eqn:Hu;
    [destruct (conversation_findUnique conversationId db) as [c|] eqn:Hc|].
  - pose proof (createMessage_member now userId conversationId content db u c Hu Hc)
      as Hrun. cbv zeta in Hrun. rewrite Hrun.
    intros H. injection H as <- <-.
    cbn [mwu_message mwu_user messages users participants msg_id].
    split; [exists u; auto|]. split; [|repeat split].
    exists c. split; [reflexivity|].
    unfold conversation_findUnique. cbn [conversations].
    change (touch conversationId now (nextMessageId db))
      with (fun x => if conv_id x =? conversationId
                     then touched now (nextMessageId db) x else x).
    rewrite (find_replace conv_id (touched now (nextMessageId db))) by reflexivity.
    fold (conversation_findUnique conversationId db). rewrite Hc. reflexivity.
  - unfold createMessage, message_create. run. rewrite Hu, Hc. discriminate.
  - unfold createMessage, message_create. run. rewrite Hu. discriminate.
Qed.

(** User 5 is not in conversation 10, yet the service stores their message
    and makes it the conversation's last. *)
Lemma createMessage_on_return_witness :
  member Sample.chat 10 5 = false
  /\ messages (snd (createMessage 99 5 10 "hi" Sample.chat))
     = (messages Sample.chat ++ [mkMessage 3 5 10 "hi" false false 99 99])%list
  /\ conversation_findUnique 10 (snd (createMessage 99 5 10 "hi" Sample.chat))
     = Some (mkConversation 10 None false (Some 3) 99).
Proof.
  split; [reflexivity|].
  destruct (createMessage_on_return 99 5 10 "hi" Sample.chat
              (snd (createMessage 99 5 10 "hi" Sample.chat))
              (mkMWU (mkMessage 3 5 10 "hi" false false 99 99)
                     (mkAuthor 5 "dana" None)) eq_refl)
    as (_ & (c & Hc & Hc') & _ & Hm & _).
  split; [exact Hm|].
  rewrite Hc'. injection Hc as <-. reflexivity.
Defined.

(** ** More on the gateway *)

Lemma isParticipant_member conversationId userId db :
  isParticipant conversationId userId db
  = (Returned (member db conversationId userId), db).
Proof. reflexivity. Qed.

(** [joinConversation] is gated by membership and never writes or emits.
    A participant's socket joins the room [conversation_<id>] and is handed
    the first page of the history, whose rows all belong to the
    conversation and show the placeholder where a message is soft-deleted;
    anybody else gets an error and the socket joins nothing. *)
Theorem handleJoinRoom_gate
    (client : Socket) (conversationId : Z) (srv : Server) (userId : Z) :
  data_userId client = Some userId ->
  if member (server_db srv) conversationId userId
  then exists history,
         handleJoinRoom client conversationId srv
         = (Returned (join (conversationRoom conversationId) client,
                      AckOk history), srv)
         /\ getMessagesByConversation conversationId 50 1 (server_db srv)
            = (Returned history, server_db srv)
         /\ (forall m a, In (m, a) history ->
                         msg_conversationId m = conversationId
                         /\ (msg_isDeleted m = true ->
                             msg_content m = deletedPlaceholder))
  else exists error,
         handleJoinRoom client conversationId srv
         = (Returned (client, AckError error), srv).
Proof.
  intros Hclient. destruct srv as [db log]. cbn [server_db].
  unfold handleJoinRoom. rewrite Hclient. run. cbn [server_db server_emitted].
  rewrite isParticipant_member.
  destruct (member db conversationId userId);
    cbn [negb server_db server_emitted].
  - destruct (getMessagesByConversation conversationId 50 1 db)
      as [[history|e] db1] eqn:Hget.
    + destruct (getMessagesByConversation_masks _ _ _ _ _ _ Hget) as [-> Hmask].
      exists history. split; [reflexivity|]. split; [reflexivity|].
      intros m a Hin. split; [|apply (Hmask m a Hin)].
      destruct (getMessagesByConversation_rows _ _ _ _ _ _ _ _ Hget Hin)
        as (m0 & _ & Hconv & Hrow).
      pose proof (maskDeleted_keeps
                    (m0, option_map selectAuthor
                           (user_findUnique (msg_userId m0) db)))
        as (_ & Hc & _).
      rewrite <- Hrow in Hc. cbn [fst] in Hc. congruence.
    + exfalso. unfold getMessagesByConversation, message_findMany_newestFirst,
        paginate in Hget. cbn in Hget. discriminate.
  - eexists. reflexivity.
Qed.

(** User 5 is not in conversation 10. *)
Lemma handleJoinRoom_gate_witness :
  exists error,
    handleJoinRoom (setUserId (Some 5) Sample.phone) 10 (mkServer Sample.chat [])
    = (Returned (setUserId (Some 5) Sample.phone, AckError error),
       mkServer Sample.chat []).
Proof.
  exact (handleJoinRoom_gate (setUserId (Some 5) Sample.phone) 10
           (mkServer Sample.chat []) 5 eq_refl).
Defined.

(** A handshake leaves one of two traces.  Either the socket is
    disconnected, and then the database and the emitted events are untouched;
    or the socket stays connected, and then a non-empty token of the
    handshake verified to a payload whose [id] is the id of a stored user,
    the socket carries that id and sits in the user's notification room, and
    exactly one online event for that user was emitted. *)
Theorem handleConnection_admits_verified_users_only
    (verifyToken : string -> option JwtPayload)
    (now : Date) (client : Socket) (srv : Server) :
  sock_connected client = true ->
  let client' := fst (handleConnection verifyToken now client srv) in
  let srv' := snd (handleConnection verifyToken now client srv) in
  (sock_connected client' = false /\ srv' = srv)
  \/ (sock_connected client' = true
      /\ exists token id u,
           (handshake_auth_token client = Some token
            \/ handshake_query_token client = Some token)
           /\ token <> ""
           /\ verifyToken token = Some (mkJwtPayload (Some id))
           /\ user_findUnique id (server_db srv) = Some u
           /\ data_userId client' = Some id
           /\ In (notificationRoom (Some id)) (sock_rooms client')
           /\ server_emitted srv'
              = (server_emitted srv ++ [presenceEvent u true now])%list).
Proof.
  intros Hconnected. cbv zeta. unfold handleConnection.
  set (token := match truthyString (handshake_auth_token client) with
                | Some t => Some t
                | None => truthyString (handshake_query_token client)
                end).
  assert (Htoken : forall t, token = Some t ->
                     (handshake_auth_token client = Some t
                      \/ handshake_query_token client = Some t) /\ t <> "").
  { intros t. unfold token, truthyString.
    destruct (handshake_auth_token client) as [[|c s]|].
    - destruct (handshake_query_token client) as [[|c s]|]; try discriminate.
      intros H. injection H as <-. split; [auto|discriminate].
    - intros H. injection H as <-. split; [auto|discriminate].
    - destruct (handshake_query_token client) as [[|c s]|]; try discriminate.
      intros H. injection H as <-. split; [auto|discriminate]. }
  destruct token as [t|]; [|left; split; reflexivity].
  destruct (Htoken t eq_refl) as [Hfrom Hnonempty].
  destruct (verifyToken t) as [[[id|]]|] eqn:Hverify;
    [|left; split; reflexivity|left; split; reflexivity].
  cbn [payload_id]. run.
  destruct (updateStatus now id true (server_db srv)) as [[status|e] db1] eqn:Hup.
  - right. cbn [fst snd sock_connected join setUserId]. split; [exact Hconnected|].
    unfold updateStatus in Hup.
    destruct (user_findUnique id (server_db srv)) as [u|] eqn:Hu; [|discriminate].
    injection Hup as <- <-.
    exists t, id, u. repeat split; try assumption.
    cbn [sock_rooms data_userId]. apply in_or_app. right. left. reflexivity.
  - left. cbn [fst snd sock_connected disconnect]. split; [reflexivity|].
    unfold updateStatus in Hup.
    destruct (user_findUnique id (server_db srv)); [discriminate|].
    injection Hup as _ <-. destruct srv. reflexivity.
Qed.

(** A socket without a token is turned away. *)
Lemma handleConnection_admits_verified_users_only_witness :
  sock_connected
    (fst (handleConnection Sample.verify 100
            (mkSocket "tablet" None None None [] true)
            (mkServer Sample.chat []))) = false
  /\ snd (handleConnection Sample.verify 100
            (mkSocket "tablet" None None None [] true)
            (mkServer Sample.chat [])) = mkServer Sample.chat [].
Proof.
  destruct (handleConnection_admits_verified_users_only Sample.verify 100
              (mkSocket "tablet" None None None [] true)
              (mkServer Sample.chat []) eq_refl) as [H | [H _]].
  - exact H.
  - discriminate H.
Defined.

(** [handleDisconnect] goes by the user id kept on the socket.  With none
    (or with the id 0) it does nothing.  With the id of a stored user it
    stores the user as offline, last seen at the time of the disconnect,
    and emits exactly one [userStatusChanged] to everyone, with the user's
    id and name, the flag and that time.  With an id that no stored user
    has, the status update throws a StorageError and nothing is stored or
    emitted. *)
Theorem handleDisconnect_outcomes (later : Date) (client : Socket) (srv : Server) :
  match data_userId client with
  | None | Some 0 => handleDisconnect later client srv = (Returned tt, srv)
  | Some id =>
      match user_findUnique id (server_db srv) with
      | Some u =>
          exists srv',
            handleDisconnect later client srv = (Returned tt, srv')
            /\ server_emitted srv'
               = (server_emitted srv
                  ++ [mkEmission Everyone
                        (userStatusChanged
                           (mkUserStatus (user_id u) (user_username u)
                                         false later))])%list
            /\ user_findUnique id (server_db srv')
               = Some (mkUser (user_id u) (user_username u) (user_avatar u)
                              false later)
            /\ conversations (server_db srv') = conversations (server_db srv)
            /\ participants (server_db srv') = participants (server_db srv)
            /\ messages (server_db srv') = messages (server_db srv)
      | None =>
          exists e, handleDisconnect later client srv = (Thrown e, srv)
                    /\ kindOf e = StorageError
      end
  end.
Proof.
  assert (Hid : forall id, id <> 0 -> data_userId client = Some id ->
    match user_findUnique id (server_db srv) with
    | Some u =>
        exists srv',
          handleDisconnect later client srv = (Returned tt, srv')
          /\ server_emitted srv'
             = (server_emitted srv
                ++ [mkEmission Everyone
                      (userStatusChanged
                         (mkUserStatus (user_id u) (user_username u)
                                       false later))])%list
          /\ user_findUnique id (server_db srv')
             = Some (mkUser (user_id u) (user_username u) (user_avatar u)
                            false later)
          /\ conversations (server_db srv') = conversations (server_db srv)
          /\ participants (server_db srv') = participants (server_db srv)
          /\ messages (server_db srv') = messages (server_db srv)
    | None =>
        exists e, handleDisconnect later client srv = (Thrown e, srv)
                  /\ kindOf e = StorageError
    end).
  { intros id Hnonzero Hclient. unfold handleDisconnect. rewrite Hclient.
    rewrite (truthyId_nonzero id Hnonzero). run.
    destruct (user_findUnique id (server_db srv)) as [u|] eqn:Hu.
    - rewrite (updateStatus_found later id false (server_db srv) u Hu).
      eexists. split; [reflexivity|]. cbn [server_emitted server_db].
      split; [reflexivity|]. split; [|repeat split].
      rewrite user_findUnique_after_status, Hu. reflexivity.
    - unfold updateStatus. rewrite Hu. destruct srv.
      eexists. split; reflexivity. }
  destruct (data_userId client) as [[|p|p]|] eqn:Hclient.
  - unfold handleDisconnect. rewrite Hclient. reflexivity.
  - apply Hid; [discriminate|reflexivity].
  - apply Hid; [discriminate|reflexivity].
  - unfold handleDisconnect. rewrite Hclient. reflexivity.
Qed.

(** A socket without a user id; a socket of user 1; a socket that carries
    the id 99, which no user has. *)
Lemma handleDisconnect_outcomes_witness :
  let srv := mkServer Sample.chat [] in
  handleDisconnect 101 Sample.phone srv = (Returned tt, srv)
  /\ (exists srv',
        handleDisconnect 101 (setUserId (Some 1) Sample.phone) srv
        = (Returned tt, srv')
        /\ server_emitted srv'
           = [mkEmission Everyone
                (userStatusChanged (mkUserStatus 1 "amal" false 101))]
        /\ user_findUnique 1 (server_db srv')
           = Some (mkUser 1 "amal" None false 101))
  /\ (exists e,
        handleDisconnect 101 (setUserId (Some 99) Sample.phone) srv
        = (Thrown e, srv)
        /\ kindOf e = StorageError).
Proof.
  cbn zeta. split; [|split].
  - exact (handleDisconnect_outcomes 101 Sample.phone (mkServer Sample.chat [])).
  - destruct (handleDisconnect_outcomes 101 (setUserId (Some 1) Sample.phone)
                (mkServer Sample.chat []))
      as (srv' & Hrun & Hemit & Huser & _).
    exists srv'. split; [exact Hrun|]. split; [exact Hemit|exact Huser].
  - exact (handleDisconnect_outcomes 101 (setUserId (Some 99) Sample.phone)
             (mkServer Sample.chat [])).
Defined.

Lemma deleteMessage_thrown messageId userId db e db' :
  deleteMessage messageId userId db = (Thrown e, db') ->
  db' = db
  /\ ((message_findUnique messageId db = None /\ kindOf e = NotFoundError)
      \/ (exists m, message_findUnique messageId db = Some m
                    /\ msg_userId m <> userId /\ kindOf e = AuthorizationError)).
Proof.
  unfold deleteMessage. run.
  destruct (message_findUnique messageId db) as [m|] eqn:Hfind.
  - destruct (msg_userId m =? userId) eqn:Hown; cbn [negb].
    + unfold message_update. rewrite Hfind. discriminate.
    + intros H. injection H as <- <-. split; [reflexivity|]. right.
      exists m. apply Z.eqb_neq in Hown. auto.
  - intros H. injection H as <- <-. auto.
Qed.

Lemma editMessage_thrown now messageId userId newText db e db' :
  editMessage now messageId userId newText db = (Thrown e, db') ->
  db' = db
  /\ ((message_findUnique messageId db = None /\ kindOf e = NotFoundError)
      \/ (exists m, message_findUnique messageId db = Some m
                    /\ msg_userId m <> userId /\ kindOf e = AuthorizationError)).
Proof.
  unfold editMessage. run.
  destruct (message_findUnique messageId db) as [m|] eqn:Hfind.
  - destruct (msg_userId m =? userId) eqn:Hown; cbn [negb].
    + unfold message_update. rewrite Hfind. discriminate.
    + intros H. injection H as <- <-. split; [reflexivity|]. right.
      exists m. apply Z.eqb_neq in Hown. auto.
  - intros H. injection H as <- <-. auto.
Qed.

Lemma ownershipOfNobody_throws messageId what db :
  exists e, ownershipOfNobody messageId what db = (Thrown e, db)
            /\ (kindOf e = NotFoundError \/ kindOf e = AuthorizationError).
Proof.
  unfold ownershipOfNobody. run.
  destruct (message_findUnique messageId db); eexists; split;
    try reflexivity; auto.
Qed.

(** [deleteMessage] over the socket.  A refusal (unknown message, or a
    caller who is not its author, a socket without user included) throws a
    NotFoundError or an AuthorizationError and leaves the server as it was:
    nothing is written and nothing is broadcast.  A success acknowledges
    [true], flags the author's message deleted, and broadcasts exactly one
    [messageDeleted] to the room of the conversation id given in the
    payload, which is not compared with the conversation of the message. *)
Theorem handleDeleteMessage_outcomes
    (client : Socket) (payload : DeleteMessagePayload) (srv : Server) :
  (forall e srv',
     handleDeleteMessage client payload srv = (Thrown e, srv') ->
     srv' = srv /\ (kindOf e = NotFoundError \/ kindOf e = AuthorizationError))
  /\ (forall ok srv',
        handleDeleteMessage client payload srv = (Returned ok, srv') ->
        ok = true
        /\ (exists m,
              message_findUnique (delete_messageId payload) (server_db srv) = Some m
              /\ data_userId client = Some (msg_userId m)
              /\ message_findUnique (delete_messageId payload) (server_db srv')
                 = Some (softDeleted m))
        /\ server_emitted srv'
           = (server_emitted srv
              ++ [mkEmission
                    (Room (conversationRoom (delete_conversationId payload)))
                    (messageDeleted (delete_messageId payload))])%list).
Proof.
  destruct srv as [db log]. unfold handleDeleteMessage. run.
  cbn [server_db server_emitted].
  destruct (data_userId client) as [userId|].
  - destruct (deleteMessage (delete_messageId payload) userId db)
      as [[m'|e0] db1] eqn:Hdel.
    + split; [intros e srv' H; discriminate|].
      intros ok srv' H. injection H as <- <-. cbn [server_db server_emitted].
      split; [reflexivity|]. split; [|reflexivity].
      unfold deleteMessage in Hdel. run.
      destruct (message_findUnique (delete_messageId payload) db) as [m|] eqn:Hfind;
        [|discriminate].
      destruct (msg_userId m =? userId) eqn:Hown; cbn [negb] in Hdel;
        [|discriminate].
      unfold message_update in Hdel. rewrite Hfind in Hdel.
      injection Hdel as _ <-. apply Z.eqb_eq in Hown.
      exists m. split; [reflexivity|]. split; [congruence|].
      rewrite message_findUnique_after_update by reflexivity.
      rewrite Hfind. reflexivity.
    + split; [|intros ok srv' H; discriminate].
      intros e srv' H. injection H as <- <-.
      apply deleteMessage_thrown in Hdel. destruct Hdel as [-> Hkind].
      split; [reflexivity|].
      destruct Hkind as [[_ Hk] | (m & _ & _ & Hk)]; auto.
  - destruct (ownershipOfNobody_throws (delete_messageId payload)
                "You can only delete your own messages" db) as (e0 & -> & Hk).
    split; [|intros ok srv' H; discriminate].
    intros e srv' H. injection H as <- <-. auto.
Qed.

(** User 1 asks to delete message 2, which user 2 wrote. *)
Lemma handleDeleteMessage_outcomes_witness :
  snd (handleDeleteMessage (setUserId (Some 1) Sample.phone) (mkDelete 2 10)
         (mkServer Sample.chat []))
  = mkServer Sample.chat [].
Proof.
  destruct (handleDeleteMessage_outcomes (setUserId (Some 1) Sample.phone)
              (mkDelete 2 10) (mkServer Sample.chat [])) as [Hthrown _].
  apply (Hthrown (ForbiddenException "You can only delete your own messages")).
  reflexivity.
Defined.

(** [editMessage] over the socket.  A refusal throws a NotFoundError or an
    AuthorizationError and leaves the server as it was, broadcasting
    nothing.  A success returns the author's message with the new text,
    stores it, and broadcasts exactly one [messageUpdated] with that text to
    the room of the conversation id given in the payload. *)
Theorem handleEditMessage_outcomes
    (now : Date) (client : Socket) (payload : EditMessagePayload) (srv : Server) :
  (forall e srv',
     handleEditMessage now client payload srv = (Thrown e, srv') ->
     srv' = srv /\ (kindOf e = NotFoundError \/ kindOf e = AuthorizationError))
  /\ (forall updated srv',
        handleEditMessage now client payload srv = (Returned updated, srv') ->
        (exists m,
           message_findUnique (edit_messageId payload) (server_db srv) = Some m
           /\ data_userId client = Some (msg_userId m)
           /\ updated = edited (edit_text payload) now m
           /\ message_findUnique (edit_messageId payload) (server_db srv')
              = Some updated)
        /\ server_emitted srv'
           = (server_emitted srv
              ++ [mkEmission
                    (Room (conversationRoom (edit_conversationId payload)))
                    (messageUpdated (edit_messageId payload)
                                    (edit_text payload))])%list).
Proof.
  destruct srv as [db log]. unfold handleEditMessage. run.
  cbn [server_db server_emitted].
  destruct (data_userId client) as [userId|].
  - destruct (editMessage now (edit_messageId payload) userId (edit_text payload) db)
      as [[m'|e0] db1] eqn:Hedit.
    + split; [intros e srv' H; discriminate|].
      intros updated srv' H. injection H as <- <-. cbn [server_db server_emitted].
      split; [|reflexivity].
      unfold editMessage in Hedit. run.
      destruct (message_findUnique (edit_messageId payload) db) as [m|] eqn:Hfind;
        [|discriminate].
      destruct (msg_userId m =? userId) eqn:Hown; cbn [negb] in Hedit;
        [|discriminate].
      unfold message_update in Hedit. rewrite Hfind in Hedit.
      injection Hedit as <- <-. apply Z.eqb_eq in Hown.
      exists m. split; [reflexivity|]. split; [congruence|].
      split; [reflexivity|].
      rewrite message_findUnique_after_update by reflexivity.
      rewrite Hfind. reflexivity.
    + split; [|intros ok srv' H; discriminate].
      intros e srv' H. injection H as <- <-.
      apply editMessage_thrown in Hedit. destruct Hedit as [-> Hkind].
      split; [reflexivity|].
      destruct Hkind as [[_ Hk] | (m & _ & _ & Hk)]; auto.
  - destruct (ownershipOfNobody_throws (edit_messageId payload)
                "You can only edit your own messages" db) as (e0 & -> & Hk).
    split; [|intros ok srv' H; discriminate].
    intros e srv' H. injection H as <- <-. auto.
Qed.

(** User 1 edits their message 1 and names conversation 77 in the payload. *)
Lemma handleEditMessage_outcomes_witness :
  server_emitted
    (snd (handleEditMessage 99 (setUserId (Some 1) Sample.phone)
            (mkEdit 1 77 "hello!") (mkServer Sample.chat [])))
  = [mkEmission (Room "conversation_77") (messageUpdated 1 "hello!")].
Proof.
  destruct (handleEditMessage_outcomes 99 (setUserId (Some 1) Sample.phone)
              (mkEdit 1 77 "hello!") (mkServer Sample.chat [])) as [_ Hreturned].
  destruct (Hreturned (edited "hello!" 99 (mkMessage 1 1 10 "hello" false false 35 35))
              (snd (handleEditMessage 99 (setUserId (Some 1) Sample.phone)
                      (mkEdit 1 77 "hello!") (mkServer Sample.chat [])))
              eq_refl) as [_ Hemit].
  exact Hemit.
Defined.

(** [messagesRead] from a socket with a user id always goes through,
    participant of the conversation or not: afterwards no message of the
    conversation written by somebody else is unread, and exactly one
    [messagesMarkedAsRead], naming the reader and the time, goes to the room
    of the conversation, the sender's own socket excepted. *)
Theorem handleMessagesRead_marks_and_notifies
    (now : Date) (client : Socket) (conversationId : Z) (srv : Server)
    (userId : Z) :
  data_userId client = Some userId ->
  exists srv',
    handleMessagesRead now client conversationId srv = (Returned tt, srv')
    /\ (forall m, In m (messages (server_db srv')) ->
                  msg_conversationId m = conversationId ->
                  msg_userId m <> userId -> msg_isRead m = true)
    /\ participants (server_db srv') = participants (server_db srv)
    /\ server_emitted srv'
       = (server_emitted srv
          ++ [mkEmission
                (RoomExceptSender (conversationRoom conversationId) (sock_id client))
                (messagesMarkedAsRead conversationId userId now)])%list.
Proof.
  intros Hclient. destruct srv as [db log]. unfold handleMessagesRead.
  rewrite Hclient. run. cbn [server_db server_emitted].
  eexists. split; [reflexivity|]. cbn [server_db server_emitted].
  split; [|split; reflexivity].
  intros m. apply (markAsRead_none_unread conversationId userId db).
Qed.

(** User 5, who is not in conversation 10, marks it as read. *)
Lemma handleMessagesRead_marks_and_notifies_witness :
  member Sample.chat 10 5 = false
  /\ exists srv',
       handleMessagesRead 99 (setUserId (Some 5) Sample.phone) 10
                          (mkServer Sample.chat [])
       = (Returned tt, srv')
       /\ map msg_isRead (messages (server_db srv')) = [true; true].
Proof.
  split; [reflexivity|].
  destruct (handleMessagesRead_marks_and_notifies 99
              (setUserId (Some 5) Sample.phone) 10 (mkServer Sample.chat []) 5
              eq_refl) as (srv' & Hrun & _).
  exists srv'. split; [exact Hrun|].
  vm_compute in Hrun. injection Hrun as <-. reflexivity.
Defined.

(** ** Room names *)

Lemma to_int_not_nil z :
  Z.to_int z <> Decimal.Pos Decimal.Nil /\ Z.to_int z <> Decimal.Neg Decimal.Nil.
Proof.
  pose proof (DecimalZ.to_of (Z.to_int z)) as Hnorm.
  rewrite DecimalZ.of_to in Hnorm.
  split; intros H; rewrite H in Hnorm; discriminate Hnorm.
Qed.

Lemma showZ_reads_back z : NilZero.int_of_string (showZ z) = Some (Z.to_int z).
Proof.
  destruct (to_int_not_nil z) as [Hp Hn]. unfold showZ.
  apply NilZero.isi; assumption.
Qed.

Lemma showZ_injective a b : showZ a = showZ b -> a = b.
Proof.
  intros H. apply (f_equal NilZero.int_of_string) in H.
  rewrite !showZ_reads_back in H. injection H as H.
  apply DecimalZ.to_int_inj. exact H.
Qed.

(** Room names never collide: two conversations never share a room, two
    users never share a notification room, a conversation room is never a
    notification room, and the room a socket joins when its token carries
    no id is nobody's notification room. *)
Theorem room_names_never_collide :
  (forall a b, conversationRoom a = conversationRoom b -> a = b)
  /\ (forall a b, notificationRoom (Some a) = notificationRoom (Some b) -> a = b)
  /\ (forall a b, conversationRoom a <> notificationRoom b)
  /\ (forall a, notificationRoom (Some a) <> notificationRoom None).
Proof.
  split; [|split; [|split]].
  - intros a b H. unfold conversationRoom in H. cbn [String.append] in H.
    apply showZ_injective. congruence.
  - intros a b H. unfold notificationRoom, showId in H.
    cbn [String.append] in H. apply showZ_injective. congruence.
  - intros a b H. unfold conversationRoom, notificationRoom in H.
    cbn [String.append] in H. discriminate H.
  - intros a H. unfold notificationRoom, showId in H. cbn [String.append] in H.
    assert (showZ a = "undefined") as Hshow by congruence.
    pose proof (showZ_reads_back a) as Hread. rewrite Hshow in Hread.
    discriminate Hread.
Qed.

Lemma room_names_never_collide_witness :
  conversationRoom 1 <> conversationRoom 11
  /\ conversationRoom 5 <> notificationRoom (Some 5).
Proof.
  destruct room_names_never_collide as (Hconv & _ & Hkinds & _).
  split; [|apply Hkinds].
  intros H. apply Hconv in H. discriminate H.
Defined.

(** ** More on conversations *)

Lemma hasParticipant_member db conversationId userId :
  hasParticipant db conversationId userId = member db conversationId userId.
Proof.
  unfold hasParticipant, member, participant_findUnique.
  induction (participants db) as [|p l IH]; [reflexivity|].
  cbn [existsb find]. unfold isKey at 1.
  rewrite (andb_comm (part_userId p =? userId)).
  destruct ((part_conversationId p =? conversationId) && (part_userId p =? userId));
    [reflexivity|exact IH].
Qed.

Lemma sortDesc_head {A} (key : A -> Z) (l : list A) h t :
  sortDesc key l = h :: t ->
  In h l /\ forall z, In z l -> key z <= key h.
Proof.
  intros H. pose proof (sortDesc_sorted key l) as Hs. rewrite H in Hs.
  apply StronglySorted_inv in Hs. destruct Hs as [_ Hall].
  rewrite Forall_forall in Hall. split.
  - apply (sortDesc_in key). rewrite H. left. reflexivity.
  - intros z Hz. apply (sortDesc_in key) in Hz. rewrite H in Hz.
    destruct Hz as [<- | Hz]; [lia|]. apply Hall. exact Hz.
Qed.

(** The conversation list of a user never writes.  It holds exactly the
    stored conversations the user participates in, most recently updated
    first; each entry lists participants of that conversation other than the
    user, and at most one message, which belongs to the conversation and is
    one of its newest. *)
Theorem getUserConversations_lists (userId : Z) (db : Db) :
  exists items,
    getUserConversations userId db = (Returned items, db)
    /\ (forall c, In c (map item_conversation items) <->
                  In c (conversations db) /\ member db (conv_id c) userId = true)
    /\ StronglySorted
         (fun a b => conv_updatedAt (item_conversation b)
                     <= conv_updatedAt (item_conversation a)) items
    /\ (forall item, In item items ->
          (forall p u, In (p, u) (item_participants item) ->
                       part_conversationId p = conv_id (item_conversation item)
                       /\ part_userId p <> userId)
          /\ (List.length (item_messages item) <= 1)%nat
          /\ (forall m, In m (item_messages item) ->
                In m (messages db)
                /\ msg_conversationId m = conv_id (item_conversation item)
                /\ forall m', In m' (messages db) ->
                              msg_conversationId m' = conv_id (item_conversation item) ->
                              msg_createdAt m' <= msg_createdAt m)).
Proof.
  eexists. split; [reflexivity|]. split; [|split].
  - intros c. rewrite map_map. cbn [item_conversation]. rewrite map_id.
    rewrite sortDesc_in, filter_In, hasParticipant_member. reflexivity.
  - apply (StronglySorted_map (fun a b => conv_updatedAt b <= conv_updatedAt a)).
    { intros a b H. exact H. }
    apply sortDesc_sorted.
  - intros item Hin. apply in_map_iff in Hin. destruct Hin as (c & <- & _).
    cbn [item_conversation item_participants item_messages].
    split; [|split].
    + intros p u Hp. apply in_map_iff in Hp. destruct Hp as (p0 & Heq & Hp0).
      injection Heq as <- _. apply filter_In in Hp0. destruct Hp0 as [Hp0 Hne].
      apply filter_In in Hp0. destruct Hp0 as [_ Hc].
      apply Z.eqb_eq in Hc. apply negb_true_iff, Z.eqb_neq in Hne. auto.
    + apply firstn_le_length.
    + intros m Hm.
      destruct (sortDesc msg_createdAt
                  (filter (fun m => msg_conversationId m =? conv_id c) (messages db)))
        as [|h t] eqn:Hsorted; [destruct Hm|].
      cbn [firstn] in Hm. destruct Hm as [<- | []].
      apply sortDesc_head in Hsorted. destruct Hsorted as [Hh Hmax].
      apply filter_In in Hh. destruct Hh as [Hh Hc]. apply Z.eqb_eq in Hc.
      split; [exact Hh|]. split; [exact Hc|].
      intros m' Hm' Hc'. apply Hmax. apply filter_In. split; [exact Hm'|].
      apply Z.eqb_eq. exact Hc'.
Qed.

(** [getConversationDetails] on a consistent database: a participant gets
    the conversation with that id and the list of its participants, which
    includes the caller; anybody else gets an AuthorizationError.  Nothing
    is written, and the "Conversation not found" answer never comes: a
    conversation that has a participant exists. *)
Theorem getConversationDetails_gate (conversationId userId : Z) (db : Db) :
  Consistent db ->
  if member db conversationId userId
  then exists c,
         getConversationDetails conversationId userId db
         = (Returned (includeParticipants db c), db)
         /\ In c (conversations db)
         /\ conv_id c = conversationId
         /\ exists p, In p (map fst (cwp_participants (includeParticipants db c)))
                      /\ part_userId p = userId
  else exists e,
         getConversationDetails conversationId userId db = (Thrown e, db)
         /\ kindOf e = AuthorizationError.
Proof.
  intros Hc. unfold getConversationDetails, validateMembership. run.
  rewrite isParticipant_member. unfold member.
  destruct (participant_findUnique userId conversationId db) as [p|] eqn:Hp;
    cbn [negb].
  - destruct (participant_findUnique_some _ _ _ _ Hp) as (Hin & Hu & Hpc).
    destruct (participant_conversation db Hc p Hin) as [c Hconv].
    rewrite Hpc in Hconv. rewrite Hconv.
    destruct (conversation_findUnique_some _ _ _ Hconv) as [Hcin Hid].
    exists c. split; [reflexivity|]. split; [exact Hcin|]. split; [exact Hid|].
    exists p. split; [|exact Hu].
    unfold includeParticipants. cbn [cwp_participants]. rewrite map_map.
    cbn [fst]. rewrite map_id. unfold participantsOf. apply filter_In.
    split; [exact Hin|]. apply Z.eqb_eq. congruence.
  - eexists. split; reflexivity.
Qed.

Lemma getConversationDetails_gate_witness :
  exists e, getConversationDetails 20 1 Sample.team = (Thrown e, Sample.team)
            /\ kindOf e = AuthorizationError.
Proof.
  exact (getConversationDetails_gate 20 1 Sample.team sample_team_consistent).
Defined.

Lemma member_created now name isGroup rows db userId isAdmin :
  In (userId, isAdmin) rows ->
  member (created now name isGroup rows db) (nextConversationId db) userId = true.
Proof.
  intros Hin. rewrite <- hasParticipant_member.
  unfold hasParticipant, created. cbn [participants]. apply existsb_exists.
  assert (forall firstId,
            exists p, In p (freshRows now (nextConversationId db) firstId rows)
                      /\ part_userId p = userId
                      /\ part_conversationId p = nextConversationId db) as Hrow.
  { induction rows as [|[u a] rows IH]; [destruct Hin|]. intros firstId.
    cbn [freshRows]. destruct Hin as [Heq | Hin].
    - injection Heq as -> ->. eexists. split; [left; reflexivity|]. auto.
    - destruct (IH Hin (firstId + 1)) as (p & Hp & Hu & Hc).
      exists p. split; [right; exact Hp|]. auto. }
  destruct (Hrow (nextParticipantId db)) as (p & Hp & Hu & Hc).
  exists p. split; [apply in_or_app; right; exact Hp|].
  rewrite Hu, Hc, !Z.eqb_refl. reflexivity.
Qed.

(** Whatever conversation [findOrCreatePrivateConversation] returns is a
    stored private (non-group) conversation of which both users are
    participants, and the two users are distinct; it was either there before
    or is the one conversation the call added. *)
Theorem findOrCreatePrivateConversation_members
    (now : Date) (user1Id user2Id : Z) (db db' : Db)
    (r : ConversationWithParticipants) :
  findOrCreatePrivateConversation now user1Id user2Id db = (Returned r, db') ->
  user1Id <> user2Id
  /\ conv_isGroup (cwp_conversation r) = false
  /\ In (cwp_conversation r) (conversations db')
  /\ member db' (conv_id (cwp_conversation r)) user1Id = true
  /\ member db' (conv_id (cwp_conversation r)) user2Id = true
  /\ (db' = db
      \/ conversations db' = (conversations db ++ [cwp_conversation r])%list).
Proof.
  unfold findOrCreatePrivateConversation.
  destruct (user1Id =? user2Id) eqn:Hne; [discriminate|].
  apply Z.eqb_neq in Hne. run.
  destruct (find (isPrivateBetween db user1Id user2Id) (conversations db))
    as [c|] eqn:Hfind.
  - intros H. injection H as <- <-. cbn [includeParticipants cwp_conversation].
    apply find_some in Hfind. destruct Hfind as [Hin Hpriv].
    unfold isPrivateBetween in Hpriv.
    apply andb_prop in Hpriv. destruct Hpriv as [Hpriv H2].
    apply andb_prop in Hpriv. destruct Hpriv as [Hg H1].
    rewrite hasParticipant_member in H1, H2. apply negb_true_iff in Hg.
    repeat split; auto.
  - destruct (conversation_create now None false
                [(user1Id, false); (user2Id, false)] db) as [[c|e] db1] eqn:Hcreate;
      [|discriminate].
    intros H. injection H as <- <-.
    apply conversation_create_returned in Hcreate. destruct Hcreate as [-> ->].
    cbn [includeParticipants cwp_conversation conv_id conv_isGroup].
    split; [exact Hne|]. split; [reflexivity|]. split.
    { unfold created. cbn [conversations]. apply in_or_app. right. left.
      reflexivity. }
    split; [apply (member_created _ _ _ _ _ _ false); left; reflexivity|].
    split; [apply (member_created _ _ _ _ _ _ false); right; left; reflexivity|].
    right. reflexivity.
Qed.

Lemma findOrCreatePrivateConversation_members_witness :
  member (snd (findOrCreatePrivateConversation 99 1 5 Sample.empty)) 10 1 = true
  /\ member (snd (findOrCreatePrivateConversation 99 1 5 Sample.empty)) 10 5 = true.
Proof.
  destruct (findOrCreatePrivateConversation 99 1 5 Sample.empty) as [r db'] eqn:Hrun.
  assert (exists c, r = Returned c /\ conv_id (cwp_conversation c) = 10)
    as (c & -> & Hid).
  { vm_compute in Hrun. injection Hrun as <- _. eexists. split; reflexivity. }
  destruct (findOrCreatePrivateConversation_members 99 1 5 Sample.empty db' c Hrun)
    as (_ & _ & _ & H1 & H2 & _).
  rewrite Hid in H1, H2. auto.
Defined.

(** Whenever [createGroupConversation] returns, the creator and everybody
    named in [participantIds] are participants of the new group. *)
Theorem createGroupConversation_members
    (now : Date) (name : string) (adminId : Z) (ids : list Z) (db db' : Db)
    (c : Conversation) :
  createGroupConversation now name adminId (Some ids) db = (Returned c, db') ->
  member db' (conv_id c) adminId = true
  /\ forall id, In id ids -> member db' (conv_id c) id = true.
Proof.
  destruct ids as [|id0 ids]; [discriminate|].
  rewrite createGroupConversation_nonempty. intros Hrun.
  apply conversation_create_returned in Hrun. destruct Hrun as [-> ->].
  cbn [conv_id].
  assert (Hadmin : member (created now (Some name) true
                             (groupRows adminId (id0 :: ids)) db)
                          (nextConversationId db) adminId = true).
  { apply (member_created _ _ _ _ _ _ true). left. reflexivity. }
  split; [exact Hadmin|].
  intros id Hin. destruct (Z.eq_dec id adminId) as [->|Hne]; [exact Hadmin|].
  apply (member_created _ _ _ _ _ _ false). right.
  apply in_map_iff. exists id. split; [reflexivity|].
  apply filter_In. split; [exact Hin|]. apply negb_true_iff, Z.eqb_neq. exact Hne.
Qed.

Lemma createGroupConversation_members_witness :
  member (snd (createGroupConversation 100 "team" 5 (Some [7; 5; 8]) Sample.empty))
         10 8 = true.
Proof.
  destruct (createGroupConversation_members 100 "team" 5 [7; 5; 8] Sample.empty
              (snd (createGroupConversation 100 "team" 5 (Some [7; 5; 8])
                      Sample.empty))
              (mkConversation 10 (Some "team") true None 100) eq_refl)
    as [_ Hall].
  apply (Hall 8). right. right. left. reflexivity.
Defined.

Lemma sortDesc_newest_last {A} (key : A -> Z) (l : list A) (x : A) :
  (forall y, In y l -> key y < key x) ->
  sortDesc key (l ++ [x]) = x :: sortDesc key l.
Proof.
  induction l as [|h t IH]; intros Hlt; [reflexivity|].
  cbn [app sortDesc fold_right]. fold (sortDesc key (t ++ [x])).
  fold (sortDesc key t).
  rewrite IH by (intros y Hy; apply Hlt; right; exact Hy).
  cbn [insertDesc].
  assert ((key x <=? key h) = false) as ->; [|reflexivity].
  apply Z.leb_gt. apply Hlt. left. reflexivity.
Qed.

Lemma hasParticipant_same_participants db db' c u :
  participants db' = participants db ->
  hasParticipant db' c u = hasParticipant db c u.
Proof. intros H. unfold hasParticipant. rewrite H. reflexivity. Qed.

(** New activity tops the list.  When [createMessage] returns at a time
    later than the last update of every other conversation and than every
    earlier message of the conversation, the conversation list of each of
    its participants starts with that conversation, and shows the new
    message as its last message. *)
Theorem newest_activity_tops_the_list
    (now : Date) (userId conversationId : Z) (content : string)
    (db db' : Db) (saved : MessageWithUser) (viewer : Z) :
  createMessage now userId conversationId content db = (Returned saved, db') ->
  member db conversationId viewer = true ->
  (forall c, In c (conversations db) -> conv_id c <> conversationId ->
             conv_updatedAt c < now) ->
  (forall m, In m (messages db) -> msg_conversationId m = conversationId ->
             msg_createdAt m < now) ->
  exists item rest,
    getUserConversations viewer db' = (Returned (item :: rest), db')
    /\ conv_id (item_conversation item) = conversationId
    /\ conv_updatedAt (item_conversation item) = now
    /\ item_messages item = [mwu_message saved].
Proof.
  intros Hrun Hviewer Hothers Hearlier.
  assert (exists u c, user_findUnique userId db = Some u
                      /\ conversation_findUnique conversationId db = Some c)
    as (u & c & Hu & Hc).
  { unfold createMessage, message_create in Hrun. run.
    destruct (user_findUnique userId db) as [u|]; [|discriminate].
    destruct (conversation_findUnique conversationId db) as [c|]; [|discriminate].
    eauto. }
  pose proof (createMessage_member now userId conversationId content db u c Hu Hc)
    as Hshape. cbv zeta in Hshape. rewrite Hshape in Hrun.
  injection Hrun as <- <-. clear Hshape.
  set (m := mkMessage (nextMessageId db) userId conversationId content
                      false false now now).
  set (db' := mkDb (users db)
                   (map (touch conversationId now (nextMessageId db))
                        (conversations db))
                   (participants db) (messages db ++ [m])
                   (nextConversationId db) (nextParticipantId db)
                   (nextMessageId db + 1)).
  unfold getUserConversations, query.
  destruct (conversation_findUnique_some _ _ _ Hc) as [Hcin Hcid].
  assert (Hin : In (touched now (nextMessageId db) c)
                   (filter (fun c0 => hasParticipant db' (conv_id c0) viewer)
                           (conversations db'))).
  { apply filter_In. split.
    - unfold db'. cbn [conversations]. apply in_map_iff. exists c.
      split; [|exact Hcin]. unfold touch.
      destruct (conv_id c =? conversationId) eqn:Hsame; [reflexivity|].
      apply Z.eqb_neq in Hsame. congruence.
    - cbn [touched conv_id]. rewrite Hcid.
      rewrite (hasParticipant_same_participants db db') by reflexivity.
      rewrite hasParticipant_member. exact Hviewer. }
  destruct (sortDesc conv_updatedAt
              (filter (fun c0 => hasParticipant db' (conv_id c0) viewer)
                      (conversations db'))) as [|top rest] eqn:Hlisted.
  { exfalso. apply (sortDesc_in conv_updatedAt) in Hin.
    rewrite Hlisted in Hin. destruct Hin. }
  apply sortDesc_head in Hlisted.
  destruct Hlisted as [Htop Hmax].
  specialize (Hmax _ Hin). cbn [touched conv_updatedAt] in Hmax.
  apply filter_In in Htop. destruct Htop as [Htop _].
  unfold db' in Htop. cbn [conversations] in Htop.
  apply in_map_iff in Htop. destruct Htop as (c0 & Htouch & Hc0).
  assert (Hid : conv_id top = conversationId /\ conv_updatedAt top = now).
  { unfold touch in Htouch. destruct (conv_id c0 =? conversationId) eqn:Hsame.
    - apply Z.eqb_eq in Hsame. subst top. cbn. auto.
    - apply Z.eqb_neq in Hsame. subst top.
      specialize (Hothers c0 Hc0 Hsame). lia. }
  destruct Hid as [Hid Hupdated].
  do 2 eexists. cbn [map]. split; [reflexivity|].
  cbn [item_conversation item_messages]. split; [exact Hid|].
  split; [exact Hupdated|].
  rewrite Hid. unfold db'. cbn [messages]. rewrite filter_app.
  cbn [filter]. unfold m at 1. cbn [msg_conversationId].
  rewrite Z.eqb_refl. rewrite sortDesc_newest_last; [reflexivity|].
  intros y Hy. apply filter_In in Hy. destruct Hy as [Hy Hyc].
  apply Z.eqb_eq in Hyc. cbn [m msg_createdAt]. apply Hearlier; assumption.
Qed.

(** User 1 writes to conversation 10 at time 99. *)
Lemma newest_activity_tops_the_list_witness :
  exists item rest,
    getUserConversations 2 (snd (createMessage 99 1 10 "hi" Sample.chat))
    = (Returned (item :: rest), snd (createMessage 99 1 10 "hi" Sample.chat))
    /\ conv_id (item_conversation item) = 10
    /\ map msg_content (item_messages item) = ["hi"].
Proof.
  destruct (newest_activity_tops_the_list 99 1 10 "hi" Sample.chat
              (snd (createMessage 99 1 10 "hi" Sample.chat))
              (mkMWU (mkMessage 3 1 10 "hi" false false 99 99)
                     (mkAuthor 1 "amal" None)) 2 eq_refl eq_refl)
    as (item & rest & Hrun & Hid & _ & Hmsg).
  - intros c [<- | []] Hne. exfalso. apply Hne. reflexivity.
  - intros m [<- | [<- | []]] _; cbn; lia.
  - exists item, rest. split; [exact Hrun|]. split; [exact Hid|].
    rewrite Hmsg. reflexivity.
Defined.

Lemma find_replace_other {A} (id : A -> Z) (f : A -> A) (i j : Z) (l : list A) :
  (forall x, id (f x) = id x) -> i <> j ->
  find (fun x => id x =? j) (map (fun x => if id x =? i then f x else x) l)
  = find (fun x => id x =? j) l.
Proof.
  intros Hid Hne. induction l as [|x l IH]; [reflexivity|]. cbn [map find].
  destruct (id x =? i) eqn:Hi.
  - rewrite Hid. apply Z.eqb_eq in Hi.
    assert ((id x =? j) = false) as -> by (apply Z.eqb_neq; lia). exact IH.
  - destruct (id x =? j); [reflexivity|exact IH].
Qed.

(** [updateStatus] concerns one user.  For a stored user it returns the id
    and name with the new flag and the time of the call, stores exactly that
    on the user's row, and leaves every other user and every other table
    untouched; for an unknown id it throws a storage error and changes
    nothing. *)
Theorem updateStatus_touches_one_user
    (now : Date) (userId : Z) (status : bool) (db : Db) :
  match user_findUnique userId db with
  | Some u =>
      exists db',
        updateStatus now userId status db
        = (Returned (mkUserStatus (user_id u) (user_username u) status now), db')
        /\ user_findUnique userId db'
           = Some (mkUser (user_id u) (user_username u) (user_avatar u) status now)
        /\ (forall other, other <> userId ->
                          user_findUnique other db' = user_findUnique other db)
        /\ conversations db' = conversations db
        /\ participants db' = participants db
        /\ messages db' = messages db
  | None =>
      exists e, updateStatus now userId status db = (Thrown e, db)
                /\ kindOf e = StorageError
  end.
Proof.
  destruct (user_findUnique userId db) as [u|] eqn:Hu.
  - rewrite (updateStatus_found now userId status db u Hu).
    eexists. split; [reflexivity|]. split; [|split; [|repeat split]].
    + rewrite user_findUnique_after_status, Hu. reflexivity.
    + intros other Hne. unfold user_findUnique, set_users. cbn [users].
      apply (find_replace_other user_id (withStatus status now)); auto.
  - unfold updateStatus. rewrite Hu. eexists. split; reflexivity.
Qed.

Lemma updateStatus_touches_one_user_witness :
  exists db',
    updateStatus 99 1 true Sample.chat
    = (Returned (mkUserStatus 1 "amal" true 99), db')
    /\ user_findUnique 2 db' = user_findUnique 2 Sample.chat.
Proof.
  pose proof (updateStatus_touches_one_user 99 1 true Sample.chat) as H.
  assert (Hu : user_findUnique 1 Sample.chat = Some (Sample.user 1 "amal"))
    by reflexivity.
  rewrite Hu in H. destruct H as (db' & Hrun & _ & Hothers & _).
  exists db'. split; [exact Hrun|]. apply Hothers. discriminate.
Defined.

Lemma getUserConversations_lists_witness :
  exists items,
    getUserConversations 1 Sample.chat = (Returned items, Sample.chat)
    /\ forall c, In c (map item_conversation items) ->
                 member Sample.chat (conv_id c) 1 = true.
Proof.
  destruct (getUserConversations_lists 1 Sample.chat) as (items & Hrun & Hiff & _).
  exists items. split; [exact Hrun|].
  intros c Hin. apply Hiff in Hin. tauto.
Defined.

Lemma markAsRead_marks_once_witness :
  exists db',
    markAsRead 10 1 Sample.chat = (Returned 1, db')
    /\ markAsRead 10 1 db' = (Returned 0, db').
Proof.
  destruct (markAsRead_marks_once 10 1 Sample.chat)
    as (db' & Hrun & _ & _ & _ & Hagain).
  exists db'. split; [exact Hrun|exact Hagain].
Defined.

(** A removed participant is locked out at once: after [removeParticipant]
    returns, a [sendMessage] from the target's socket to that conversation
    is answered with an error and stores and broadcasts nothing, and a
    [joinConversation] is answered with an error and joins no room. *)
Theorem removed_participant_is_locked_out
    (conversationId targetUserId requesterId : Z) (db db' : Db) (p : Participant)
    (now : Date) (client : Socket) (text : string) (receiverId : option Z)
    (log : list Emission) :
  removeParticipant conversationId targetUserId requesterId db = (Returned p, db') ->
  data_userId client = Some targetUserId ->
  (exists error,
     handleMessage now client (mkSend conversationId text receiverId)
                   (mkServer db' log)
     = (Returned (AckError error), mkServer db' log))
  /\ (exists error,
        handleJoinRoom client conversationId (mkServer db' log)
        = (Returned (client, AckError error), mkServer db' log)).
Proof.
  intros Hrun Hclient. apply removeParticipant_returned in Hrun.
  destruct Hrun as (_ & _ & _ & _ & ->).
  assert (Hgone :
    member (set_participants
              (filter (fun q => negb (isKey targetUserId conversationId q))) db)
           conversationId targetUserId = false).
  { unfold member. rewrite participant_findUnique_deleted. reflexivity. }
  split.
  - unfold handleMessage. rewrite Hclient. run.
    cbn [server_db server_emitted send_conversationId].
    rewrite isParticipant_member, Hgone. cbn [negb]. eexists. reflexivity.
  - unfold handleJoinRoom. rewrite Hclient. run.
    cbn [server_db server_emitted].
    rewrite isParticipant_member, Hgone. cbn [negb]. eexists. reflexivity.
Qed.

(** Member 8 is removed from group 20 and then tries to write to it. *)
Lemma removed_participant_is_locked_out_witness :
  exists error,
    handleMessage 99 (setUserId (Some 8) Sample.phone) (mkSend 20 "still here" None)
                  (mkServer (snd (removeParticipant 20 8 5 Sample.team)) [])
    = (Returned (AckError error),
       mkServer (snd (removeParticipant 20 8 5 Sample.team)) []).
Proof.
  destruct (removed_participant_is_locked_out 20 8 5 Sample.team
              (snd (removeParticipant 20 8 5 Sample.team))
              (mkParticipant 3 8 20 false 60) 99
              (setUserId (Some 8) Sample.phone) "still here" None []
              eq_refl eq_refl) as [Hsend _].
  exact Hsend.
Defined.

Lemma deleteConversation_cascades_witness :
  conversation_findUnique 20 (snd (deleteConversation 20 7 Sample.lastOne)) = None
  /\ filter (fun m => msg_conversationId m =? 20)
            (messages (snd (deleteConversation 20 7 Sample.lastOne))) = [].
Proof.
  exact (deleteConversation_cascades 20 7 Sample.lastOne
           (mkDeleteResult true "Conversation fully deleted")
           (snd (deleteConversation 20 7 Sample.lastOne)) eq_refl eq_refl).
Defined.

Lemma sample_team_keys : KeysUnique Sample.team.
Proof.
  constructor.
  - cbn. repeat constructor; cbn; intuition discriminate.
  - intros p q Hp Hq Hu Hc. cbn in Hp, Hq.
    destruct Hp as [<- | [<- | [<- | []]]], Hq as [<- | [<- | [<- | []]]];
      try reflexivity; discriminate Hu.
Qed.

(** Admin 5 leaves group 20 through [deleteConversation]. *)
Lemma deleteConversation_keeps_one_admin_witness :
  exists admin',
    admins (snd (deleteConversation 20 5 Sample.team)) 20 = [admin']
    /\ forall q, In q (participantsOf (snd (deleteConversation 20 5 Sample.team)) 20) ->
                 part_createdAt admin' <= part_createdAt q.
Proof.
  destruct (deleteConversation_keeps_one_admin 20 5 Sample.team
              (mkDeleteResult true "You left the conversation")
              (snd (deleteConversation 20 5 Sample.team))
              (mkParticipant 1 5 20 true 50)
              sample_team_keys eq_refl eq_refl ltac:(discriminate))
    as (admin' & Hone & _ & Holdest).
  exists admin'. split; [exact Hone|]. apply Holdest. reflexivity.
Defined.

Lemma reachable_invariant_witness :
  Invariant
    (perform (RemoveParticipant 10 5 5)
       (perform (CreateGroup 100 "team" 5 (Some [7; 8])) Sample.empty)).
Proof.
  apply (reachable_invariant Sample.empty).
  - apply fresh_database_invariant.
  - apply reach_call, reach_call, reach_start.
Defined.
